(** * Reminder scheduling, adherence and appointment conflicts

    A shallow embedding of the scheduling core of the repository:
    - [src/utils/scheduler.js]: the five-minute medication reminder pass
      (matcher, day marker, missed-dose detection), the daily appointment
      reminder pass and the hourly no-show sweep;
    - [src/models/Appointment.js]: the validators of the schema,
      [hasConflict], [endTime], [findAppointmentsForTomorrow],
      [markCompleted], [cancel] and the pre-save hook;
    - [src/models/MedicationHistory.js]: [getAdherenceRate],
      [shouldTakeAtTime], [wasOnTime], [findMedicationsForReminders],
      [getNextDoseTime], [isCurrentlyActive], [daysRemaining],
      [totalDays] and the pre-save hook of a medication;
    - [src/telegram-bot/bot.js]: [sendMedicationReminder],
      [sendAppointmentReminder];
    - [src/utils/email.js]: the per-medication timer registry and its
      callers.

    Conventions.  A JavaScript number that is only ever produced by integer
    arithmetic is a [num]: [Some z] or [None] for NaN; the adherence
    rate, a quotient, is a binary64 number ([float]).  A [Date] is its
    number of milliseconds, read in the local time zone at a fixed offset
    (no daylight-saving changes).  A pass reads the clock once: every
    [new Date()] of one callback run yields the same instant [now].
    Persistence and the chat channel are external: whether a [save()]
    resolves and whether [bot.sendMessage] resolves is given by the
    environment of the run, and so is the pattern validation of the cron
    library.  The validators of a schema run inside [save()], on every
    path of the document; the one that depends on the clock, the date of
    an appointment, decides with the others whether the sweep can save
    an appointment, and is computed.  The collections are lists of
    documents; [_id]s are distinct in a collection, which the theorems
    that need it assume.

    The first part holds the definitions, module by source file, then
    the observations the statements are phrased with and the scenarios
    they are tried on; the second part holds the properties. *)

From Stdlib Require Import ZArith Lia Ascii PrimFloat Uint63.
From Stdlib Require SpecFloat FloatOps FloatAxioms.
From stdpp Require Import base option list strings gmap pretty sorting.

Local Open Scope Z_scope.

(** ** JavaScript values *)

Module Js.

(** Numbers produced by integer arithmetic; [None] is NaN. *)
Definition num := option Z.
Definition NaN : num := None.

Definition add (a b : num) : num := x ← a; y ← b; Some (x + y).
Definition sub (a b : num) : num := x ← a; y ← b; Some (x - y).
Definition mul (a b : num) : num := x ← a; y ← b; Some (x * y).
Definition abs (a : num) : num := Z.abs <$> a.

(** Comparisons: any comparison with NaN is false. *)
Definition le (a b : num) : bool :=
  match a, b with Some x, Some y => x <=? y | _, _ => false end.
Definition lt (a b : num) : bool :=
  match a, b with Some x, Some y => x <? y | _, _ => false end.
Definition gt (a b : num) : bool := lt b a.
Definition strict_eq (a b : num) : bool :=
  match a, b with Some x, Some y => x =? y | _, _ => false end.

(** Decimal digits. *)
Definition is_digit (c : ascii) : bool :=
  let n := nat_of_ascii c in ((48 <=? n) && (n <=? 57))%nat.
Definition digit_value (c : ascii) : Z := Z.of_nat (nat_of_ascii c) - 48.

Fixpoint digits (acc : Z) (s : string) : num :=
  match s with
  | EmptyString => Some acc
  | String c r => if is_digit c then digits (10 * acc + digit_value c) r else NaN
  end.

(** [Number(s)] on the strings the time fields hold: a run of decimal
    digits is its value and the empty string is 0.  The other literal
    forms of [Number] (sign, fraction, exponent, radix prefix, blanks)
    do not occur in a value accepted by the schemas' time pattern and
    are mapped to NaN here. *)
Definition Number (s : string) : num := digits 0 s.

(** [s.split(sep)] for a one-character separator. *)
Fixpoint split (sep : ascii) (s : string) : list string :=
  match s with
  | EmptyString => [EmptyString]
  | String c r =>
      if Ascii.eqb c sep then EmptyString :: split sep r
      else match split sep r with
           | h :: t => String c h :: t
           | [] => [String c EmptyString]
           end
  end.

(** [const [a, b] = xs]: a missing element is [undefined], which the
    arithmetic that follows turns into NaN. *)
Definition destructure2 (xs : list num) : num * num :=
  (default NaN (xs !! 0%nat), default NaN (xs !! 1%nat)).

(** [const [h, m] = t.split(':').map(Number)] *)
Definition hoursAndMinutes (t : string) : num * num :=
  destructure2 (Number <$> split ":" t).

(** [h * 60 + m] *)
Definition minutesOfDay (t : string) : num :=
  let '(h, m) := hoursAndMinutes t in
  add (mul h (Some 60)) m.

(** Truthiness of a nullable string: the string when it is neither null
    nor empty. *)
Definition truthy (s : option string) : option string :=
  match s with
  | Some s' => if String.eqb s' "" then None else Some s'
  | None => None
  end.

(** The schemas' pattern [/^([0-1]?[0-9]|2[0-3]):[0-5][0-9]$/]. *)
Definition in_range (lo hi : nat) (c : ascii) : bool :=
  let n := nat_of_ascii c in ((lo <=? n) && (n <=? hi))%nat.

Definition matchesTimePattern (s : string) : bool :=
  match s with
  | String h (String c (String m1 (String m2 EmptyString))) =>
      is_digit h && Ascii.eqb c ":" && in_range 48 53 m1 && is_digit m2
  | String h1 (String h2 (String c (String m1 (String m2 EmptyString)))) =>
      ((in_range 48 49 h1 && is_digit h2) || (Ascii.eqb h1 "2" && in_range 48 51 h2))
      && Ascii.eqb c ":" && in_range 48 53 m1 && is_digit m2
  | _ => false
  end.

End Js.

(** ** Dates *)

Module Date.

Definition msPerMinute : Z := 60000.
Definition msPerHour : Z := 3600000.
Definition msPerDay : Z := 86400000.

(** Local calendar day number, and the instant that day starts
    ([setHours(0, 0, 0, 0)]). *)
Definition dayOf (t : Z) : Z := t / msPerDay.
Definition startOfDay (t : Z) : Z := t - t mod msPerDay.

Definition getHours (t : Z) : Z := (t mod msPerDay) / msPerHour.
Definition getMinutes (t : Z) : Z := (t mod msPerHour) / msPerMinute.

(** [d.setDate(d.getDate() + n)] *)
Definition addDays (t n : Z) : Z := t + n * msPerDay.

(** [d.setHours(h, m)]: the day, seconds and milliseconds of [d] are
    kept; a NaN argument gives an invalid date. *)
Definition setHours (t : Z) (h m : Js.num) : Js.num :=
  x ← h; y ← m;
  Some (startOfDay t + x * msPerHour + y * msPerMinute + t mod msPerMinute).

(** [moment(a).isSame(b, 'day')] *)
Definition isSameDay (a b : Z) : bool := dayOf a =? dayOf b.

(** [moment().format('HH:mm')] *)
Definition digit_char (d : Z) : ascii := ascii_of_nat (Z.to_nat (48 + d)).
Definition pad2 (n : Z) : string :=
  String (digit_char (n / 10)) (String (digit_char (n mod 10)) EmptyString).
Definition hhmm (h m : Z) : string :=
  String (digit_char (h / 10)) (String (digit_char (h mod 10)) (String ":" (pad2 m))).
Definition formatHHmm (t : Z) : string := hhmm (getHours t) (getMinutes t).

End Date.

(** ** Asynchronous callbacks: state and exceptions

    An [async] function body is a state transformer that either returns
    or throws; an awaited promise that rejects throws at the [await]. *)

Module Async.

Inductive JsError :=
| ReferenceError (name : string)
| TypeError (what : string)
| Rejected (call : string)
| LibraryError (message : string)
| ValidationError (message : string).

Inductive outcome (S A : Type) :=
| Returned (a : A) (s : S)
| Threw (e : JsError) (s : S).
Arguments Returned {S A} a s.
Arguments Threw {S A} e s.

Definition M (S A : Type) : Type := S → outcome S A.

Definition ret {S A} (a : A) : M S A := λ s, Returned a s.
Definition throw {S A} (e : JsError) : M S A := λ s, Threw e s.
Definition bind {S A B} (m : M S A) (k : A → M S B) : M S B :=
  λ s, match m s with
       | Returned a s' => k a s'
       | Threw e s' => Threw e s'
       end.
Definition get {S} : M S S := λ s, Returned s s.
Definition modify {S} (f : S → S) : M S unit := λ s, Returned tt (f s).

(** [try { body } catch (error) { handler }] *)
Definition tryCatch {S A} (body : M S A) (handler : JsError → M S A) : M S A :=
  λ s, match body s with
       | Returned a s' => Returned a s'
       | Threw e s' => handler e s'
       end.

(** [for (const x of xs) { body }] *)
Fixpoint forOf {S X} (xs : list X) (body : X → M S unit) : M S unit :=
  match xs with
  | [] => ret tt
  | x :: rest => bind (body x) (λ _, forOf rest body)
  end.

Definition stateOf {S A} (o : outcome S A) : S :=
  match o with Returned _ s => s | Threw _ s => s end.

Definition thrown {S A} (o : outcome S A) : option JsError :=
  match o with Returned _ _ => None | Threw e _ => Some e end.

End Async.

Import Async.

Declare Scope async_scope.
Delimit Scope async_scope with async.
Notation "x ⇐ m ;; k" := (Async.bind m (λ x, k))
  (at level 100, m at next level, right associativity) : async_scope.
Notation "m ;; k" := (Async.bind m (λ _, k))
  (at level 100, right associativity) : async_scope.

(** ** Documents *)

(** An ObjectId, by its string form ([toString()]). *)
Definition ObjectId := string.

Module User.
(** The fields [populate('patientId', 'name telegramId')] selects. *)
Record t := mk {
  _id : ObjectId;
  name : string;
  telegramId : option string   (* schema default: null *)
}.
End User.

Module Medication.
(** [medicationSchema] of [models/MedicationHistory.js], as returned by
    [find(...).populate('patientId', ...)]: [patientId] holds the
    referenced user, or [None] (null) when that user does not exist. *)
Record t := mk {
  _id : ObjectId;
  patientId : option User.t;
  name : string;
  timesPerDay : list string;
  startDate : Z;
  endDate : Z;
  isActive : bool;
  lastReminded : option Z   (* schema default: null *)
}.

Definition set_lastReminded (d : Z) (m : t) : t :=
  mk (_id m) (patientId m) (name m) (timesPerDay m) (startDate m) (endDate m)
     (isActive m) (Some d).
End Medication.

Module MedicationHistory.
Inductive Status := taken | missed | skipped | delayed.

#[global] Instance Status_eq_dec : EqDecision Status.
Proof. solve_decision. Defined.

Record t := mk {
  medicationId : ObjectId;
  patientId : ObjectId;
  takenAt : Z;
  scheduledTime : option string;
  status : Status;
  notes : string
}.
End MedicationHistory.

Module Appointment.
Inductive Status := scheduled | confirmed | completed | cancelled | rescheduled | no_show.

#[global] Instance Status_eq_dec : EqDecision Status.
Proof. solve_decision. Defined.

Record t := mk {
  _id : ObjectId;
  patientId : ObjectId;
  doctorId : ObjectId;
  date : Z;
  time : string;
  duration : Z;   (* schema default: 30 *)
  status : Status;
  completedAt : option Z;
  cancelledAt : option Z;
  cancellationReason : string;
  diagnosis : string;
  treatment : string
}.

Definition set_status (st : Status) (a : t) : t :=
  mk (_id a) (patientId a) (doctorId a) (date a) (time a) (duration a) st
     (completedAt a) (cancelledAt a) (cancellationReason a) (diagnosis a) (treatment a).

#[global] Instance t_eq_dec : EqDecision t.
Proof. solve_decision. Defined.
End Appointment.

(** ** The world a callback runs in *)

(** A reminder the chat channel accepted (or, without the bot module,
    the log line that stands for it). *)
Record Delivery := mkDelivery {
  chat : string;
  about : ObjectId
}.

(** The awaited calls on the store. *)
Inductive DbCall :=
| FindMedications
| SaveMedication (id : ObjectId)
| FindOneHistory
| CreateHistory
| FindAppointments
| SaveAppointment (id : ObjectId).

(** What is outside the program during one callback run. *)
Record Env := mkEnv {
  now : Z;
  botModuleLoads : bool;         (* [require('../telegram-bot/bot')] succeeds *)
  botStarted : bool;             (* TELEGRAM_BOT_TOKEN is set, [bot] is not null *)
  sendMessageResolves : string → bool;
  dbResolves : DbCall → bool
}.

(** The collections, the delivered reminders, and the counters of the
    running pass. *)
Record World := mkWorld {
  medications : list Medication.t;
  histories : list MedicationHistory.t;
  appointments : list Appointment.t;
  delivered : list Delivery;
  remindersSent : Z;
  missedDosesLogged : Z;
  markedAsNoShow : Z
}.

Definition with_medications (f : list Medication.t → list Medication.t) (w : World) : World :=
  mkWorld (f (medications w)) (histories w) (appointments w) (delivered w)
          (remindersSent w) (missedDosesLogged w) (markedAsNoShow w).
Definition with_histories (f : list MedicationHistory.t → list MedicationHistory.t) (w : World) : World :=
  mkWorld (medications w) (f (histories w)) (appointments w) (delivered w)
          (remindersSent w) (missedDosesLogged w) (markedAsNoShow w).
Definition with_appointments (f : list Appointment.t → list Appointment.t) (w : World) : World :=
  mkWorld (medications w) (histories w) (f (appointments w)) (delivered w)
          (remindersSent w) (missedDosesLogged w) (markedAsNoShow w).
Definition with_delivered (f : list Delivery → list Delivery) (w : World) : World :=
  mkWorld (medications w) (histories w) (appointments w) (f (delivered w))
          (remindersSent w) (missedDosesLogged w) (markedAsNoShow w).
Definition with_remindersSent (f : Z → Z) (w : World) : World :=
  mkWorld (medications w) (histories w) (appointments w) (delivered w)
          (f (remindersSent w)) (missedDosesLogged w) (markedAsNoShow w).
Definition with_missedDosesLogged (f : Z → Z) (w : World) : World :=
  mkWorld (medications w) (histories w) (appointments w) (delivered w)
          (remindersSent w) (f (missedDosesLogged w)) (markedAsNoShow w).
Definition with_markedAsNoShow (f : Z → Z) (w : World) : World :=
  mkWorld (medications w) (histories w) (appointments w) (delivered w)
          (remindersSent w) (missedDosesLogged w) (f (markedAsNoShow w)).

(** The chat channel accepts a reminder about [m]. *)
Definition deliver (telegramId : string) (m : Medication.t) (w : World) : World :=
  with_delivered (λ d, d ++ [mkDelivery telegramId (Medication._id m)]) w.

(** The stored document with the [_id] of [m] gets [lastReminded := d]. *)
Definition markReminded (m : Medication.t) (d : Z) (w : World) : World :=
  with_medications
    (map (λ x, if decide (Medication._id x = Medication._id m)
               then Medication.set_lastReminded d x else x)) w.

(** The stored document with the [_id] of [a] gets [status := st]. *)
Definition setStatus (a : Appointment.t) (st : Appointment.Status) (w : World) : World :=
  with_appointments
    (map (λ x, if decide (Appointment._id x = Appointment._id a)
               then Appointment.set_status st x else x)) w.

Definition callName (c : DbCall) : string :=
  match c with
  | FindMedications => "Medication.find"
  | SaveMedication _ => "medication.save"
  | FindOneHistory => "MedicationHistory.findOne"
  | CreateHistory => "MedicationHistory.create"
  | FindAppointments => "Appointment.find"
  | SaveAppointment _ => "appointment.save"
  end.

(** [await call]: the effect happens when the promise resolves; a
    rejected promise throws and leaves the store as it was. *)
Definition awaitDb {A} (env : Env) (c : DbCall) (effect : M World A) : M World A :=
  if dbResolves env c then effect else throw (Rejected (callName c)).

(** ** [src/telegram-bot/bot.js] *)

Module Bot.

(** [sendMedicationReminder(telegramId, medication)]: false without a
    bot; otherwise true when [bot.sendMessage] resolves and false when
    it rejects (the rejection is caught inside). *)
Definition sendMedicationReminder (env : Env) (telegramId : string)
    (medication : Medication.t) : M World bool :=
  if negb (botStarted env) then ret false
  else if sendMessageResolves env telegramId
       then (modify (deliver telegramId medication);; ret true)%async
       else ret false.

End Bot.

(** ** [src/models/MedicationHistory.js]: the Medication statics and methods *)

Module MedicationModel.

(** [findMedicationsForReminders()]: the documents the query selects,
    with [patientId] populated. *)
Definition findMedicationsForReminders (env : Env) : M World (list Medication.t) :=
  let today := Date.startOfDay (now env) in
  awaitDb env FindMedications
    (w ⇐ get;;
     ret (List.filter
            (λ m, Medication.isActive m
                  && (Medication.startDate m <=? today)
                  && (today <=? Medication.endDate m))
            (medications w)))%async.

(** [shouldTakeAtTime(timeString)] *)
Definition shouldTakeAtTime (m : Medication.t) (timeString : string) : bool :=
  existsb
    (λ scheduledTime,
       let schedMinutes := Js.minutesOfDay scheduledTime in
       let checkMinutes := Js.minutesOfDay timeString in
       Js.le (Js.abs (Js.sub schedMinutes checkMinutes)) (Some 5))
    (Medication.timesPerDay m).

(** [medication.lastReminded = d; await medication.save()]: the stored
    document with this [_id] gets the modified path. *)
Definition saveLastReminded (env : Env) (m : Medication.t) (d : Z) : M World unit :=
  awaitDb env (SaveMedication (Medication._id m)) (modify (markReminded m d)).

End MedicationModel.

(** ** [src/models/Appointment.js]: the validators of the schema *)

Module AppointmentSchema.

(** l.17-22: [date >= new Date().setHours(0, 0, 0, 0)]. *)
Definition dateValidator (nowMs date : Z) : bool := Date.startOfDay nowMs <=? date.

(** l.27-32: the time pattern. *)
Definition timeValidator (time : string) : bool := Js.matchesTimePattern time.

(** l.34-39: [min: 15], [max: 240]. *)
Definition durationValidator (duration : Z) : bool := (15 <=? duration) && (duration <=? 240).

(** [maxlength: n], on strings of one-byte characters. *)
Definition maxlength (n : nat) (s : string) : bool := (String.length s <=? n)%nat.

(** The validation that [doc.save()] runs before it calls the store:
    the validators of every path of the document, those of the paths
    that were loaded unchanged included.  The paths of the schema that
    the record does not hold (location, notes, symptoms, ...) are taken
    to pass; [status] is one of the enum by its type, and the required
    paths are present. *)
Definition validate (nowMs : Z) (a : Appointment.t) : bool :=
  dateValidator nowMs (Appointment.date a)
  && timeValidator (Appointment.time a)
  && durationValidator (Appointment.duration a)
  && maxlength 200 (Appointment.cancellationReason a)
  && maxlength 300 (Appointment.diagnosis a)
  && maxlength 500 (Appointment.treatment a).

End AppointmentSchema.

(** ** [src/utils/scheduler.js] *)

Module Scheduler.

(** The dispatcher bound at load time: the bot's, or the logging
    stand-in of the [catch] branch, which always reports true. *)
Definition sendMedicationReminder (env : Env) (telegramId : string)
    (medication : Medication.t) : M World bool :=
  if botModuleLoads env then Bot.sendMedicationReminder env telegramId medication
  else (modify (deliver telegramId medication);; ret true)%async.

(** The callback of [timesPerDay.some(...)], l.47-56. *)
Definition withinReminderWindow (currentTime scheduledTime : string) : bool :=
  let schedMinutes := Js.minutesOfDay scheduledTime in
  let currMinutes := Js.minutesOfDay currentTime in
  Js.le (Js.abs (Js.sub schedMinutes currMinutes)) (Some 2).

Definition shouldRemind (currentTime : string) (medication : Medication.t) : bool :=
  existsb (withinReminderWindow currentTime) (Medication.timesPerDay medication).

(** The callback of [timesPerDay.filter(...)], l.79-87. *)
Definition exactlyThirtyLate (currentTime scheduledTime : string) : bool :=
  let schedMinutes := Js.minutesOfDay scheduledTime in
  let currMinutes := Js.minutesOfDay currentTime in
  Js.strict_eq (Js.sub currMinutes schedMinutes) (Some 30).

Definition missedTimes (currentTime : string) (medication : Medication.t) : list string :=
  List.filter (exactlyThirtyLate currentTime) (Medication.timesPerDay medication).

(** [!lastReminded || !moment(lastReminded).isSame(today, 'day')] *)
Definition notRemindedToday (today : Z) (lastReminded : option Z) : bool :=
  match lastReminded with
  | None => true
  | Some d => negb (Date.isSameDay d today)
  end.

(** l.58-76: the reminder branch for one medication. *)
Definition remind (env : Env) (currentTime telegramId : string)
    (medication : Medication.t) : M World unit :=
  if shouldRemind currentTime medication then
    let today := now env in
    let lastReminded := Medication.lastReminded medication in
    if notRemindedToday today lastReminded then
      (success ⇐ sendMedicationReminder env telegramId medication;;
       if success : bool then
         (MedicationModel.saveLastReminded env medication (now env);;
          modify (with_remindersSent (λ n, n + 1)))
       else ret tt)%async
    else ret tt
  else ret tt.

(** The Date-valued identifiers that are in scope where the query of
    l.91-98 is built: those of the module, of the callback and of the
    two loop bodies.  [today] and [lastReminded] are [const]s of the
    block of [if (shouldRemind)], which ends at l.76, and no outer
    scope declares them. *)
Definition datesInScopeOfMissedLoop (env : Env) : gmap string Z :=
  {[ "currentDate" := Date.startOfDay (now env) ]}.

Definition identifier (scope : gmap string Z) (x : string) : M World Z :=
  match scope !! x with
  | Some v => ret v
  | None => throw (ReferenceError x)
  end.

Definition sameKeyToday (medication : Medication.t) (missedTime : string) (today : Z)
    (h : MedicationHistory.t) : bool :=
  bool_decide (MedicationHistory.medicationId h = Medication._id medication)
  && bool_decide (MedicationHistory.scheduledTime h = Some missedTime)
  && (Date.startOfDay today <=? MedicationHistory.takenAt h)
  && (MedicationHistory.takenAt h <? Date.addDays (Date.startOfDay today) 1).

(** l.89-114: the body of [for (const missedTime of missedTimes)]. *)
Definition logMissedDose (env : Env) (patient : User.t) (medication : Medication.t)
    (missedTime : string) : M World unit :=
  (today ⇐ identifier (datesInScopeOfMissedLoop env) "today";;
   existingHistory ⇐ awaitDb env FindOneHistory
                       (w ⇐ get;; ret (List.find (sameKeyToday medication missedTime today) (histories w)));;
   match existingHistory with
   | None =>
       awaitDb env CreateHistory
         (modify (with_histories (λ hs,
            hs ++ [MedicationHistory.mk (Medication._id medication) (User._id patient)
                     (now env) (Some missedTime) MedicationHistory.missed
                     "Automatically logged as missed dose"])));;
       modify (with_missedDosesLogged (λ n, n + 1))
   | Some _ => ret tt
   end)%async.

(** l.42-115: the body of [for (const medication of medications)]. *)
Definition processMedication (env : Env) (currentTime : string)
    (medication : Medication.t) : M World unit :=
  match Medication.patientId medication with
  | None => throw (TypeError "medication.patientId is null")
  | Some patient =>
      match Js.truthy (User.telegramId patient) with
      | None => ret tt   (* continue *)
      | Some telegramId =>
          (remind env currentTime telegramId medication;;
           forOf (missedTimes currentTime medication) (logMissedDose env patient medication))%async
      end
  end.

(** l.28-128: the callback of [cron.schedule('*/5 * * * *', ...)].  The
    returned value is the error the [catch] of l.125 logged, if any. *)
Definition medicationReminderPass (env : Env) : M World (option JsError) :=
  tryCatch
    (let currentTime := Date.formatHHmm (now env) in
     medications ⇐ MedicationModel.findMedicationsForReminders env;;
     modify (with_remindersSent (λ _, 0));;
     modify (with_missedDosesLogged (λ _, 0));;
     forOf medications (processMedication env currentTime);;
     ret None)%async
    (λ error, ret (Some error)).

(** l.170-203: the callback of the hourly [cron.schedule('0 * * * *', ...)]. *)
Definition overdue (twoHoursAgo : Z) (appointment : Appointment.t) : bool :=
  let '(hours, minutes) := Js.hoursAndMinutes (Appointment.time appointment) in
  let appointmentTime := Date.setHours (Appointment.date appointment) hours minutes in
  Js.lt appointmentTime (Some twoHoursAgo).

(** [appointment.status = st; await appointment.save()]: the document
    is validated as modified, then the store is called; a document the
    validators refuse rejects the save with a ValidationError and the
    store keeps what it had.  The pre-save hook of the schema does
    nothing here: the document is not new and its date, time and
    duration are not modified. *)
Definition saveStatus (env : Env) (a : Appointment.t) (st : Appointment.Status) : M World unit :=
  if AppointmentSchema.validate (now env) (Appointment.set_status st a)
  then awaitDb env (SaveAppointment (Appointment._id a)) (modify (setStatus a st))
  else throw (ValidationError "Appointment validation failed").

Definition findOverdueAppointments (env : Env) (twoHoursAgo : Z) : M World (list Appointment.t) :=
  awaitDb env FindAppointments
    (w ⇐ get;;
     ret (List.filter
            (λ a, (bool_decide (Appointment.status a = Appointment.scheduled)
                   || bool_decide (Appointment.status a = Appointment.confirmed))
                  && (Appointment.date a <? twoHoursAgo))
            (appointments w)))%async.

Definition sweepAppointment (env : Env) (twoHoursAgo : Z) (appointment : Appointment.t) : M World unit :=
  if overdue twoHoursAgo appointment then
    (saveStatus env appointment Appointment.no_show;;
     modify (with_markedAsNoShow (λ n, n + 1)))%async
  else ret tt.

Definition noShowSweep (env : Env) : M World (option JsError) :=
  tryCatch
    (let twoHoursAgo := now env - 2 * 60 * 60 * 1000 in
     overdueAppointments ⇐ findOverdueAppointments env twoHoursAgo;;
     modify (with_markedAsNoShow (λ _, 0));;
     forOf overdueAppointments (sweepAppointment env twoHoursAgo);;
     ret None)%async
    (λ error, ret (Some error)).

End Scheduler.

(** ** [src/models/Appointment.js] *)

Module AppointmentModel.

(** The documents [this.find(query)] of [hasConflict] selects. *)
Definition conflictCandidates (coll : list Appointment.t) (doctorId : ObjectId)
    (date : Z) (excludeId : option ObjectId) : list Appointment.t :=
  let appointmentDate := Date.startOfDay date in
  let nextDay := Date.addDays appointmentDate 1 in
  List.filter
    (λ a, bool_decide (Appointment.doctorId a = doctorId)
          && (appointmentDate <=? Appointment.date a)
          && (Appointment.date a <? nextDay)
          && (bool_decide (Appointment.status a = Appointment.scheduled)
              || bool_decide (Appointment.status a = Appointment.confirmed))
          && match excludeId with
             | Some ex => negb (bool_decide (Appointment._id a = ex))
             | None => true
             end)
    coll.

(** The test of the loop body, l.238-245. *)
Definition overlaps (startMinutes endMinutes : Js.num) (appointment : Appointment.t) : bool :=
  let existingStart := Js.minutesOfDay (Appointment.time appointment) in
  let existingEnd := Js.add existingStart (Some (Appointment.duration appointment)) in
  Js.lt startMinutes existingEnd && Js.gt endMinutes existingStart.

(** [hasConflict(doctorId, date, time, duration, excludeId = null)],
    on the collection [coll]. *)
Definition hasConflict (coll : list Appointment.t) (doctorId : ObjectId) (date : Z)
    (time : string) (duration : Z) (excludeId : option ObjectId) : bool :=
  let startMinutes := Js.minutesOfDay time in
  let endMinutes := Js.add startMinutes (Some duration) in
  existsb (overlaps startMinutes endMinutes)
          (conflictCandidates coll doctorId date excludeId).

(** [markCompleted(diagnosis = '', treatment = '')] and
    [cancel(reason = '')]: the document as it is handed to [save()]. *)
Definition markCompleted (nowMs : Z) (diagnosis treatment : string) (a : Appointment.t)
    : Appointment.t :=
  Appointment.mk (Appointment._id a) (Appointment.patientId a) (Appointment.doctorId a)
    (Appointment.date a) (Appointment.time a) (Appointment.duration a)
    Appointment.completed (Some nowMs) (Appointment.cancelledAt a)
    (Appointment.cancellationReason a)
    (if String.eqb diagnosis "" then Appointment.diagnosis a else diagnosis)
    (if String.eqb treatment "" then Appointment.treatment a else treatment).

Definition cancel (nowMs : Z) (reason : string) (a : Appointment.t) : Appointment.t :=
  Appointment.mk (Appointment._id a) (Appointment.patientId a) (Appointment.doctorId a)
    (Appointment.date a) (Appointment.time a) (Appointment.duration a)
    Appointment.cancelled (Appointment.completedAt a) (Some nowMs) reason
    (Appointment.diagnosis a) (Appointment.treatment a).

End AppointmentModel.

(** ** [src/models/MedicationHistory.js]: the MedicationHistory statics *)

Module HistoryModel.

Record Adherence := mkAdherence {
  adherenceRate : float;   (* a binary64 number *)
  totalDoses : Z;
  takenDoses : Z;
  missedDoses : Z;
  skippedDoses : Z;
  delayedDoses : Z
}.

(** The [$match] stage. *)
Definition matchQuery (nowMs : Z) (patientId : ObjectId) (medicationId : option ObjectId)
    (days : Z) (h : MedicationHistory.t) : bool :=
  let dateFrom := Date.addDays nowMs (- days) in
  bool_decide (MedicationHistory.patientId h = patientId)
  && (dateFrom <=? MedicationHistory.takenAt h)
  && match medicationId with
     | Some mid => bool_decide (MedicationHistory.medicationId h = mid)
     | None => true
     end.

(** [{ $sum: { $cond: [{ $eq: ['$status', st] }, 1, 0] } }] *)
Definition sumStatus (st : MedicationHistory.Status) (docs : list MedicationHistory.t) : Z :=
  fold_right (λ h acc, (if decide (MedicationHistory.status h = st) then 1 else 0) + acc) 0 docs.

(** [(result.taken / result.total) * 100] in binary64, the arithmetic
    of JavaScript numbers.  The counts of the [$group] stage reach the
    program as the binary64 numbers of these integers, which are exact
    below 2^53. *)
Definition rate64 (taken total : Z) : float :=
  (PrimFloat.of_uint63 (Uint63.of_Z taken) / PrimFloat.of_uint63 (Uint63.of_Z total) * 100)%float.

(** [getAdherenceRate(patientId, medicationId = null, days = 30)] on
    the collection [coll] at the instant [nowMs]. *)
Definition getAdherenceRate (coll : list MedicationHistory.t) (nowMs : Z)
    (patientId : ObjectId) (medicationId : option ObjectId) (days : Z) : Adherence :=
  let docs := List.filter (matchQuery nowMs patientId medicationId days) coll in
  match docs with
  | [] => mkAdherence 0%float 0 0 0 0 0
  | _ :: _ =>
      let total := Z.of_nat (length docs) in
      let taken := sumStatus MedicationHistory.taken docs in
      mkAdherence
        (if 0 <? total then rate64 taken total else 0%float)
        total taken
        (sumStatus MedicationHistory.missed docs)
        (sumStatus MedicationHistory.skipped docs)
        (sumStatus MedicationHistory.delayed docs)
  end.

(** [wasOnTime(toleranceMinutes = 30)] *)
Definition wasOnTime (h : MedicationHistory.t) (toleranceMinutes : Z) : bool :=
  match Js.truthy (MedicationHistory.scheduledTime h) with
  | None => false
  | Some scheduledTime =>
      if decide (MedicationHistory.status h = MedicationHistory.taken) then
        let scheduledMinutes := Js.minutesOfDay scheduledTime in
        let actualMinutes :=
          Some (Date.getHours (MedicationHistory.takenAt h) * 60
                + Date.getMinutes (MedicationHistory.takenAt h)) in
        Js.le (Js.abs (Js.sub actualMinutes scheduledMinutes)) (Some toleranceMinutes)
      else false
  end.

End HistoryModel.

(** ** [src/utils/email.js]: the per-medication timer registry *)

Module TimerRegistry.

(** The pattern [`${minutes} ${hours} * * *`]. *)
Record CronExpression := mkCron { minute : Js.num; hour : Js.num }.

Record Job := mkJob { expression : CronExpression; running : bool }.

(** The fields of the other medication schema ([medication.model.js])
    that the registry reads. *)
Record Frequency := mkFrequency { specificTimes : option (list string) }.
Record Prescription := mkPrescription {
  _id : ObjectId;
  frequency : option Frequency
}.

Record Reminder := mkReminder {
  userId : string;
  medicationId : ObjectId;
  chatId : option string;
  timers : list nat   (* handles: positions in [jobs] *)
}.

(** [activeReminders] and the tasks [cron.schedule] has created. *)
Record Registry := mkRegistry {
  activeReminders : gmap string Reminder;
  jobs : list Job
}.

(** [timer.stop()] *)
Definition stop (handle : nat) (r : Registry) : Registry :=
  mkRegistry (activeReminders r)
             (alter (λ j, mkJob (expression j) false) handle (jobs r)).

(** [cancelMedicationReminders(medicationId)] *)
Definition cancelMedicationReminders (medicationId : ObjectId) (r : Registry) : Registry :=
  match activeReminders r !! medicationId with
  | None => r
  | Some reminder =>
      let r' := fold_left (λ acc timer, stop timer acc) (timers reminder) r in
      mkRegistry (delete medicationId (activeReminders r')) (jobs r')
  end.

(** [cron.schedule(expression, handler, { scheduled: true, ... })]:
    the library validates the pattern, throwing on one it rejects, and
    otherwise starts a task.  [accepts] is the library's validation. *)
Definition cronSchedule (accepts : CronExpression → bool) (e : CronExpression) : M Registry nat :=
  if accepts e then
    (r ⇐ get;;
     modify (λ r, mkRegistry (activeReminders r) (jobs r ++ [mkJob e true]));;
     ret (length (jobs r)))%async
  else throw (LibraryError "invalid cron expression").

Definition expressionOf (time : string) : CronExpression :=
  let '(hours, minutes) := Js.hoursAndMinutes time in
  mkCron minutes hours.

(** The loop of l.486-522; [timers] is [reminder.timers]. *)
Fixpoint createTriggers (accepts : CronExpression → bool) (times : list string)
    (timers : list nat) : M Registry (list nat) :=
  match times with
  | [] => ret timers
  | time :: rest =>
      (job ⇐ cronSchedule accepts (expressionOf time);;
       createTriggers accepts rest (timers ++ [job]))%async
  end.

(** [scheduleMedicationReminders(medication, user)] *)
Definition scheduleMedicationReminders (accepts : CronExpression → bool)
    (medication : Prescription) (user : User.t) : M Registry unit :=
  match frequency medication ≫= specificTimes with
  | None => ret tt
  | Some times =>
      (modify (cancelMedicationReminders (_id medication));;
       timers ⇐ createTriggers accepts times [];;
       modify (λ r, mkRegistry
                      (<[_id medication := mkReminder (User._id user) (_id medication)
                                             (User.telegramId user) timers]> (activeReminders r))
                      (jobs r)))%async
  end.

(** The running task [cron.schedule] creates for a scheduled time. *)
Definition jobFor (time : string) : Job := mkJob (expressionOf time) true.

(** The live triggers: the time patterns of the running tasks. *)
Definition liveExpressions (r : Registry) : list CronExpression :=
  expression <$> List.filter running (jobs r).

End TimerRegistry.

(** ** Observations on runs of the reminder pass *)

(** Whether the dispatcher bound in the scheduler reports success. *)
Definition dispatchSucceeds (env : Env) (telegramId : string) : bool :=
  if botModuleLoads env then botStarted env && sendMessageResolves env telegramId else true.

(** The number of reminders delivered about the medication [i]. *)
Definition deliveriesAbout (i : ObjectId) (w : World) : nat :=
  length (List.filter (λ d, bool_decide (about d = i)) (delivered w)).

(** The stored documents with [_id = i]. *)
Definition storedAs (i : ObjectId) (w : World) : list Medication.t :=
  List.filter (λ m, bool_decide (Medication._id m = i)) (medications w).

(** The marker of the medication [i] falls on the calendar day [D]. *)
Definition remindedOn (D : Z) (i : ObjectId) (w : World) : Prop :=
  ∀ m, m ∈ storedAs i w → ∃ d, Medication.lastReminded m = Some d ∧ Date.dayOf d = D.

(** The documents [findMedicationsForReminders] selects, and the
    counters as the pass initialises them. *)
Definition selected (env : Env) (w : World) : list Medication.t :=
  List.filter
    (λ m, Medication.isActive m
          && (Medication.startDate m <=? Date.startOfDay (now env))
          && (Date.startOfDay (now env) <=? Medication.endDate m))
    (medications w).

Definition resetCounters (w : World) : World :=
  with_missedDosesLogged (λ _, 0) (with_remindersSent (λ _, 0) w).

(** Successive firings of the five-minute trigger, one environment each. *)
Definition runPasses (envs : list Env) (w : World) : World :=
  fold_left (λ w env, stateOf (Scheduler.medicationReminderPass env w)) envs w.

(** What processing one medication can do to the world. *)
Inductive stepEffect (env : Env) (ct : string) (m : Medication.t) (w : World) : World → Prop :=
| step_nothing : stepEffect env ct m w w
| step_reminded tid :
    Scheduler.shouldRemind ct m = true →
    Scheduler.notRemindedToday (now env) (Medication.lastReminded m) = true →
    dispatchSucceeds env tid = true →
    dbResolves env (SaveMedication (Medication._id m)) = true →
    stepEffect env ct m w
      (with_remindersSent (λ n, n + 1) (markReminded m (now env) (deliver tid m w)))
| step_unsaved tid :
    Scheduler.shouldRemind ct m = true →
    Scheduler.notRemindedToday (now env) (Medication.lastReminded m) = true →
    dispatchSucceeds env tid = true →
    dbResolves env (SaveMedication (Medication._id m)) = false →
    stepEffect env ct m w (deliver tid m w).

(** ** Observations on binary64 numbers *)

(** The mantissa a shift record stands for, rounded up. *)
Definition upper (mrs : SpecFloat.shr_record) : Z :=
  SpecFloat.shr_m mrs + (if SpecFloat.shr_r mrs || SpecFloat.shr_s mrs then 1 else 0).

(** A mantissa with its location, rounded up. *)
Definition upperOf (m : Z) (l : SpecFloat.location) : Z :=
  match l with SpecFloat.loc_Exact => m | SpecFloat.loc_Inexact _ => m + 1 end.

(** A number at or below the finite non-negative bound [mc * 2 ^ ec],
    and not below zero, in binary64. *)
Definition atMost (f : SpecFloat.spec_float) (mc ec : Z) : Prop :=
  match f with
  | SpecFloat.S754_zero s => s = false
  | SpecFloat.S754_finite s m e => s = false ∧ e ≤ ec ∧ Z.pos m ≤ mc * 2 ^ (ec - e)
  | _ => False
  end.

(** ** Observations on times of day *)

(** [H:MM], the hour written with one digit. *)
Definition hmm (h m : Z) : string := String (Date.digit_char h) (String ":" (Date.pad2 m)).

(** The string [s] writes the hour [h] and the minute [m]: as [HH:MM],
    or as [H:MM] when the hour is below ten.  These are the forms the
    pattern of the schemas accepts. *)
Definition spells (s : string) (h m : Z) : Prop :=
  s = Date.hhmm h m ∨ (h < 10 ∧ s = hmm h m).

(** ** Observations on the no-show sweep *)

(** The query of the sweep and its test of the start instant. *)
Definition sweeps (twoHoursAgo : Z) (a : Appointment.t) : bool :=
  (bool_decide (Appointment.status a = Appointment.scheduled)
   || bool_decide (Appointment.status a = Appointment.confirmed))
  && (Appointment.date a <? twoHoursAgo)
  && Scheduler.overdue twoHoursAgo a.

(** The documents the query of the sweep finds (l.176-179). *)
Definition found (twoHoursAgo : Z) (coll : list Appointment.t) : list Appointment.t :=
  List.filter
    (λ a, (bool_decide (Appointment.status a = Appointment.scheduled)
           || bool_decide (Appointment.status a = Appointment.confirmed))
          && (Appointment.date a <? twoHoursAgo))
    coll.

(** The documents that one run of the sweep's loop over [l] saves: the
    overdue ones, up to the first whose save the validators or the store
    refuse. *)
Fixpoint saved (env : Env) (twoHoursAgo : Z) (l : list Appointment.t) : list Appointment.t :=
  match l with
  | [] => []
  | a :: rest =>
      if Scheduler.overdue twoHoursAgo a then
        if AppointmentSchema.validate (now env) a
           && dbResolves env (SaveAppointment (Appointment._id a))
        then a :: saved env twoHoursAgo rest
        else []
      else saved env twoHoursAgo rest
  end.

(** The number of stored appointments with status no-show. *)
Definition noShows (coll : list Appointment.t) : Z :=
  Z.of_nat (length (List.filter
                      (λ a, bool_decide (Appointment.status a = Appointment.no_show)) coll)).

(** The collection after the documents with these [_id]s were saved as
    no-show. *)
Definition markAll (ids : list ObjectId) (coll : list Appointment.t) : list Appointment.t :=
  map (λ x, if bool_decide (Appointment._id x ∈ ids)
            then Appointment.set_status Appointment.no_show x else x) coll.

(** ** Scenarios *)

Module Scenario.

(** 2024-01-01, local time. *)
Definition day : Z := 19723 * Date.msPerDay.
Definition at_ (h m : Z) : Z := day + h * Date.msPerHour + m * Date.msPerMinute.

Definition alice : User.t := User.mk "u1" "Alice" (Some "chat1").

Definition aspirin : Medication.t :=
  Medication.mk "m1" (Some alice) "aspirin" ["08:00"; "20:00"]
                (day - 5 * Date.msPerDay) (day + 30 * Date.msPerDay) true None.

Definition statin : Medication.t :=
  Medication.mk "m2" (Some alice) "statin" ["08:30"]
                (day - 5 * Date.msPerDay) (day + 30 * Date.msPerDay) true None.

Definition ibuprofen : Medication.t :=
  Medication.mk "m3" (Some alice) "ibuprofen" ["08:00"]
                (day - 5 * Date.msPerDay) (day + 30 * Date.msPerDay) true None.

Definition world (meds : list Medication.t) : World := mkWorld meds [] [] [] 0 0 0.

(** Everything outside works: the bot is up and every call resolves. *)
Definition healthy (t : Z) : Env := mkEnv t true true (λ _, true) (λ _, true).

(** The store rejects the [save()] of one medication. *)
Definition saveFails (t : Z) (i : ObjectId) : Env :=
  mkEnv t true true (λ _, true)
        (λ c, match c with
              | SaveMedication j => negb (bool_decide (j = i))
              | _ => true
              end).

(** The chat channel is unreachable. *)
Definition channelDown (t : Z) : Env := mkEnv t true true (λ _, false) (λ _, true).

Definition appointment (id : ObjectId) (time : string) (duration : Z)
    (status : Appointment.Status) : Appointment.t :=
  Appointment.mk id "p1" "d1" day time duration status None None "" "" "".

(** An appointment of another day. *)
Definition appointmentOn (date : Z) (id : ObjectId) (time : string) (duration : Z)
    (status : Appointment.Status) : Appointment.t :=
  Appointment.mk id "p1" "d1" date time duration status None None "" "" "".

Definition existing_1000_1030 : list Appointment.t :=
  [appointment "a1" "10:00" 30 Appointment.confirmed].

Definition clinic (appts : list Appointment.t) : World := mkWorld [] [] appts [] 0 0 0.

(** The pattern validation of the cron library: minute 0-59, hour 0-23. *)
Definition cronAccepts (e : TimerRegistry.CronExpression) : bool :=
  match TimerRegistry.minute e, TimerRegistry.hour e with
  | Some m, Some h => (0 <=? m) && (m <=? 59) && (0 <=? h) && (h <=? 23)
  | _, _ => false
  end.

End Scenario.

(** ** [src/models/Appointment.js]: the virtual [endTime] and the pre-save hook *)

Module AppointmentDoc.

(** [n.toString()] of a number produced by integer arithmetic. *)
Definition toString (n : Js.num) : string :=
  match n with
  | Some z => pretty z
  | None => "NaN"
  end.

(** [s.padStart(2, '0')] *)
Definition padStart2 (s : string) : string :=
  match s with
  | EmptyString => "00"
  | String c EmptyString => String "0" (String c EmptyString)
  | _ => s
  end.

(** [Math.floor(x / 60)] and [x % 60]: the remainder has the sign of
    [x]. *)
Definition floorDiv60 (x : Js.num) : Js.num := (λ z, z / 60) <$> x.
Definition rem60 (x : Js.num) : Js.num := (λ z, Z.rem z 60) <$> x.

(** The virtual [endTime], l.136-142, for a duration of whole minutes,
    as the record holds it. *)
Definition endTime (a : Appointment.t) : string :=
  let '(hours, minutes) := Js.hoursAndMinutes (Appointment.time a) in
  let totalMinutes :=
    Js.add (Js.add (Js.mul hours (Some 60)) minutes) (Some (Appointment.duration a)) in
  let endHours := floorDiv60 totalMinutes in
  let endMinutes := rem60 totalMinutes in
  padStart2 (toString endHours) +:+ ":" +:+ padStart2 (toString endMinutes).

(** What [isNew] and [isModified(path)] answer for the document being
    saved. *)
Record Changes := mkChanges {
  isNew : bool;
  dateModified : bool;
  timeModified : bool;
  durationModified : bool
}.

Inductive HookOutcome :=
| Proceed
| Fail (name message : string).

(** The hook [pre('save')], l.269-286, against the stored collection. *)
Definition preSave (coll : list Appointment.t) (c : Changes) (doc : Appointment.t)
    : HookOutcome :=
  if isNew c || dateModified c || timeModified c || durationModified c then
    if AppointmentModel.hasConflict coll (Appointment.doctorId doc) (Appointment.date doc)
         (Appointment.time doc) (Appointment.duration doc) (Some (Appointment._id doc))
    then Fail "ValidationError" "Appointment time conflicts with existing appointment"
    else Proceed
  else Proceed.

(** [doc.save()] as far as the hook decides it: a new document is
    inserted, a loaded one replaces the stored document with its [_id];
    a failing hook leaves the collection as it is. *)
Definition store (coll : list Appointment.t) (c : Changes) (doc : Appointment.t)
    : list Appointment.t :=
  if isNew c then coll ++ [doc]
  else map (λ x, if decide (Appointment._id x = Appointment._id doc) then doc else x) coll.

Definition save (coll : list Appointment.t) (c : Changes) (doc : Appointment.t)
    : HookOutcome * list Appointment.t :=
  match preSave coll c doc with
  | Proceed => (Proceed, store coll c doc)
  | Fail name message => (Fail name message, coll)
  end.

End AppointmentDoc.

(** ** Observations on the collection of appointments *)

(** The status is one of those the conflict query selects. *)
Definition isActiveStatus (a : Appointment.t) : Prop :=
  Appointment.status a = Appointment.scheduled ∨ Appointment.status a = Appointment.confirmed.

(** No scheduled or confirmed appointment conflicts with another stored
    appointment. *)
Definition noDoubleBooking (coll : list Appointment.t) : Prop :=
  ∀ a b, In a coll → In b coll → isActiveStatus a →
         AppointmentModel.hasConflict [b] (Appointment.doctorId a) (Appointment.date a)
           (Appointment.time a) (Appointment.duration a) (Some (Appointment._id a)) = false.

(** ** [src/utils/scheduler.js] and [src/telegram-bot/bot.js]: the daily
    appointment reminders *)

Module AppointmentReminders.

(** An appointment as [findAppointmentsForTomorrow] returns it: the
    document, the populated patient and doctor ([None] when the
    referenced user does not exist), and the two reminder paths of the
    schema. *)
Record Populated := mkPopulated {
  doc : Appointment.t;
  patient : option User.t;
  doctor : option User.t;
  reminderSent : bool;          (* schema default: false *)
  reminderSentAt : option Z     (* schema default: null *)
}.

(** The collection, the reminders the chat channel accepted, and the
    counter of the running pass. *)
Record Clinic := mkClinic {
  records : list Populated;
  sent : list Delivery;
  remindersSent : Z
}.

Definition idOf (r : Populated) : ObjectId := Appointment._id (doc r).

Definition deliver (telegramId : string) (r : Populated) (w : Clinic) : Clinic :=
  mkClinic (records w) (sent w ++ [mkDelivery telegramId (idOf r)]) (remindersSent w).

(** [appointment.reminderSent = true; appointment.reminderSentAt = d]
    on the stored document with this [_id]. *)
Definition markSent (r : Populated) (d : Z) (w : Clinic) : Clinic :=
  mkClinic
    (map (λ x, if decide (idOf x = idOf r)
               then mkPopulated (doc x) (patient x) (doctor x) true (Some d) else x)
         (records w))
    (sent w) (remindersSent w).

Definition await {S A} (env : Env) (c : DbCall) (effect : M S A) : M S A :=
  if dbResolves env c then effect else throw (Rejected (callName c)).

(** [findAppointmentsForTomorrow()], Appointment.js l.175-189. *)
Definition forTomorrow (nowMs : Z) (r : Populated) : bool :=
  let tomorrow := Date.startOfDay (Date.addDays nowMs 1) in
  let dayAfter := Date.addDays tomorrow 1 in
  (tomorrow <=? Appointment.date (doc r))
  && (Appointment.date (doc r) <? dayAfter)
  && (bool_decide (Appointment.status (doc r) = Appointment.scheduled)
      || bool_decide (Appointment.status (doc r) = Appointment.confirmed))
  && negb (reminderSent r).

Definition findAppointmentsForTomorrow (env : Env) : M Clinic (list Populated) :=
  await env FindAppointments
    (w ⇐ get;; ret (List.filter (forTomorrow (now env)) (records w)))%async.

(** [sendAppointmentReminder(telegramId, appointment)] of bot.js,
    l.37-53: false without a bot; building the message reads
    [appointment.doctorId.name] inside the [try], so a missing doctor
    gives false, as does a rejected [bot.sendMessage]. *)
Definition botSendAppointmentReminder (env : Env) (telegramId : string)
    (appointment : Populated) : M Clinic bool :=
  if negb (botStarted env) then ret false
  else match doctor appointment with
       | None => ret false
       | Some _ =>
           if sendMessageResolves env telegramId
           then (modify (deliver telegramId appointment);; ret true)%async
           else ret false
       end.

(** The dispatcher bound in scheduler.js: the bot's, or the logging
    stand-in, which always reports true. *)
Definition sendAppointmentReminder (env : Env) (telegramId : string)
    (appointment : Populated) : M Clinic bool :=
  if botModuleLoads env then botSendAppointmentReminder env telegramId appointment
  else (modify (deliver telegramId appointment);; ret true)%async.

(** scheduler.js l.140-156: the body of the loop. *)
Definition processAppointment (env : Env) (appointment : Populated) : M Clinic unit :=
  match patient appointment with
  | None => throw (TypeError "appointment.patientId is null")
  | Some p =>
      match Js.truthy (User.telegramId p) with
      | None => ret tt   (* continue *)
      | Some telegramId =>
          (success ⇐ sendAppointmentReminder env telegramId appointment;;
           if success : bool then
             (await env (SaveAppointment (idOf appointment))
                (modify (markSent appointment (now env)));;
              modify (λ w, mkClinic (records w) (sent w) (remindersSent w + 1)))
           else ret tt)%async
      end
  end.

(** scheduler.js l.131-167: the callback of [cron.schedule('0 9 * * *', ...)]. *)
Definition appointmentReminderPass (env : Env) : M Clinic (option JsError) :=
  tryCatch
    (appointments ⇐ findAppointmentsForTomorrow env;;
     modify (λ w, mkClinic (records w) (sent w) 0);;
     forOf appointments (processAppointment env);;
     ret None)%async
    (λ error, ret (Some error)).

(** Observations: the reminders sent about an appointment, the stored
    documents with an [_id], successive firings, and whether the bound
    dispatcher reports success. *)
Definition sentAbout (i : ObjectId) (w : Clinic) : nat :=
  length (List.filter (λ d, bool_decide (about d = i)) (sent w)).

Definition storedAs (i : ObjectId) (w : Clinic) : list Populated :=
  List.filter (λ r, bool_decide (idOf r = i)) (records w).

Definition runPasses (envs : list Env) (w : Clinic) : Clinic :=
  fold_left (λ w env, stateOf (appointmentReminderPass env w)) envs w.

Definition dispatchSucceeds (env : Env) (telegramId : string) (r : Populated) : bool :=
  if botModuleLoads env
  then botStarted env && bool_decide (is_Some (doctor r)) && sendMessageResolves env telegramId
  else true.

End AppointmentReminders.

(** A clinic the day before [Scenario.day]: Alice's check-up of the next
    morning, and an appointment whose patient no longer exists. *)
Module ReminderScenario.

Definition drWho : User.t := User.mk "d1" "Dr. Who" None.

Definition checkup : AppointmentReminders.Populated :=
  AppointmentReminders.mkPopulated
    (Scenario.appointment "a1" "10:00" 30 Appointment.confirmed)
    (Some Scenario.alice) (Some drWho) false None.

Definition orphaned : AppointmentReminders.Populated :=
  AppointmentReminders.mkPopulated
    (Scenario.appointment "a0" "09:00" 30 Appointment.scheduled)
    None (Some drWho) false None.

Definition clinic (rs : list AppointmentReminders.Populated) : AppointmentReminders.Clinic :=
  AppointmentReminders.mkClinic rs [] 0.

(** 09:00 on the day before. *)
Definition eve : Z := Scenario.at_ 9 0 - Date.msPerDay.

End ReminderScenario.

(** ** [src/utils/email.js]: the callers of the timer registry *)

Module RegistryOps.

Import TimerRegistry.

(** [cancelUserReminders(userId)], l.543-549.  [order] lists the keys
    in the order in which [activeReminders.entries()] yields them; the
    iterator reads the live map, so an entry deleted before its turn is
    skipped. *)
Definition cancelUserReminders (order : list ObjectId) (uid : string) (r : Registry) : Registry :=
  fold_left
    (λ acc medId,
       match activeReminders acc !! medId with
       | Some reminder =>
           if bool_decide (userId reminder = uid)
           then cancelMedicationReminders medId acc
           else acc
       | None => acc
       end)
    order r.

(** [scheduleUserMedicationReminders(user)], l.440-463.  [found] is what
    [Medication.find] resolves to, [None] when it rejects; the [catch]
    logs the error and the call returns. *)
Definition scheduleUserMedicationReminders (accepts : CronExpression → bool)
    (order : list ObjectId) (found : option (list Prescription)) (user : User.t)
    : M Registry unit :=
  tryCatch
    (modify (cancelUserReminders order (User._id user));;
     match found with
     | None => throw (Rejected "Medication.find")
     | Some medications =>
         forOf medications (λ med, scheduleMedicationReminders accepts med user)
     end)%async
    (λ _, ret tt).

(** The calls that change the registry. *)
Inductive Call :=
| Schedule (medication : Prescription) (user : User.t)
| Cancel (medicationId : ObjectId)
| CancelUser (order : list ObjectId) (userId : string)
| ScheduleUser (order : list ObjectId) (found : option (list Prescription)) (user : User.t).

Definition call (accepts : CronExpression → bool) (c : Call) (r : Registry) : Registry :=
  match c with
  | Schedule medication user =>
      stateOf (scheduleMedicationReminders accepts medication user r)
  | Cancel medicationId => cancelMedicationReminders medicationId r
  | CancelUser order uid => cancelUserReminders order uid r
  | ScheduleUser order found user =>
      stateOf (scheduleUserMedicationReminders accepts order found user r)
  end.

Definition calls (accepts : CronExpression → bool) (cs : list Call) (r : Registry) : Registry :=
  fold_left (λ acc c, call accepts c acc) cs r.

(** The entry of medication [id] holds the handle [h]. *)
Definition owns (r : Registry) (id : ObjectId) (h : nat) : Prop :=
  ∃ reminder, activeReminders r !! id = Some reminder ∧ h ∈ timers reminder.

(** Every stored handle refers to a created task, and no task belongs
    to the entries of two medications. *)
Definition wellFormed (r : Registry) : Prop :=
  (∀ id h, owns r id h → (h < length (jobs r))%nat)
  ∧ (∀ id1 id2 h, owns r id1 h → owns r id2 h → id1 = id2).

(** [timer.stop()] on a task. *)
Definition stopped (j : Job) : Job := mkJob (expression j) false.

End RegistryOps.

(** Alice takes m1 at 08:00 and 20:00, Bob takes m2 at 09:00. *)
Module RegistryScenario.

Import TimerRegistry RegistryOps.

Definition bob : User.t := User.mk "u2" "Bob" (Some "chat2").

Definition prescription (id : ObjectId) (times : list string) : Prescription :=
  mkPrescription id (Some (mkFrequency (Some times))).

Definition empty : Registry := mkRegistry ∅ [].

Definition two_users : Registry :=
  stateOf (scheduleMedicationReminders Scenario.cronAccepts (prescription "m2" ["09:00"]) bob
    (stateOf (scheduleMedicationReminders Scenario.cronAccepts
                (prescription "m1" ["08:00"; "20:00"]) Scenario.alice empty))).

End RegistryScenario.

(** ** [src/models/MedicationHistory.js]: the virtuals and methods of a
    medication *)

Module MedicationMethods.

(** [xs.sort(compare)].  The sort is stable (ECMAScript 2019), so for a
    comparator that is a consistent order the result is the one of
    inserting the elements from the right, each before the first element
    it does not come after.  A comparator result of NaN counts as +0;
    where that makes the comparator inconsistent, ECMAScript leaves the
    order to the implementation, and this is one such order. *)
Section Sort.
Context {A : Type} (compare : A → A → Js.num).

(** [compare(x, y) > 0] *)
Definition comesAfter (x y : A) : bool := Js.gt (compare x y) (Some 0).

Fixpoint insertSorted (x : A) (l : list A) : list A :=
  match l with
  | [] => [x]
  | y :: rest => if comesAfter x y then y :: insertSorted x rest else x :: y :: rest
  end.

Definition sort (l : list A) : list A := foldr insertSorted [] l.

End Sort.

(** [{ time, minutes: hour * 60 + minute }] *)
Record Entry := mkEntry { time : string; minutes : Js.num }.

Definition entryOf (time : string) : Entry := mkEntry time (Js.minutesOfDay time).

(** [(a, b) => a.minutes - b.minutes] *)
Definition byMinutes (a b : Entry) : Js.num := Js.sub (minutes a) (minutes b).

(** [getNextDoseTime()], l.387-412; [None] is null. *)
Definition getNextDoseTime (nowMs : Z) (m : Medication.t) : option string :=
  let currentTime := Date.getHours nowMs * 60 + Date.getMinutes nowMs in
  let nextTimes :=
    sort byMinutes
      (List.filter (λ e, Js.gt (minutes e) (Some currentTime))
                   (entryOf <$> Medication.timesPerDay m)) in
  match nextTimes with
  | e :: _ => Some (time e)
  | [] =>
      let sortedTimes := sort byMinutes (entryOf <$> Medication.timesPerDay m) in
      match sortedTimes with
      | e :: _ => Some (time e)
      | [] => None
      end
  end.

(** The comparator of the hook [pre('save')], l.417-423. *)
Definition byTime (a b : string) : Js.num :=
  Js.sub (Js.minutesOfDay a) (Js.minutesOfDay b).

(** The hook [pre('save')], l.415-426; [timesModified] is
    [this.isModified('timesPerDay')]. *)
Definition preSave (timesModified : bool) (m : Medication.t) : Medication.t :=
  if timesModified then
    Medication.mk (Medication._id m) (Medication.patientId m) (Medication.name m)
      (sort byTime (Medication.timesPerDay m))
      (Medication.startDate m) (Medication.endDate m) (Medication.isActive m)
      (Medication.lastReminded m)
  else m.

(** [Math.ceil(a / b)] for integers [a] and [b > 0].  The quotient of
    two integers below 2^53 in magnitude, with [b] the milliseconds of a
    day, is rounded to a binary64 number on the same side of every
    integer, so the ceiling is the exact one. *)
Definition ceilDiv (a b : Z) : Z := - ((- a) / b).

(** The virtual [isCurrentlyActive], l.314-317. *)
Definition isCurrentlyActive (nowMs : Z) (m : Medication.t) : bool :=
  Medication.isActive m && (Medication.startDate m <=? nowMs) && (nowMs <=? Medication.endDate m).

(** The virtual [daysRemaining], l.320-326. *)
Definition daysRemaining (nowMs : Z) (m : Medication.t) : Z :=
  let diffTime := Medication.endDate m - nowMs in
  let diffDays := ceilDiv diffTime Date.msPerDay in
  if 0 <? diffDays then diffDays else 0.

(** The virtual [totalDays], l.329-334. *)
Definition totalDays (m : Medication.t) : Z :=
  let diffTime := Medication.endDate m - Medication.startDate m in
  ceilDiv diffTime Date.msPerDay.

(** The key of a time of day: its minutes, as the validated form gives
    them. *)
Definition earlierOrSame (s t : string) : Prop :=
  ∃ a b, Js.minutesOfDay s = Some a ∧ Js.minutesOfDay t = Some b ∧ a ≤ b.

End MedicationMethods.

(** * Properties *)

(** Linear arithmetic with division and remainder by constants. *)
Ltac divmod := Z.div_mod_to_equations; lia.

(** ** Times of day *)

Section TimeOfDay.

Example minutesOfDay_padded : Js.minutesOfDay "08:00" = Some 480.
Proof. reflexivity. Qed.

Example minutesOfDay_one_digit_hour : Js.minutesOfDay "8:05" = Some 485.
Proof. reflexivity. Qed.

(** Without a colon the minute is [undefined] and the sum is NaN. *)
Example minutesOfDay_no_colon : Js.minutesOfDay "0800" = Js.NaN.
Proof. reflexivity. Qed.

Example minutesOfDay_letters : Js.minutesOfDay "ab:cd" = Js.NaN.
Proof. reflexivity. Qed.

Example formatHHmm_morning : Date.formatHHmm (Scenario.at_ 8 5 + 17) = "08:05".
Proof. reflexivity. Qed.

Example setHours_keeps_seconds :
  Date.setHours (Scenario.day + 61500) (Some 10) (Some 30) = Some (Scenario.at_ 10 30 + 1500).
Proof. reflexivity. Qed.

Lemma in_range_bounds lo hi c :
  Js.in_range lo hi c = true → (lo ≤ nat_of_ascii c ≤ hi)%nat.
Proof.
  unfold Js.in_range. intros H. apply andb_true_iff in H as [H1 H2].
  apply Nat.leb_le in H1, H2. lia.
Qed.

Lemma in_range_digit lo hi c :
  (48 ≤ lo)%nat → (hi ≤ 57)%nat → Js.in_range lo hi c = true →
  Js.is_digit c = true
  ∧ Z.of_nat lo - 48 ≤ Js.digit_value c ≤ Z.of_nat hi - 48
  ∧ Ascii.eqb c ":" = false.
Proof.
  intros Hlo Hhi H. pose proof (in_range_bounds _ _ _ H) as Hb.
  split; [|split].
  - unfold Js.is_digit. apply andb_true_iff. split; apply Nat.leb_le; lia.
  - unfold Js.digit_value. lia.
  - destruct (Ascii.eqb c ":") eqn:E; [|done].
    apply Ascii.eqb_eq in E. subst c.
    change (nat_of_ascii ":") with 58%nat in Hb. lia.
Qed.

Ltac digit_facts c lo hi D B E :=
  match goal with
  | H : Js.in_range lo hi c = true |- _ =>
      destruct (in_range_digit lo hi c) as (D & B & E); [lia | lia | exact H |]
  | H : Js.is_digit c = true |- _ =>
      destruct (in_range_digit 48 57 c) as (D & B & E); [lia | lia | exact H |]
  end.

(** A string the schema pattern accepts parses to an hour and a minute
    of the day. *)
Lemma hoursAndMinutes_pattern s :
  Js.matchesTimePattern s = true →
  ∃ h m, 0 ≤ h < 24 ∧ 0 ≤ m < 60 ∧ Js.hoursAndMinutes s = (Some h, Some m).
Proof.
  intros H.
  destruct s as [|c1 [|c2 [|c3 [|c4 [|c5 [|c6 s]]]]]];
    unfold Js.matchesTimePattern in H; try discriminate.
  - rewrite !andb_true_iff in H. destruct H as [[[H1 H2] H3] H4].
    apply Ascii.eqb_eq in H2. subst c2.
    digit_facts c1 48%nat 57%nat D1 B1 E1.
    digit_facts c3 48%nat 53%nat D3 B3 E3.
    digit_facts c4 48%nat 57%nat D4 B4 E4.
    exists (Js.digit_value c1), (10 * Js.digit_value c3 + Js.digit_value c4).
    split; [lia|]. split; [lia|].
    unfold Js.hoursAndMinutes. cbn [Js.split]. rewrite E1.
    cbn [Ascii.eqb Bool.eqb Js.split]. rewrite E3, E4. cbn.
    rewrite D1, D3, D4. cbn. repeat f_equal; lia.
  - rewrite !andb_true_iff, orb_true_iff, !andb_true_iff in H.
    destruct H as [[[H H3] H4] H5].
    apply Ascii.eqb_eq in H3. subst c3.
    digit_facts c4 48%nat 53%nat D4 B4 E4.
    digit_facts c5 48%nat 57%nat D5 B5 E5.
    destruct H as [[Ha Hb]|[Ha Hb]].
    + digit_facts c1 48%nat 49%nat D1 B1 E1.
      digit_facts c2 48%nat 57%nat D2 B2 E2.
      exists (10 * Js.digit_value c1 + Js.digit_value c2),
             (10 * Js.digit_value c4 + Js.digit_value c5).
      split; [lia|]. split; [lia|].
      unfold Js.hoursAndMinutes. cbn [Js.split]. rewrite E1, E2.
      cbn [Ascii.eqb Bool.eqb Js.split]. rewrite E4, E5. cbn.
      rewrite D1, D2, D4, D5. cbn. repeat f_equal; lia.
    + apply Ascii.eqb_eq in Ha. subst c1.
      digit_facts c2 48%nat 51%nat D2 B2 E2.
      exists (20 + Js.digit_value c2), (10 * Js.digit_value c4 + Js.digit_value c5).
      split; [lia|]. split; [lia|].
      unfold Js.hoursAndMinutes. cbn [Js.split]. rewrite E2.
      cbn [Ascii.eqb Bool.eqb Js.split]. rewrite E4, E5. cbn.
      rewrite D2, D4, D5. cbn. repeat f_equal; lia.
Qed.

Lemma minutesOfDay_pattern s :
  Js.matchesTimePattern s = true →
  ∃ h m, 0 ≤ h < 24 ∧ 0 ≤ m < 60 ∧ Js.minutesOfDay s = Some (h * 60 + m).
Proof.
  intros H. destruct (hoursAndMinutes_pattern s H) as (h & m & Hh & Hm & E).
  exists h, m. unfold Js.minutesOfDay. by rewrite E.
Qed.

Lemma digit_char_facts d :
  0 ≤ d ≤ 9 →
  Js.is_digit (Date.digit_char d) = true
  ∧ Js.digit_value (Date.digit_char d) = d
  ∧ Ascii.eqb (Date.digit_char d) ":" = false.
Proof.
  intros Hd.
  assert (d = 0 ∨ d = 1 ∨ d = 2 ∨ d = 3 ∨ d = 4 ∨ d = 5 ∨ d = 6 ∨ d = 7
          ∨ d = 8 ∨ d = 9) as Hc by lia.
  repeat destruct Hc as [-> | Hc]; try subst d; repeat split; reflexivity.
Qed.

(** What [format('HH:mm')] prints parses back to the same minute. *)
Lemma minutesOfDay_hhmm h m :
  0 ≤ h < 100 → 0 ≤ m < 100 → Js.minutesOfDay (Date.hhmm h m) = Some (h * 60 + m).
Proof.
  intros Hh Hm.
  destruct (digit_char_facts (h / 10)) as (D1 & V1 & E1); [divmod|].
  destruct (digit_char_facts (h mod 10)) as (D2 & V2 & E2); [divmod|].
  destruct (digit_char_facts (m / 10)) as (D3 & V3 & E3); [divmod|].
  destruct (digit_char_facts (m mod 10)) as (D4 & V4 & E4); [divmod|].
  unfold Js.minutesOfDay, Js.hoursAndMinutes, Date.hhmm, Date.pad2. cbn [Js.split].
  rewrite E1, E2. cbn [Ascii.eqb Bool.eqb Js.split]. rewrite E3, E4. cbn.
  rewrite D1, D2, D3, D4. cbn. rewrite V1, V2, V3, V4. f_equal. divmod.
Qed.

Lemma forallb_range (P : Z → bool) (lo : Z) (n : nat) :
  forallb (λ k, P (lo + Z.of_nat k)) (seq 0 n) = true →
  ∀ z, lo ≤ z < lo + Z.of_nat n → P z = true.
Proof.
  intros Hall z Hz. rewrite forallb_forall in Hall.
  replace z with (lo + Z.of_nat (Z.to_nat (z - lo))) by lia.
  apply Hall, in_seq. lia.
Qed.

Lemma pattern_hhmm h m :
  0 ≤ h < 100 → 0 ≤ m < 60 →
  Js.matchesTimePattern (Date.hhmm h m) = bool_decide (h < 24).
Proof.
  intros Hh Hm.
  assert (forallb (λ i, forallb (λ j,
            bool_decide (Js.matchesTimePattern (Date.hhmm (0 + Z.of_nat i) (0 + Z.of_nat j))
                         = bool_decide (0 + Z.of_nat i < 24)))
            (seq 0 60)) (seq 0 100) = true) as Hall by (by vm_compute).
  apply (forallb_range (λ x, forallb (λ j,
           bool_decide (Js.matchesTimePattern (Date.hhmm x (0 + Z.of_nat j))
                        = bool_decide (x < 24))) (seq 0 60)) 0 100 Hall h) in Hh.
  apply (forallb_range (λ y,
           bool_decide (Js.matchesTimePattern (Date.hhmm h y) = bool_decide (h < 24)))
           0 60 Hh m) in Hm.
  by apply bool_decide_eq_true in Hm.
Qed.

Lemma pattern_hmm h m :
  0 ≤ h < 10 → 0 ≤ m < 60 → Js.matchesTimePattern (hmm h m) = true.
Proof.
  intros Hh Hm.
  assert (forallb (λ i, forallb (λ j,
            Js.matchesTimePattern (hmm (0 + Z.of_nat i) (0 + Z.of_nat j)))
            (seq 0 60)) (seq 0 10) = true) as Hall by (by vm_compute).
  apply (forallb_range (λ x, forallb (λ j,
           Js.matchesTimePattern (hmm x (0 + Z.of_nat j))) (seq 0 60)) 0 10 Hall h) in Hh.
  by apply (forallb_range (λ y, Js.matchesTimePattern (hmm h y)) 0 60 Hh m) in Hm.
Qed.

Lemma minutesOfDay_hmm h m :
  0 ≤ h < 10 → 0 ≤ m < 100 → Js.minutesOfDay (hmm h m) = Some (h * 60 + m).
Proof.
  intros Hh Hm.
  destruct (digit_char_facts h) as (D1 & V1 & E1); [lia|].
  destruct (digit_char_facts (m / 10)) as (D3 & V3 & E3); [divmod|].
  destruct (digit_char_facts (m mod 10)) as (D4 & V4 & E4); [divmod|].
  unfold Js.minutesOfDay, Js.hoursAndMinutes, hmm, Date.pad2. cbn [Js.split].
  rewrite E1. cbn [Ascii.eqb Bool.eqb Js.split]. rewrite E3, E4. cbn.
  rewrite D1, D3, D4. cbn. rewrite V1, V3, V4. f_equal. divmod.
Qed.

(** A digit is the character of its value. *)
Lemma digit_char_value c : Js.is_digit c = true → Date.digit_char (Js.digit_value c) = c.
Proof.
  intros H. unfold Js.is_digit in H. apply andb_true_iff in H as [H1 H2].
  apply Nat.leb_le in H1, H2. unfold Date.digit_char, Js.digit_value.
  replace (Z.to_nat (48 + (Z.of_nat (nat_of_ascii c) - 48))) with (nat_of_ascii c) by lia.
  apply ascii_nat_embedding.
Qed.

Lemma minutesOfDay_spells s h m :
  0 ≤ h < 24 → 0 ≤ m < 60 → spells s h m → Js.minutesOfDay s = Some (60 * h + m).
Proof.
  intros Hh Hm [->|[H10 ->]].
  - rewrite minutesOfDay_hhmm by lia. f_equal. lia.
  - rewrite minutesOfDay_hmm by lia. f_equal. lia.
Qed.

(** The strings the pattern accepts are the writings of the hours and
    minutes of the day. *)
Lemma pattern_spells s :
  Js.matchesTimePattern s = true ↔ ∃ h m, 0 ≤ h < 24 ∧ 0 ≤ m < 60 ∧ spells s h m.
Proof.
  split.
  - intros H.
    destruct s as [|c1 [|c2 [|c3 [|c4 [|c5 [|c6 s]]]]]];
      unfold Js.matchesTimePattern in H; try discriminate.
    + rewrite !andb_true_iff in H. destruct H as [[[H1 H2] H3] H4].
      apply Ascii.eqb_eq in H2. subst c2.
      digit_facts c1 48%nat 57%nat D1 B1 E1.
      digit_facts c3 48%nat 53%nat D3 B3 E3.
      digit_facts c4 48%nat 57%nat D4 B4 E4.
      exists (Js.digit_value c1), (10 * Js.digit_value c3 + Js.digit_value c4).
      split; [lia|]. split; [lia|]. right. split; [lia|].
      unfold hmm, Date.pad2.
      replace ((10 * Js.digit_value c3 + Js.digit_value c4) / 10) with (Js.digit_value c3)
        by divmod.
      replace ((10 * Js.digit_value c3 + Js.digit_value c4) mod 10) with (Js.digit_value c4)
        by divmod.
      by rewrite !digit_char_value.
    + rewrite !andb_true_iff, orb_true_iff, !andb_true_iff in H.
      destruct H as [[[H H3] H4] H5].
      apply Ascii.eqb_eq in H3. subst c3.
      digit_facts c4 48%nat 53%nat D4 B4 E4.
      digit_facts c5 48%nat 57%nat D5 B5 E5.
      assert (Js.is_digit c1 = true ∧ Js.is_digit c2 = true
              ∧ 0 ≤ Js.digit_value c1 ∧ 0 ≤ Js.digit_value c2 ≤ 9
              ∧ 10 * Js.digit_value c1 + Js.digit_value c2 < 24) as (D1 & D2 & B1 & B2 & B).
      { destruct H as [[Ha Hb]|[Ha Hb]].
        - digit_facts c1 48%nat 49%nat D1 B1 E1.
          digit_facts c2 48%nat 57%nat D2 B2 E2. split_and!; (done || lia).
        - apply Ascii.eqb_eq in Ha. subst c1.
          digit_facts c2 48%nat 51%nat D2 B2 E2.
          change (Js.digit_value "2") with 2. split_and!; (done || lia). }
      exists (10 * Js.digit_value c1 + Js.digit_value c2),
             (10 * Js.digit_value c4 + Js.digit_value c5).
      split; [lia|]. split; [lia|]. left.
      unfold Date.hhmm, Date.pad2.
      replace ((10 * Js.digit_value c1 + Js.digit_value c2) / 10) with (Js.digit_value c1)
        by divmod.
      replace ((10 * Js.digit_value c1 + Js.digit_value c2) mod 10) with (Js.digit_value c2)
        by divmod.
      replace ((10 * Js.digit_value c4 + Js.digit_value c5) / 10) with (Js.digit_value c4)
        by divmod.
      replace ((10 * Js.digit_value c4 + Js.digit_value c5) mod 10) with (Js.digit_value c5)
        by divmod.
      by rewrite !digit_char_value.
  - intros (h & m & Hh & Hm & [->|[H10 ->]]).
    + rewrite pattern_hhmm by lia. apply bool_decide_eq_true. lia.
    + apply pattern_hmm; lia.
Qed.

Lemma getHours_range t : 0 ≤ Date.getHours t < 24.
Proof.
  unfold Date.getHours, Date.msPerDay, Date.msPerHour.
  pose proof (Z.mod_pos_bound t 86400000 ltac:(lia)).
  split; [apply Z.div_pos; lia | apply Z.div_lt_upper_bound; lia].
Qed.

Lemma getMinutes_range t : 0 ≤ Date.getMinutes t < 60.
Proof.
  unfold Date.getMinutes, Date.msPerMinute, Date.msPerHour.
  pose proof (Z.mod_pos_bound t 3600000 ltac:(lia)).
  split; [apply Z.div_pos; lia | apply Z.div_lt_upper_bound; lia].
Qed.

Lemma minutesOfDay_formatHHmm t :
  Js.minutesOfDay (Date.formatHHmm t) = Some (Date.getHours t * 60 + Date.getMinutes t).
Proof.
  pose proof (getHours_range t). pose proof (getMinutes_range t).
  apply minutesOfDay_hhmm; lia.
Qed.

(** The window test shared by the matchers, at any tolerance. *)
Lemma window_le_iff a b tol :
  Js.le (Js.abs (Js.sub (Some a) (Some b))) (Some tol) = true ↔ Z.abs (a - b) ≤ tol.
Proof. cbn. apply Z.leb_le. Qed.

End TimeOfDay.

(** ** The time-window matcher *)

Section Matcher.

Lemma withinReminderWindow_minutes now t a b :
  Js.minutesOfDay t = Some a → Js.minutesOfDay now = Some b →
  Scheduler.withinReminderWindow now t = (Z.abs (a - b) <=? 2).
Proof. intros Ha Hb. unfold Scheduler.withinReminderWindow. by rewrite Ha, Hb. Qed.

(** [shouldRemind] is [some]: one scheduled time in the window is enough. *)
Lemma shouldRemind_some now m :
  Scheduler.shouldRemind now m = true
  ↔ ∃ t, In t (Medication.timesPerDay m) ∧ Scheduler.withinReminderWindow now t = true.
Proof. unfold Scheduler.shouldRemind. apply existsb_exists. Qed.

(** C3.  A scheduled time [t] that writes the hour [h] and the minute
    [m], and a current time [now] that writes [h'] and [m'], are
    converted to the minutes since midnight [60 * h + m] and
    [60 * h' + m'], and the matcher of the reminder pass answers true
    exactly when these differ by at most 2: a difference of 2 is inside
    the window and a difference of 3 is outside.  The two other matchers
    of the code answer likewise, [shouldTakeAtTime] at its tolerance of 5
    and [wasOnTime] at the tolerance its caller gives.  The writings are
    those the pattern of the schemas accepts. *)
Theorem reminder_window_iff (t now : string) (h m h' m' : Z) :
  0 ≤ h < 24 → 0 ≤ m < 60 → 0 ≤ h' < 24 → 0 ≤ m' < 60 →
  spells t h m → spells now h' m' →
  let a := 60 * h + m in
  let b := 60 * h' + m' in
  Js.minutesOfDay t = Some a ∧ Js.minutesOfDay now = Some b
  ∧ (Scheduler.withinReminderWindow now t = true ↔ Z.abs (a - b) ≤ 2)
  ∧ (Z.abs (a - b) = 2 → Scheduler.withinReminderWindow now t = true)
  ∧ (Z.abs (a - b) = 3 → Scheduler.withinReminderWindow now t = false)
  ∧ (∀ med, Medication.timesPerDay med = [t] →
            (MedicationModel.shouldTakeAtTime med now = true ↔ Z.abs (a - b) ≤ 5))
  ∧ (∀ dose tol,
       MedicationHistory.scheduledTime dose = Some t →
       MedicationHistory.status dose = MedicationHistory.taken →
       Date.getHours (MedicationHistory.takenAt dose) = h' →
       Date.getMinutes (MedicationHistory.takenAt dose) = m' →
       (HistoryModel.wasOnTime dose tol = true ↔ Z.abs (a - b) ≤ tol))
  ∧ (∀ s, Js.matchesTimePattern s = true ↔ ∃ x y, 0 ≤ x < 24 ∧ 0 ≤ y < 60 ∧ spells s x y).
Proof.
  intros Hh Hm Hh' Hm' Ht Hn a b.
  pose proof (minutesOfDay_spells t h m Hh Hm Ht) as Ea.
  pose proof (minutesOfDay_spells now h' m' Hh' Hm' Hn) as Eb.
  fold a in Ea. fold b in Eb.
  rewrite (withinReminderWindow_minutes _ _ _ _ Ea Eb).
  split; [done|]. split; [done|].
  split; [apply Z.leb_le|].
  split; [intros H; apply Z.leb_le; lia|].
  split; [intros H; apply Z.leb_gt; lia|].
  split; [|split; [|apply pattern_spells]].
  - intros med Hmed. unfold MedicationModel.shouldTakeAtTime. rewrite Hmed.
    cbn [existsb]. rewrite orb_false_r, Ea, Eb. apply window_le_iff.
  - intros dose tol Hs Hst Hhours Hminutes.
    assert (t ≠ "") as Hne by (destruct Ht as [->|[_ ->]]; discriminate).
    unfold HistoryModel.wasOnTime, Js.truthy. rewrite Hs.
    destruct (String.eqb_spec t "") as [?|_]; [done|].
    rewrite Hst, Ea, Hhours, Hminutes. rewrite decide_True by done.
    replace (h' * 60 + m') with b by (subst b; lia).
    rewrite window_le_iff. lia.
Qed.

Lemma reminder_window_iff_witness :
  Js.minutesOfDay "08:00" = Some 480 ∧ Js.minutesOfDay "8:02" = Some 482
  ∧ (Scheduler.withinReminderWindow "8:02" "08:00" = true ↔ Z.abs (480 - 482) ≤ 2)
  ∧ Scheduler.withinReminderWindow "8:03" "08:00" = false.
Proof.
  destruct (reminder_window_iff "08:00" "8:02" 8 0 8 2) as (H1 & H2 & H3 & _);
    [lia|lia|lia|lia|by left|right; split; [lia|reflexivity]|].
  split; [exact H1|]. split; [exact H2|]. split; [exact H3|reflexivity].
Defined.

(** The two other matchers of the models use the same expression, at
    tolerance 5 and at a tolerance given by the caller. *)
Lemma shouldTakeAtTime_iff m timeString b :
  Js.minutesOfDay timeString = Some b →
  MedicationModel.shouldTakeAtTime m timeString = true
  ↔ ∃ t a, In t (Medication.timesPerDay m) ∧ Js.minutesOfDay t = Some a ∧ Z.abs (a - b) ≤ 5.
Proof.
  intros Hb. unfold MedicationModel.shouldTakeAtTime. rewrite existsb_exists.
  split.
  - intros (t & Hin & H). rewrite Hb in H.
    destruct (Js.minutesOfDay t) as [a|] eqn:Ea; [|discriminate].
    exists t, a. repeat split; try done. by apply window_le_iff.
  - intros (t & a & Hin & Ea & H). exists t. split; [done|].
    rewrite Ea, Hb. by apply window_le_iff.
Qed.

Lemma wasOnTime_iff h t a tol :
  MedicationHistory.scheduledTime h = Some t → t ≠ "" →
  MedicationHistory.status h = MedicationHistory.taken →
  Js.minutesOfDay t = Some a →
  HistoryModel.wasOnTime h tol = true
  ↔ Z.abs (Date.getHours (MedicationHistory.takenAt h) * 60
           + Date.getMinutes (MedicationHistory.takenAt h) - a) ≤ tol.
Proof.
  intros Hs Hne Hst Ha. unfold HistoryModel.wasOnTime, Js.truthy.
  rewrite Hs. destruct (String.eqb_spec t "") as [->|_]; [done|].
  rewrite Hst, Ha. rewrite decide_True by done. apply window_le_iff.
Qed.

(** C10.  The matcher takes the plain absolute difference of the two
    minute counts: between 23:59 and 00:00 it is 1439, not 1, so the
    matcher is false there (as is [shouldTakeAtTime], with tolerance 5);
    and at no tick whose minute is a multiple of five does a scheduled
    time of 23:58 or 23:59 fall inside the two-minute window. *)
Theorem no_wrap_around_midnight (now : Z) (m : Medication.t) :
  Date.getMinutes now mod 5 = 0 →
  Medication.timesPerDay m = ["23:59"] →
  Js.abs (Js.sub (Js.minutesOfDay "23:59") (Js.minutesOfDay "00:00")) = Some 1439
  ∧ Scheduler.withinReminderWindow "00:00" "23:59" = false
  ∧ MedicationModel.shouldTakeAtTime m "00:00" = false
  ∧ Scheduler.withinReminderWindow (Date.formatHHmm now) "23:58" = false
  ∧ Scheduler.withinReminderWindow (Date.formatHHmm now) "23:59" = false
  ∧ Scheduler.shouldRemind (Date.formatHHmm now) m = false.
Proof.
  intros Hgrid Hm.
  pose proof (getHours_range now) as Hh. pose proof (getMinutes_range now) as Hmin.
  assert (Scheduler.withinReminderWindow (Date.formatHHmm now) "23:59" = false) as H59.
  { rewrite (withinReminderWindow_minutes _ "23:59" 1439 _ eq_refl (minutesOfDay_formatHHmm now)).
    apply Z.leb_gt. divmod. }
  repeat split; try reflexivity; try done.
  - unfold MedicationModel.shouldTakeAtTime. by rewrite Hm.
  - rewrite (withinReminderWindow_minutes _ "23:58" 1438 _ eq_refl (minutesOfDay_formatHHmm now)).
    apply Z.leb_gt. divmod.
  - unfold Scheduler.shouldRemind. rewrite Hm. cbn [existsb]. by rewrite H59.
Qed.

Lemma no_wrap_around_midnight_witness :
  Js.abs (Js.sub (Js.minutesOfDay "23:59") (Js.minutesOfDay "00:00")) = Some 1439
  ∧ Scheduler.withinReminderWindow "00:00" "23:59" = false
  ∧ MedicationModel.shouldTakeAtTime
      (Medication.mk "m1" None "aspirin" ["23:59"] 0 0 true None) "00:00" = false
  ∧ Scheduler.withinReminderWindow (Date.formatHHmm 0) "23:58" = false
  ∧ Scheduler.withinReminderWindow (Date.formatHHmm 0) "23:59" = false
  ∧ Scheduler.shouldRemind (Date.formatHHmm 0)
      (Medication.mk "m1" None "aspirin" ["23:59"] 0 0 true None) = false.
Proof.
  apply (no_wrap_around_midnight 0 (Medication.mk "m1" None "aspirin" ["23:59"] 0 0 true None));
    reflexivity.
Defined.

End Matcher.

(** ** The appointment conflict resolver *)

Section Conflicts.

Lemma same_day_iff d x :
  Date.startOfDay d ≤ x ∧ x < Date.addDays (Date.startOfDay d) 1
  ↔ Date.dayOf x = Date.dayOf d.
Proof. unfold Date.startOfDay, Date.addDays, Date.dayOf, Date.msPerDay. divmod. Qed.

Lemma conflictCandidates_In coll doctorId date excludeId a :
  In a (AppointmentModel.conflictCandidates coll doctorId date excludeId)
  ↔ In a coll
    ∧ Appointment.doctorId a = doctorId
    ∧ Date.dayOf (Appointment.date a) = Date.dayOf date
    ∧ (Appointment.status a = Appointment.scheduled
       ∨ Appointment.status a = Appointment.confirmed)
    ∧ excludeId ≠ Some (Appointment._id a).
Proof.
  unfold AppointmentModel.conflictCandidates. rewrite filter_In.
  rewrite !andb_true_iff, orb_true_iff, !bool_decide_eq_true, Z.leb_le, Z.ltb_lt.
  rewrite <- same_day_iff.
  assert ((match excludeId with
           | Some ex => negb (bool_decide (Appointment._id a = ex))
           | None => true
           end = true) ↔ excludeId ≠ Some (Appointment._id a)) as ->.
  { destruct excludeId as [ex|]; [|done].
    rewrite negb_true_iff, bool_decide_eq_false. split; congruence. }
  tauto.
Qed.

Lemma overlaps_iff startMinutes endMinutes a :
  AppointmentModel.overlaps startMinutes endMinutes a = true
  ↔ ∃ s e s', startMinutes = Some s ∧ endMinutes = Some e
      ∧ Js.minutesOfDay (Appointment.time a) = Some s'
      ∧ s < s' + Appointment.duration a ∧ e > s'.
Proof.
  unfold AppointmentModel.overlaps, Js.gt.
  destruct startMinutes as [s|], endMinutes as [e|],
    (Js.minutesOfDay (Appointment.time a)) as [s'|]; cbn;
    rewrite ?andb_true_iff, ?Z.ltb_lt;
    split; try (intros (? & ? & ? & ? & ? & ? & ?); simplify_eq; lia);
    try (intros [? ?]; try discriminate; eexists _, _, _; split_and!; done || lia);
    try discriminate.
Qed.

(** C2.  [hasConflict] is true exactly when the collection holds an
    appointment of the same doctor, on the same calendar day, scheduled
    or confirmed, other than the excluded one, whose interval
    [start, start + duration) in minutes of the day overlaps the
    candidate's: [startA < endB] and [endA > startB].  Intervals that
    only touch do not conflict: against 10:00-10:30, 10:30-11:00 is
    free, and 10:15-10:45 and 09:45-10:05 conflict. *)
Theorem hasConflict_iff coll doctorId date time duration excludeId :
  (AppointmentModel.hasConflict coll doctorId date time duration excludeId = true
   ↔ ∃ a, In a coll
       ∧ Appointment.doctorId a = doctorId
       ∧ Date.dayOf (Appointment.date a) = Date.dayOf date
       ∧ (Appointment.status a = Appointment.scheduled
          ∨ Appointment.status a = Appointment.confirmed)
       ∧ excludeId ≠ Some (Appointment._id a)
       ∧ ∃ startA startB,
           Js.minutesOfDay time = Some startA
           ∧ Js.minutesOfDay (Appointment.time a) = Some startB
           ∧ startA < startB + Appointment.duration a
           ∧ startA + duration > startB)
  ∧ AppointmentModel.hasConflict Scenario.existing_1000_1030 "d1" Scenario.day "10:30" 30 None = false
  ∧ AppointmentModel.hasConflict Scenario.existing_1000_1030 "d1" Scenario.day "10:15" 30 None = true
  ∧ AppointmentModel.hasConflict Scenario.existing_1000_1030 "d1" Scenario.day "09:45" 20 None = true.
Proof.
  split; [|by vm_compute].
  unfold AppointmentModel.hasConflict. rewrite existsb_exists.
  split.
  - intros (a & Hin & Hov).
    apply conflictCandidates_In in Hin as (Hin & Hd & Hday & Hst & Hex).
    apply overlaps_iff in Hov as (s & e & s' & Hs & He & Hs' & H1 & H2).
    exists a. split_and!; try done.
    exists s, s'. rewrite Hs in He. cbn in He. simplify_eq. split_and!; done || lia.
  - intros (a & Hin & Hd & Hday & Hst & Hex & s & s' & Hs & Hs' & H1 & H2).
    exists a. split; [by apply conflictCandidates_In|].
    apply overlaps_iff. exists s, (s + duration), s'. rewrite Hs. split_and!; done || lia.
Qed.

End Conflicts.

(** ** The adherence calculator *)

Section Binary64.

Import SpecFloat FloatOps FloatAxioms.

(** The number of binary digits of a positive number. *)
Lemma digits2_pos_bounds (p : positive) :
  2 ^ (Z.pos (digits2_pos p) - 1) ≤ Z.pos p < 2 ^ Z.pos (digits2_pos p).
Proof.
  induction p as [p IH|p IH|]; cbn [digits2_pos].
  - rewrite Pos2Z.inj_succ.
    replace (Z.succ (Z.pos (digits2_pos p)) - 1) with (Z.succ (Z.pos (digits2_pos p) - 1)) by lia.
    rewrite !Z.pow_succ_r by lia. lia.
  - rewrite Pos2Z.inj_succ.
    replace (Z.succ (Z.pos (digits2_pos p)) - 1) with (Z.succ (Z.pos (digits2_pos p) - 1)) by lia.
    rewrite !Z.pow_succ_r by lia. lia.
  - cbn. lia.
Qed.

Lemma Zdigits2_bounds (m : Z) : 0 < m → 2 ^ (Zdigits2 m - 1) ≤ m < 2 ^ Zdigits2 m.
Proof. destruct m as [|p|p]; try lia. intros _. apply digits2_pos_bounds. Qed.

Lemma Zdigits2_nonneg (m : Z) : 0 ≤ Zdigits2 m.
Proof. destruct m; cbn; lia. Qed.

(** A number below [2 ^ k] has at most [k] digits. *)
Lemma Zdigits2_le (m k : Z) : 0 ≤ m → 0 ≤ k → m < 2 ^ k → Zdigits2 m ≤ k.
Proof.
  intros Hm Hk Hlt. destruct (Z.eq_dec m 0) as [->|Hne]; [done|].
  destruct (Zdigits2_bounds m ltac:(lia)) as [Hlo _].
  destruct (Z_le_gt_dec (Zdigits2 m) k) as [|Hgt]; [done|]. exfalso.
  assert (2 ^ k ≤ 2 ^ (Zdigits2 m - 1)) by (apply Z.pow_le_mono_r; lia). lia.
Qed.

Lemma digits2_pos_iter_xO (p : positive) (j : positive) :
  Z.pos (digits2_pos (Pos.iter xO p j)) = Z.pos (digits2_pos p) + Z.pos j.
Proof.
  revert p. induction j as [|j IH] using Pos.peano_ind; intros p.
  - cbn. lia.
  - rewrite Pos.iter_succ. cbn [digits2_pos]. rewrite Pos2Z.inj_succ, IH. lia.
Qed.

Lemma pos_iter_xO (p : positive) (j : positive) : Z.pos (Pos.iter xO p j) = Z.pos p * 2 ^ Z.pos j.
Proof.
  revert p. induction j as [|j IH] using Pos.peano_ind; intros p.
  - cbn. lia.
  - rewrite Pos.iter_succ, Pos2Z.inj_xO, IH, Pos2Z.inj_succ, Z.pow_succ_r by lia. lia.
Qed.

Lemma shr_1_upper (mrs : shr_record) (K : Z) :
  0 ≤ shr_m mrs → upper mrs ≤ 2 * K →
  0 ≤ shr_m (shr_1 mrs) ∧ upper (shr_1 mrs) ≤ K.
Proof.
  destruct mrs as [m r s]. unfold upper. cbn [shr_m shr_r shr_s].
  intros Hm H. destruct m as [|[p|p|]|p]; try lia; cbn [shr_1 shr_m shr_r shr_s];
    destruct r, s; cbn [orb] in *; lia.
Qed.

Lemma pow2_xI (p : positive) : 2 ^ Z.pos p~1 = 2 * (2 ^ Z.pos p * 2 ^ Z.pos p).
Proof.
  replace (Z.pos p~1) with (Z.pos p + Z.pos p + 1) by lia.
  rewrite !Z.pow_add_r by lia. lia.
Qed.

Lemma pow2_xO (p : positive) : 2 ^ Z.pos p~0 = 2 ^ Z.pos p * 2 ^ Z.pos p.
Proof.
  replace (Z.pos p~0) with (Z.pos p + Z.pos p) by lia.
  by rewrite !Z.pow_add_r by lia.
Qed.

Lemma iter_shr_1_upper (p : positive) (mrs : shr_record) (K : Z) :
  0 ≤ shr_m mrs → upper mrs ≤ K * 2 ^ Z.pos p →
  0 ≤ shr_m (SpecFloat.iter_pos shr_1 p mrs) ∧ upper (SpecFloat.iter_pos shr_1 p mrs) ≤ K.
Proof.
  revert mrs K. induction p as [p IH|p IH|]; intros mrs K Hm H; cbn [SpecFloat.iter_pos].
  - rewrite pow2_xI in H.
    destruct (shr_1_upper mrs (K * 2 ^ Z.pos p * 2 ^ Z.pos p)) as [H1 H2]; [done|lia|].
    destruct (IH _ (K * 2 ^ Z.pos p) H1 H2) as [H3 H4].
    by apply IH.
  - rewrite pow2_xO in H.
    destruct (IH mrs (K * 2 ^ Z.pos p) Hm) as [H3 H4]; [lia|].
    by apply IH.
  - apply shr_1_upper; [done|]. change (2 ^ 1) with 2 in H. lia.
Qed.

Lemma upper_of_loc m l : upper (shr_record_of_loc m l) = upperOf m l.
Proof. destruct l as [|[]]; unfold upper; cbn; lia. Qed.

Lemma shr_m_of_loc m l : shr_m (shr_record_of_loc m l) = m.
Proof. by destruct l as [|[]]. Qed.

Lemma round_nearest_even_upper (mrs : shr_record) :
  shr_m mrs ≤ round_nearest_even (shr_m mrs) (loc_of_shr_record mrs) ≤ upper mrs.
Proof.
  destruct mrs as [m r s]. unfold upper. cbn [shr_m shr_r shr_s].
  destruct r, s; cbn [loc_of_shr_record round_nearest_even orb];
    try destruct (Z.even m); lia.
Qed.

(** [shr_fexp] keeps a mantissa below a bound on the grid of the bound. *)
Lemma shr_fexp_upper (m e : Z) (l : location) (mc ec : Z) :
  0 ≤ m → 0 < mc < 2 ^ 53 → -1074 ≤ ec → e ≤ ec →
  upperOf m l ≤ mc * 2 ^ (ec - e) →
  let '(mrs, e') := shr_fexp prec emax m e l in
  0 ≤ shr_m mrs ∧ e' ≤ ec ∧ upper mrs ≤ mc * 2 ^ (ec - e').
Proof.
  intros Hm Hmc Hec He Hup. unfold shr_fexp, shr.
  assert (fexp prec emax (Zdigits2 m + e) ≤ ec) as Hfexp.
  { unfold fexp, SpecFloat.emin, prec, emax. apply Z.max_lub; [|lia].
    assert (m < 2 ^ (53 + (ec - e))) as Hlt.
    { rewrite Z.pow_add_r by lia.
      assert (0 < 2 ^ (ec - e)) by (apply Z.pow_pos_nonneg; lia).
      assert (m ≤ upperOf m l) by (destruct l; cbn; lia). nia. }
    pose proof (Zdigits2_le m (53 + (ec - e)) Hm ltac:(lia) Hlt). lia. }
  destruct (fexp prec emax (Zdigits2 m + e) - e) as [|p|p] eqn:En.
  - rewrite shr_m_of_loc, upper_of_loc. done.
  - assert (ec - e = (ec - (e + Z.pos p)) + Z.pos p) as Hsplit by lia.
    rewrite Hsplit, Z.pow_add_r, Z.mul_assoc in Hup by lia.
    destruct (iter_shr_1_upper p (shr_record_of_loc m l) (mc * 2 ^ (ec - (e + Z.pos p))))
      as [H1 H2]; [by rewrite shr_m_of_loc|by rewrite upper_of_loc|].
    split_and!; [done|lia|done].
  - rewrite shr_m_of_loc, upper_of_loc. done.
Qed.

(** Rounding to nearest does not pass a bound that is itself a
    binary64 number, and gives no infinity or NaN below it. *)
Lemma binary_round_aux_upper (mx ex : Z) (lx : location) (mc ec : Z) :
  0 ≤ mx → 0 < mc < 2 ^ 53 → -1074 ≤ ec ≤ 971 → ex ≤ ec →
  upperOf mx lx ≤ mc * 2 ^ (ec - ex) →
  match binary_round_aux prec emax false mx ex lx with
  | S754_zero s => s = false
  | S754_finite s m e => s = false ∧ e ≤ ec ∧ Z.pos m ≤ mc * 2 ^ (ec - e)
  | _ => False
  end.
Proof.
  intros Hm Hmc Hec He Hup. unfold binary_round_aux.
  pose proof (shr_fexp_upper mx ex lx mc ec Hm Hmc ltac:(lia) He Hup) as H1.
  destruct (shr_fexp prec emax mx ex lx) as [mrs1 e1]. destruct H1 as (Hm1 & He1 & Hup1).
  pose proof (round_nearest_even_upper mrs1) as Hr.
  set (m2 := round_nearest_even (shr_m mrs1) (loc_of_shr_record mrs1)) in *.
  pose proof (shr_fexp_upper m2 e1 loc_Exact mc ec ltac:(lia) Hmc ltac:(lia) He1
                ltac:(cbn [upperOf]; lia)) as H2.
  destruct (shr_fexp prec emax m2 e1 loc_Exact) as [mrs2 e2]. destruct H2 as (Hm2 & He2 & Hup2).
  assert (shr_m mrs2 ≤ upper mrs2) as Hle.
  { unfold upper. destruct (_ || _); lia. }
  destruct (shr_m mrs2) as [|p|p] eqn:E; [done| |lia].
  assert ((e2 <=? emax - prec) = true) as -> by (apply Z.leb_le; unfold emax, prec; lia).
  split_and!; [done|done|lia].
Qed.

Lemma atMost_SFleb (f : spec_float) (mc : positive) (ec : Z) :
  atMost f (Z.pos mc) ec →
  SFleb (S754_zero false) f = true ∧ SFleb f (S754_finite false mc ec) = true.
Proof.
  destruct f as [s|s| |s m e]; cbn [atMost]; [by intros ->|done|done|].
  intros (-> & He & Hm). split; [done|]. unfold SFleb, SFcompare.
  {
    destruct (Z.compare_spec e ec) as [->|Hlt|Hgt]; [|done|lia].
    rewrite Z.sub_diag, Z.mul_1_r in Hm.
    destruct (Pos.compare_cont Eq m mc) eqn:E; [done|done|].
    rewrite Pos.compare_cont_spec in E.
    destruct (m ?= mc)%positive eqn:E'; cbn in E; try discriminate.
    apply Pos.compare_gt_iff in E'. lia. }
Qed.

(** The binary64 number of a count below 2^53 is the count. *)
Lemma of_count (z : positive) :
  Z.pos z < 2 ^ 53 →
  ∃ m e, Prim2SF (of_uint63 (of_Z (Z.pos z))) = S754_finite false m e
         ∧ Z.pos (digits2_pos m) = 53 ∧ -52 ≤ e ≤ 0
         ∧ Z.pos m = Z.pos z * 2 ^ (- e).
Proof.
  intros Hz. rewrite of_uint63_spec, of_Z_spec.
  rewrite Z.mod_small by (change wB with (2 ^ 63); split; [lia|];
    assert (2 ^ 53 < 2 ^ 63) by (by vm_compute); lia).
  pose proof (digits2_pos_bounds z) as Hd.
  assert (Z.pos (digits2_pos z) ≤ 53) as Hd53.
  { apply (Zdigits2_le (Z.pos z) 53); lia. }
  unfold binary_normalize, binary_round.
  assert (fexp prec emax (Z.pos (digits2_pos z) + 0) = Z.pos (digits2_pos z) - 53) as Hfexp.
  { unfold fexp, SpecFloat.emin, prec, emax. lia. }
  rewrite Hfexp. unfold shl_align.
  destruct (Z.pos (digits2_pos z) - 53 - 0) as [|j|j] eqn:Ej; [|lia|].
  - (* 53 digits *)
    exists z, 0. split; [|split; [lia|split; [lia|change (2 ^ (- 0)) with 1; lia]]].
    unfold binary_round_aux, shr_fexp. cbn [Zdigits2].
    assert (fexp prec emax (Z.pos (digits2_pos z) + 0) - 0 = 0) as -> by lia.
    cbn [shr shr_record_of_loc shr_m loc_of_shr_record round_nearest_even Zdigits2].
    assert (fexp prec emax (Z.pos (digits2_pos z) + 0) - 0 = 0) as -> by lia.
    by cbn.
  - (* fewer digits: the mantissa is shifted left *)
    pose proof (digits2_pos_iter_xO z j) as Hdj. pose proof (pos_iter_xO z j) as Hvj.
    exists (Pos.iter xO z j), (Z.pos (digits2_pos z) - 53).
    split; [|split; [lia|split; [lia|rewrite Hvj; f_equal; f_equal; lia]]].
    unfold binary_round_aux, shr_fexp. cbn [Zdigits2].
    assert (fexp prec emax (Z.pos (digits2_pos (Pos.iter xO z j)) + (Z.pos (digits2_pos z) - 53))
            - (Z.pos (digits2_pos z) - 53) = 0) as Hn.
    { unfold fexp, SpecFloat.emin, prec, emax. lia. }
    rewrite Hn.
    cbn [shr shr_record_of_loc shr_m loc_of_shr_record round_nearest_even Zdigits2].
    rewrite Hn. cbn [shr shr_m].
    assert ((Z.pos (digits2_pos z) - 53 <=? emax - prec) = true) as ->
      by (apply Z.leb_le; unfold emax, prec; lia).
    done.
Qed.

Lemma new_location_zero (n : Z) : new_location n 0 = loc_Exact.
Proof. unfold new_location, new_location_even, new_location_odd. by destruct (Z.even n). Qed.

(** The quotient of a count by a count that is not smaller is at most
    one. *)
Lemma quotient_atMost_one (mx my : positive) (ex ey : Z) :
  Z.pos (digits2_pos mx) = 53 → Z.pos (digits2_pos my) = 53 →
  -52 ≤ ex ≤ 0 → -52 ≤ ey ≤ 0 → ex ≤ ey →
  Z.pos mx ≤ Z.pos my * 2 ^ (ey - ex) →
  atMost (SF64div (S754_finite false mx ex) (S754_finite false my ey)) (2 ^ 52) (-52).
Proof.
  intros Hdx Hdy Hex Hey Hxy Hle. unfold SF64div, SFdiv, SFdiv_core_binary.
  cbn [Zdigits2 xorb]. rewrite Hdx, Hdy.
  assert (Z.min (fexp prec emax (53 + ex - (53 + ey))) (ex - ey) = ex - ey - 53) as ->.
  { unfold fexp, SpecFloat.emin, prec, emax. lia. }
  assert (ex - ey - (ex - ey - 53) = 53) as -> by lia.
  rewrite Z.shiftl_mul_pow2 by lia.
  destruct (Z.div_eucl (Z.pos mx * 2 ^ 53) (Z.pos my)) as [q r] eqn:Ediv.
  pose proof (Z_div_mod (Z.pos mx * 2 ^ 53) (Z.pos my) ltac:(lia)) as Hdiv.
  rewrite Ediv in Hdiv. destruct Hdiv as [Hqr Hr].
  assert (0 < 2 ^ (ey - ex)) as Hp by (apply Z.pow_pos_nonneg; lia).
  assert (2 ^ (-52 - (ex - ey - 53)) = 2 * 2 ^ (ey - ex)) as Hpow.
  { replace (-52 - (ex - ey - 53)) with (1 + (ey - ex)) by lia.
    by rewrite Z.pow_add_r by lia. }
  assert (2 ^ 52 * 2 ^ (-52 - (ex - ey - 53)) = 2 ^ 53 * 2 ^ (ey - ex)) as Hbound.
  { rewrite Hpow. change (2 ^ 53) with (2 ^ 52 * 2). lia. }
  assert (0 ≤ q) as Hq by nia.
  apply (binary_round_aux_upper q (ex - ey - 53) (new_location (Z.pos my) r) (2 ^ 52) (-52));
    [done|by vm_compute|lia|lia|].
  rewrite Hbound.
  assert (Z.pos my * q + r ≤ Z.pos my * (2 ^ 53 * 2 ^ (ey - ex))) as Hall by nia.
  destruct (Z.eq_dec r 0) as [->|Hr0].
  - rewrite new_location_zero. cbn [upperOf]. nia.
  - assert (upperOf q (new_location (Z.pos my) r) ≤ q + 1) as Hu
      by (destruct (new_location _ _); cbn; lia).
    assert (q < 2 ^ 53 * 2 ^ (ey - ex)) by nia. lia.
Qed.

(** A number that is at most one, times 100, is at most 100. *)
Lemma times_100_atMost (f : spec_float) :
  atMost f (2 ^ 52) (-52) →
  atMost (SF64mul f (S754_finite false 7036874417766400 (-46))) 7036874417766400 (-46).
Proof.
  destruct f as [s|s| |s m e]; cbn [atMost]; [by intros ->|done|done|].
  { intros (-> & He & Hm). unfold SF64mul, SFmul. cbn [xorb].
    apply (binary_round_aux_upper (Z.pos (m * 7036874417766400)) (e + -46) loc_Exact
             7036874417766400 (-46)); [lia|by vm_compute|lia|lia|].
    cbn [upperOf]. rewrite Pos2Z.inj_mul.
    replace (-46 - (e + -46)) with (- e) by lia.
    assert (2 ^ 52 * 2 ^ (-52 - e) = 2 ^ (- e)) as Hpow.
    { rewrite <- Z.pow_add_r by lia. f_equal. lia. }
    rewrite Hpow in Hm. nia. }
Qed.

(** The rate computed in binary64 from counts below 2^53 lies between
    0 and 100. *)
Lemma rate64_bounds (taken total : Z) :
  0 ≤ taken ≤ total → 0 < total < 2 ^ 53 →
  (0 <=? HistoryModel.rate64 taken total)%float = true ∧ (HistoryModel.rate64 taken total <=? 100)%float = true.
Proof.
  intros Htaken Htotal. unfold HistoryModel.rate64. rewrite !leb_spec, mul_spec, div_spec.
  change (Prim2SF 0) with (S754_zero false).
  change (Prim2SF 100) with (S754_finite false 7036874417766400 (-46)).
  apply (atMost_SFleb _ 7036874417766400 (-46)), times_100_atMost.
  destruct total as [|n|n]; try lia.
  destruct (of_count n ltac:(lia)) as (my & ey & -> & Hdy & Hey & Hmy).
  destruct taken as [|t|t]; try lia.
  - change (Prim2SF (of_uint63 (of_Z 0))) with (S754_zero false). done.
  - destruct (of_count t ltac:(lia)) as (mx & ex & -> & Hdx & Hex & Hmx).
    pose proof (digits2_pos_bounds mx) as Bx. pose proof (digits2_pos_bounds my) as By.
    rewrite Hdx in Bx. rewrite Hdy in By.
    assert (0 < 2 ^ (- ex)) as Px by (apply Z.pow_pos_nonneg; lia).
    assert (0 < 2 ^ (- ey)) as Py by (apply Z.pow_pos_nonneg; lia).
    assert (ex ≤ ey) as Hxy.
    { destruct (Z_le_gt_dec ex ey) as [|Hgt]; [done|]. exfalso.
      assert (2 * 2 ^ (- ex) ≤ 2 ^ (- ey)) as Hp.
      { replace (- ey) with (1 + (- ex) + (ex - ey - 1)) by lia.
        rewrite !Z.pow_add_r by lia.
        assert (0 < 2 ^ (ex - ey - 1)) by (apply Z.pow_pos_nonneg; lia).
        change (2 ^ 1) with 2. nia. }
      change (2 ^ (53 - 1)) with (2 ^ 52) in *. change (2 ^ 53) with (2 * 2 ^ 52) in *.
      nia. }
    apply quotient_atMost_one; try done.
    rewrite Hmx, Hmy.
    replace (- ey) with (- ex - (ey - ex)) by lia.
    assert (2 ^ (- ex) = 2 ^ (- ex - (ey - ex)) * 2 ^ (ey - ex)) as ->
      by (rewrite <- Z.pow_add_r by lia; f_equal; lia).
    assert (0 < 2 ^ (- ex - (ey - ex))) by (apply Z.pow_pos_nonneg; lia).
    assert (0 < 2 ^ (ey - ex)) by (apply Z.pow_pos_nonneg; lia).
    nia.
Qed.

End Binary64.

Section Adherence.

Lemma sumStatus_bounds st docs :
  0 ≤ HistoryModel.sumStatus st docs ≤ Z.of_nat (length docs).
Proof.
  induction docs as [|h docs IH]; cbn [HistoryModel.sumStatus fold_right length].
  - lia.
  - fold (HistoryModel.sumStatus st docs). destruct (decide _); lia.
Qed.

Lemma sumStatus_count st docs :
  HistoryModel.sumStatus st docs
  = Z.of_nat (length (List.filter (λ h, bool_decide (MedicationHistory.status h = st)) docs)).
Proof.
  induction docs as [|h docs IH]; [done|].
  cbn [HistoryModel.sumStatus fold_right List.filter].
  fold (HistoryModel.sumStatus st docs). rewrite IH.
  destruct (decide _) as [E|E].
  - rewrite bool_decide_eq_true_2 by done. cbn [length]. lia.
  - rewrite bool_decide_eq_false_2 by done. lia.
Qed.

Lemma matchQuery_iff nowMs patientId medicationId days h :
  HistoryModel.matchQuery nowMs patientId medicationId days h = true
  ↔ MedicationHistory.patientId h = patientId
    ∧ nowMs - days * Date.msPerDay ≤ MedicationHistory.takenAt h
    ∧ ∀ mid, medicationId = Some mid → MedicationHistory.medicationId h = mid.
Proof.
  unfold HistoryModel.matchQuery, Date.addDays.
  rewrite !andb_true_iff, bool_decide_eq_true, Z.leb_le.
  destruct medicationId as [mid|].
  - rewrite bool_decide_eq_true.
    split; [intros [[? ?] ?]; split_and!; [done|lia|congruence]
           |intros (? & ? & H); split_and!; [done|lia|by apply H]].
  - split; [intros [[? ?] _]; split_and!; [done|lia|done]
           |intros (? & ? & _); split_and!; [done|lia|done]].
Qed.

(** C7.  Over the dose records of the patient taken at or after
    [now - days] days (and of the one medication, when it is given),
    the calculator returns their number as total and the number of
    taken ones as taken, with [0 ≤ taken ≤ total]; the rate is the
    binary64 number [taken / total * 100], the quotient and the product
    each rounded, when the total is positive and 0 when it is 0, and it
    lies between 0 and 100 (for a total below 2^53, the counts a
    binary64 number holds exactly). *)
Theorem adherence_rate coll nowMs patientId medicationId days :
  let r := HistoryModel.getAdherenceRate coll nowMs patientId medicationId days in
  let docs := List.filter (HistoryModel.matchQuery nowMs patientId medicationId days) coll in
  (∀ h, In h docs
        ↔ In h coll
          ∧ MedicationHistory.patientId h = patientId
          ∧ nowMs - days * Date.msPerDay ≤ MedicationHistory.takenAt h
          ∧ ∀ mid, medicationId = Some mid → MedicationHistory.medicationId h = mid)
  ∧ HistoryModel.totalDoses r = Z.of_nat (length docs)
  ∧ HistoryModel.takenDoses r
    = Z.of_nat (length (List.filter
                          (λ h, bool_decide (MedicationHistory.status h = MedicationHistory.taken))
                          docs))
  ∧ 0 ≤ HistoryModel.takenDoses r ≤ HistoryModel.totalDoses r
  ∧ (0 < HistoryModel.totalDoses r →
     HistoryModel.adherenceRate r
     = (PrimFloat.of_uint63 (Uint63.of_Z (HistoryModel.takenDoses r))
        / PrimFloat.of_uint63 (Uint63.of_Z (HistoryModel.totalDoses r)) * 100)%float)
  ∧ (HistoryModel.totalDoses r = 0 → HistoryModel.adherenceRate r = 0%float)
  ∧ (HistoryModel.totalDoses r < 2 ^ 53 →
     (0 <=? HistoryModel.adherenceRate r)%float = true
     ∧ (HistoryModel.adherenceRate r <=? 100)%float = true).
Proof.
  intros r docs.
  split.
  { intros h. subst docs. rewrite filter_In, matchQuery_iff. tauto. }
  subst r. unfold HistoryModel.getAdherenceRate. fold docs.
  destruct docs as [|d docs'] eqn:Edocs; cbn [HistoryModel.totalDoses
    HistoryModel.takenDoses HistoryModel.adherenceRate].
  { split_and!; try done. all: cbn; lia. }
  rewrite <- Edocs.
  pose proof (sumStatus_bounds MedicationHistory.taken docs) as Hb.
  assert (0 < Z.of_nat (length docs)) as Hpos by (rewrite Edocs; cbn [length]; lia).
  set (total := Z.of_nat (length docs)) in *.
  set (tk := HistoryModel.sumStatus MedicationHistory.taken docs) in *.
  assert ((0 <? total) = true) as -> by (apply Z.ltb_lt; lia).
  split_and!; try done; try lia.
  - subst tk. apply sumStatus_count.
  - intros Hlt. apply rate64_bounds; lia.
Qed.

Lemma adherence_rate_witness :
  let coll := [MedicationHistory.mk "m1" "p1" 1000 (Some "08:00") MedicationHistory.taken "";
               MedicationHistory.mk "m1" "p1" 2000 (Some "08:00") MedicationHistory.missed "";
               MedicationHistory.mk "m1" "p1" 2500 (Some "20:00") MedicationHistory.missed ""] in
  let r := HistoryModel.getAdherenceRate coll 3000 "p1" None 30 in
  0 < HistoryModel.totalDoses r
  ∧ HistoryModel.adherenceRate r = 0x1.0aaaaaaaaaaaap+5%float
  ∧ (0 <=? HistoryModel.adherenceRate r)%float = true
  ∧ (HistoryModel.adherenceRate r <=? 100)%float = true.
Proof.
  intros coll r.
  pose proof (adherence_rate coll 3000 "p1" None 30) as H. cbv zeta in H. fold r in H.
  destruct H as (_ & _ & _ & _ & Hrate & _ & Hbounds).
  split; [reflexivity|]. split; [rewrite Hrate by reflexivity; reflexivity|].
  apply Hbounds. reflexivity.
Defined.

(** In binary64 1 taken out of 3 is 33.33333333333333
    (0x1.0aaaaaaaaaaaap+5): the quotient is rounded, then the product;
    5 out of 7 is 71.42857142857143 (0x1.1db6db6db6db7p+6), and 3 out
    of 3 is 100. *)
Lemma rate64_examples :
  HistoryModel.rate64 1 3 = 0x1.0aaaaaaaaaaaap+5%float
  ∧ HistoryModel.rate64 5 7 = 0x1.1db6db6db6db7p+6%float
  ∧ HistoryModel.rate64 3 3 = 100%float.
Proof. split_and!; by vm_compute. Qed.

End Adherence.

(** ** The medication reminder pass *)

(** The dispatcher never throws: it delivers and returns true, or returns
    false and changes nothing. *)
Lemma sendMedicationReminder_spec env tid m w :
  Scheduler.sendMedicationReminder env tid m w
  = if dispatchSucceeds env tid then Returned true (deliver tid m w) else Returned false w.
Proof.
  unfold Scheduler.sendMedicationReminder, Bot.sendMedicationReminder, dispatchSucceeds.
  destruct (botModuleLoads env), (botStarted env), (sendMessageResolves env tid); reflexivity.
Qed.

(** The reminder branch in closed form. *)
Lemma remind_spec env ct tid m w :
  Scheduler.remind env ct tid m w
  = if Scheduler.shouldRemind ct m
       && Scheduler.notRemindedToday (now env) (Medication.lastReminded m)
       && dispatchSucceeds env tid
    then if dbResolves env (SaveMedication (Medication._id m))
         then Returned tt (with_remindersSent (λ n, n + 1) (markReminded m (now env) (deliver tid m w)))
         else Threw (Rejected "medication.save") (deliver tid m w)
    else Returned tt w.
Proof.
  unfold Scheduler.remind.
  destruct (Scheduler.shouldRemind ct m); [|done].
  destruct (Scheduler.notRemindedToday _ _); [|done].
  unfold bind. rewrite sendMedicationReminder_spec.
  destruct (dispatchSucceeds env tid); [|done]. cbn [andb].
  unfold MedicationModel.saveLastReminded, awaitDb.
  destruct (dbResolves env _); reflexivity.
Qed.

(** [today] is not among the identifiers in scope: the body of the inner
    loop throws before its first query. *)
Lemma logMissedDose_throws env p m t w :
  Scheduler.logMissedDose env p m t w = Threw (ReferenceError "today") w.
Proof.
  unfold Scheduler.logMissedDose, bind, Scheduler.identifier, Scheduler.datesInScopeOfMissedLoop.
  rewrite lookup_singleton_ne by done. reflexivity.
Qed.

Lemma missed_loop_spec env p m ts w :
  forOf ts (Scheduler.logMissedDose env p m) w
  = match ts with [] => Returned tt w | _ :: _ => Threw (ReferenceError "today") w end.
Proof.
  destruct ts as [|t ts]; [done|]. cbn [forOf]. unfold bind.
  by rewrite logMissedDose_throws.
Qed.

(** The body of the outer loop in closed form. *)
Lemma processMedication_spec env ct m w :
  Scheduler.processMedication env ct m w
  = match Medication.patientId m with
    | None => Threw (TypeError "medication.patientId is null") w
    | Some p =>
        match Js.truthy (User.telegramId p) with
        | None => Returned tt w
        | Some tid =>
            match Scheduler.remind env ct tid m w with
            | Returned _ w1 =>
                match Scheduler.missedTimes ct m with
                | [] => Returned tt w1
                | _ :: _ => Threw (ReferenceError "today") w1
                end
            | Threw e w1 => Threw e w1
            end
        end
    end.
Proof.
  unfold Scheduler.processMedication.
  destruct (Medication.patientId m) as [p|]; [|done].
  destruct (Js.truthy _) as [tid|]; [|done].
  unfold bind. destruct (Scheduler.remind env ct tid m w) as [[] w1|e w1]; [|done].
  apply missed_loop_spec.
Qed.

Lemma processMedication_effect env ct m w :
  stepEffect env ct m w (stateOf (Scheduler.processMedication env ct m w)).
Proof.
  rewrite processMedication_spec.
  destruct (Medication.patientId m) as [p|]; [|constructor].
  destruct (Js.truthy _) as [tid|]; [|constructor].
  rewrite remind_spec.
  destruct (Scheduler.shouldRemind ct m) eqn:E1; [|destruct (Scheduler.missedTimes ct m); constructor].
  destruct (Scheduler.notRemindedToday _ _) eqn:E2; [|destruct (Scheduler.missedTimes ct m); constructor].
  destruct (dispatchSucceeds env tid) eqn:E3; [|destruct (Scheduler.missedTimes ct m); constructor].
  cbn [andb].
  destruct (dbResolves env _) eqn:E4.
  - destruct (Scheduler.missedTimes ct m); by eapply step_reminded.
  - by eapply step_unsaved.
Qed.

Lemma forOf_cons {S X} (x : X) xs (body : X → M S unit) s :
  forOf (x :: xs) body s
  = match body x s with
    | Returned _ s1 => forOf xs body s1
    | Threw e s1 => Threw e s1
    end.
Proof. reflexivity. Qed.

Section OneMedication.
Context (env : Env) (ct : string) (i : ObjectId).

Lemma deliver_other tid m w :
  Medication._id m ≠ i → deliveriesAbout i (deliver tid m w) = deliveriesAbout i w.
Proof.
  intros Hne. unfold deliveriesAbout, deliver. cbn.
  rewrite List.filter_app. cbn. rewrite bool_decide_eq_false_2 by done.
  by rewrite app_nil_r.
Qed.

Lemma deliver_same tid m w :
  Medication._id m = i → deliveriesAbout i (deliver tid m w) = S (deliveriesAbout i w).
Proof.
  intros He. unfold deliveriesAbout, deliver. cbn.
  rewrite List.filter_app. cbn. rewrite bool_decide_eq_true_2 by done.
  rewrite length_app. cbn. lia.
Qed.

Lemma markReminded_other m d w :
  Medication._id m ≠ i → storedAs i (markReminded m d w) = storedAs i w.
Proof.
  intros Hne. unfold storedAs, markReminded. cbn.
  induction (medications w) as [|x xs IH]; [done|]. cbn.
  rewrite IH. destruct (decide (Medication._id x = Medication._id m)) as [E|E]; [|done].
  cbn. rewrite E. by rewrite !bool_decide_eq_false_2.
Qed.

Lemma markReminded_same m d w x :
  Medication._id m = i → x ∈ storedAs i (markReminded m d w) →
  Medication.lastReminded x = Some d.
Proof.
  intros He. unfold storedAs, markReminded. cbn.
  rewrite list_elem_of_In, filter_In, in_map_iff, bool_decide_eq_true.
  intros [(y & Hy & _) Hx]. destruct (decide _) as [E|E]; subst x; [done|].
  cbn in Hx. congruence.
Qed.

Lemma markReminded_ids m d w :
  Medication._id <$> medications (markReminded m d w) = Medication._id <$> medications w.
Proof.
  unfold markReminded. cbn. induction (medications w) as [|x xs IH]; [done|].
  cbn. rewrite IH. by destruct (decide _).
Qed.
End OneMedication.

Section Loop.
Context (env : Env) (ct : string) (i : ObjectId).

Let body := Scheduler.processMedication env ct.
Let ids (w : World) := Medication._id <$> medications w.

(** The loop goes on from the state the first body left, or stops there. *)
Lemma forOf_state_cons m rest w :
  stateOf (forOf (m :: rest) body w) = stateOf (forOf rest body (stateOf (body m w)))
  ∨ stateOf (forOf (m :: rest) body w) = stateOf (body m w).
Proof.
  rewrite forOf_cons. destruct (body m w) as [[] w1|e w1]; [by left|by right].
Qed.

Lemma step_other m w :
  Medication._id m ≠ i →
  let w1 := stateOf (body m w) in
  deliveriesAbout i w1 = deliveriesAbout i w ∧ storedAs i w1 = storedAs i w ∧ ids w1 = ids w.
Proof.
  intros Hne w1. subst w1 body.
  destruct (processMedication_effect env ct m w) as [|tid ? ? ? ?|tid ? ? ? ?].
  - done.
  - split_and!.
    + change (deliveriesAbout i (deliver tid m w) = deliveriesAbout i w). by apply deliver_other.
    + change (storedAs i (markReminded m (now env) (deliver tid m w)) = storedAs i w).
      by rewrite markReminded_other.
    + apply markReminded_ids.
  - split_and!; [by apply deliver_other|done|done].
Qed.

(** Processing other medications leaves the deliveries and the stored
    documents of [i] alone. *)
Lemma loop_others meds w :
  (∀ m, m ∈ meds → Medication._id m ≠ i) →
  let w' := stateOf (forOf meds body w) in
  deliveriesAbout i w' = deliveriesAbout i w ∧ storedAs i w' = storedAs i w ∧ ids w' = ids w.
Proof.
  revert w. induction meds as [|m rest IH]; intros w Hne; [done|].
  assert (Medication._id m ≠ i) as Hm by (apply Hne; left).
  destruct (step_other m w Hm) as (H1 & H2 & H3).
  cbv zeta. destruct (forOf_state_cons m rest w) as [-> | ->]; [|done].
  destruct (IH (stateOf (body m w))) as (H1' & H2' & H3').
  { intros x Hx. apply Hne. by right. }
  split_and!; congruence.
Qed.

(** Over documents with distinct [_id]s, one run of the loop delivers at
    most once about [i]; when it does, the document of [i] was due with
    no marker of today, and the stored marker of [i] is now the instant
    of the pass. *)
Lemma loop_one meds w :
  NoDup (Medication._id <$> meds) →
  dbResolves env (SaveMedication i) = true →
  let w' := stateOf (forOf meds body w) in
  ids w' = ids w
  ∧ ((deliveriesAbout i w' = deliveriesAbout i w ∧ storedAs i w' = storedAs i w)
     ∨ (deliveriesAbout i w' = S (deliveriesAbout i w)
        ∧ (∃ m, m ∈ meds ∧ Medication._id m = i
                ∧ Scheduler.shouldRemind ct m = true
                ∧ Scheduler.notRemindedToday (now env) (Medication.lastReminded m) = true)
        ∧ ∀ x, x ∈ storedAs i w' → Medication.lastReminded x = Some (now env))).
Proof.
  intros Hnd Hsave. revert w.
  induction meds as [|m rest IH]; intros w; [by split; [|left]|].
  cbn in Hnd. apply NoDup_cons in Hnd as [Hm Hnd]. specialize (IH Hnd).
  cbv zeta.
  destruct (decide (Medication._id m = i)) as [Hi|Hi].
  - (* the document of [i]: the rest of the loop does not touch it *)
    assert (∀ x, x ∈ rest → Medication._id x ≠ i) as Hrest.
    { intros x Hx Hxi. apply Hm. rewrite Hi, <- Hxi. by apply list_elem_of_fmap_2. }
    assert (ids (stateOf (body m w)) = ids w
            ∧ ((deliveriesAbout i (stateOf (body m w)) = deliveriesAbout i w
                ∧ storedAs i (stateOf (body m w)) = storedAs i w)
               ∨ (deliveriesAbout i (stateOf (body m w)) = S (deliveriesAbout i w)
                  ∧ Scheduler.shouldRemind ct m = true
                  ∧ Scheduler.notRemindedToday (now env) (Medication.lastReminded m) = true
                  ∧ ∀ x, x ∈ storedAs i (stateOf (body m w)) →
                         Medication.lastReminded x = Some (now env)))) as [Hids Hstep].
    { subst body. destruct (processMedication_effect env ct m w) as [|tid ? ? ? ?|tid ? ? ? ?].
      - split; [done|by left].
      - split; [apply markReminded_ids|]. right. split_and!; try done.
        + change (deliveriesAbout i (deliver tid m w) = S (deliveriesAbout i w)).
          by apply deliver_same.
        + intros x Hx. by eapply (markReminded_same i m (now env) (deliver tid m w)).
      - congruence. }
    destruct (loop_others rest (stateOf (body m w)) Hrest) as (L1 & L2 & L3).
    destruct (forOf_state_cons m rest w) as [-> | ->].
    + split; [congruence|].
      destruct Hstep as [[S1 S2]|(S1 & S2 & S3 & S4)]; [left; split; congruence|].
      right. split_and!; [congruence| |].
      * exists m. split_and!; try done. by left.
      * intros x Hx. apply S4. by rewrite <- L2.
    + split; [done|].
      destruct Hstep as [[S1 S2]|(S1 & S2 & S3 & S4)]; [by left|].
      right. split_and!; try done. exists m. split_and!; try done. by left.
  - destruct (step_other m w Hi) as (H1 & H2 & H3).
    destruct (forOf_state_cons m rest w) as [-> | ->].
    + destruct (IH (stateOf (body m w))) as [I1 I2]. split; [congruence|].
      destruct I2 as [[S1 S2]|(S1 & (x & Hx & ?) & S3)]; [left; split; congruence|].
      right. split_and!; [congruence| |done].
      exists x. split; [by right|done].
    + split; [done|]. left. split; congruence.
Qed.
End Loop.

(** The callback in closed form. *)
Lemma pass_spec env w :
  Scheduler.medicationReminderPass env w
  = if dbResolves env FindMedications
    then match forOf (selected env w)
                 (Scheduler.processMedication env (Date.formatHHmm (now env)))
                 (resetCounters w) with
         | Returned _ w' => Returned None w'
         | Threw e w' => Returned (Some e) w'
         end
    else Returned (Some (Rejected "Medication.find")) w.
Proof.
  unfold Scheduler.medicationReminderPass, tryCatch, bind,
    MedicationModel.findMedicationsForReminders, awaitDb.
  destruct (dbResolves env FindMedications); [|done].
  cbn. fold (selected env w). fold (resetCounters w).
  by destruct (forOf _ _ _).
Qed.

Lemma pass_state env w :
  stateOf (Scheduler.medicationReminderPass env w)
  = if dbResolves env FindMedications
    then stateOf (forOf (selected env w)
                    (Scheduler.processMedication env (Date.formatHHmm (now env)))
                    (resetCounters w))
    else w.
Proof.
  rewrite pass_spec. destruct (dbResolves env FindMedications); [|done].
  by destruct (forOf _ _ _).
Qed.

Lemma NoDup_fmap_filter {A B} (f : A → B) (p : A → bool) (l : list A) :
  NoDup (f <$> l) → NoDup (f <$> List.filter p l).
Proof.
  induction l as [|x l IH]; [done|]. cbn. rewrite NoDup_cons. intros [Hx Hl].
  destruct (p x); [|by apply IH]. cbn. apply NoDup_cons. split; [|by apply IH].
  intros Hin. apply Hx. apply list_elem_of_fmap in Hin as (y & -> & Hy).
  apply list_elem_of_fmap_2. apply list_elem_of_In in Hy. apply filter_In in Hy as [Hy _].
  by apply list_elem_of_In.
Qed.

Section Passes.
Context (D : Z) (i : ObjectId).

Let ids (w : World) := Medication._id <$> medications w.
Let goodEnv (env : Env) :=
  Date.dayOf (now env) = D ∧ dbResolves env (SaveMedication i) = true.

(** One pass: a marker of today blocks the delivery and stays; a
    delivery leaves a marker of today. *)
Lemma pass_one env w :
  NoDup (ids w) → goodEnv env →
  let w' := stateOf (Scheduler.medicationReminderPass env w) in
  ids w' = ids w
  ∧ (remindedOn D i w → deliveriesAbout i w' = deliveriesAbout i w ∧ remindedOn D i w')
  ∧ (deliveriesAbout i w' = deliveriesAbout i w
     ∨ (deliveriesAbout i w' = S (deliveriesAbout i w) ∧ remindedOn D i w')).
Proof.
  intros Hnd [Hday Hsave]. cbv zeta. rewrite pass_state.
  destruct (dbResolves env FindMedications); [|by split_and!; [|intros|left]].
  destruct (loop_one env (Date.formatHHmm (now env)) i (selected env w) (resetCounters w))
    as [Hids Hcase]; [by apply NoDup_fmap_filter|done|].
  set (w' := stateOf _) in *.
  split; [done|]. split.
  - intros Hrem.
    destruct Hcase as [[C1 C2]|(C1 & (m & Hm & Hi & _ & Hnot) & C3)].
    + split; [exact C1|]. intros x Hx. apply Hrem.
      change (storedAs i w) with (storedAs i (resetCounters w)). by rewrite <- C2.
    + exfalso. destruct (Hrem m) as (d & Hd & Hday').
      { unfold storedAs. apply list_elem_of_In, filter_In. split.
        - apply list_elem_of_In in Hm. by apply filter_In in Hm as [Hm _].
        - by apply bool_decide_eq_true. }
      rewrite Hd in Hnot. cbn in Hnot. unfold Date.isSameDay in Hnot.
      rewrite Hday', Hday, Z.eqb_refl in Hnot. done.
  - destruct Hcase as [[C1 C2]|(C1 & _ & C3)]; [left; exact C1|].
    right. split; [exact C1|]. intros x Hx. exists (now env). split; [by apply C3|done].
Qed.

Lemma run_reminded envs w :
  NoDup (ids w) → Forall goodEnv envs → remindedOn D i w →
  deliveriesAbout i (runPasses envs w) = deliveriesAbout i w.
Proof.
  revert w. induction envs as [|env envs IH]; intros w Hnd Hgood Hrem; [done|].
  apply Forall_cons in Hgood as [Hg Hgood].
  destruct (pass_one env w Hnd Hg) as (Hids & Hkeep & _).
  destruct (Hkeep Hrem) as [Hc Hrem'].
  cbn [runPasses fold_left]. fold (runPasses envs (stateOf (Scheduler.medicationReminderPass env w))).
  rewrite IH; [done| |done|done]. unfold ids in *. by rewrite Hids.
Qed.

Lemma run_at_most_one envs w :
  NoDup (ids w) → Forall goodEnv envs →
  (deliveriesAbout i (runPasses envs w) ≤ S (deliveriesAbout i w))%nat.
Proof.
  revert w. induction envs as [|env envs IH]; intros w Hnd Hgood; [cbn; lia|].
  apply Forall_cons in Hgood as [Hg Hgood].
  destruct (pass_one env w Hnd Hg) as (Hids & _ & Hcase).
  cbn [runPasses fold_left]. fold (runPasses envs (stateOf (Scheduler.medicationReminderPass env w))).
  assert (NoDup (ids (stateOf (Scheduler.medicationReminderPass env w)))) as Hnd'.
  { unfold ids in *. by rewrite Hids. }
  destruct Hcase as [Hc|[Hc Hrem]].
  - rewrite <- Hc. by apply IH.
  - rewrite run_reminded by done. lia.
Qed.
End Passes.

Section PassTheorems.

Lemma forOf_app {S X} (pre post : list X) (body : X → M S unit) s :
  forOf (pre ++ post) body s
  = match forOf pre body s with
    | Returned _ s1 => forOf post body s1
    | Threw e s1 => Threw e s1
    end.
Proof.
  revert s. induction pre as [|x pre IH]; intros s; [done|].
  cbn [app]. rewrite !forOf_cons. destruct (body x s) as [[] s1|e s1]; [apply IH|done].
Qed.

Lemma stepEffect_histories env ct m w w' :
  stepEffect env ct m w w' → histories w' = histories w.
Proof. by intros []. Qed.

Lemma loop_histories env ct meds w :
  histories (stateOf (forOf meds (Scheduler.processMedication env ct) w)) = histories w.
Proof.
  revert w. induction meds as [|m rest IH]; intros w; [done|].
  pose proof (stepEffect_histories _ _ _ _ _ (processMedication_effect env ct m w)) as Hm.
  destruct (forOf_state_cons env ct m rest w) as [-> | ->]; [|done].
  by rewrite IH.
Qed.

(** The callback catches whatever its body throws. *)
Lemma pass_never_throws env w : thrown (Scheduler.medicationReminderPass env w) = None.
Proof.
  rewrite pass_spec. destruct (dbResolves env FindMedications); [|done].
  by destruct (forOf _ _ _).
Qed.

(** C1, amended.  A reminder about a medication is delivered only when
    the pass finds it due and its [lastReminded] marker is not on the
    calendar day of the pass, and once its [save()] resolves the stored
    marker is the instant of the pass; hence, over any number of passes
    on one calendar day, at most one reminder is delivered about a
    medication whose saves resolve, the [_id]s of the collection being
    distinct.
    With times 08:00 and 20:00 the 08:00 reminder is sent and marks
    the day, and the pass of 20:00, though it finds the medication due,
    sends nothing. *)
Theorem one_reminder_per_day (D : Z) (i : ObjectId) (envs : list Env) (w : World) :
  NoDup (Medication._id <$> medications w) →
  Forall (λ env, Date.dayOf (now env) = D ∧ dbResolves env (SaveMedication i) = true) envs →
  (∀ env ct tid m w0,
      let w1 := stateOf (Scheduler.remind env ct tid m w0) in
      delivered w1 = delivered w0
      ∨ (delivered w1 = delivered w0 ++ [mkDelivery tid (Medication._id m)]
         ∧ Scheduler.shouldRemind ct m = true
         ∧ (∀ d, Medication.lastReminded m = Some d → Date.dayOf d ≠ Date.dayOf (now env))
         ∧ (dbResolves env (SaveMedication (Medication._id m)) = true →
            ∀ x, x ∈ storedAs (Medication._id m) w1 →
                 Medication.lastReminded x = Some (now env))))
  ∧ (deliveriesAbout i (runPasses envs w) ≤ S (deliveriesAbout i w))%nat
  ∧ (let w8 := runPasses [Scenario.healthy (Scenario.at_ 8 0)]
                         (Scenario.world [Scenario.aspirin]) in
     let w20 := runPasses [Scenario.healthy (Scenario.at_ 8 0);
                           Scenario.healthy (Scenario.at_ 20 0)]
                          (Scenario.world [Scenario.aspirin]) in
     delivered w8 = [mkDelivery "chat1" "m1"]
     ∧ Medication.lastReminded <$> medications w8 = [Some (Scenario.at_ 8 0)]
     ∧ Scheduler.shouldRemind (Date.formatHHmm (Scenario.at_ 20 0)) Scenario.aspirin = true
     ∧ delivered w20 = [mkDelivery "chat1" "m1"]
     ∧ medications w20 = medications w8).
Proof.
  intros Hnd Hgood. split; [|split; [by eapply run_at_most_one|by vm_compute]].
  intros env ct tid m w0. cbv zeta. rewrite remind_spec.
  destruct (Scheduler.shouldRemind ct m) eqn:E1; [|by left].
  destruct (Scheduler.notRemindedToday _ _) eqn:E2; [|by left].
  destruct (dispatchSucceeds env tid) eqn:E3; [|by left].
  cbn [andb]. right.
  assert (∀ d, Medication.lastReminded m = Some d → Date.dayOf d ≠ Date.dayOf (now env)) as Hday.
  { intros d Hd Heq. rewrite Hd in E2. cbn in E2. unfold Date.isSameDay in E2.
    rewrite Heq, Z.eqb_refl in E2. done. }
  destruct (dbResolves env _) eqn:E4; cbn [stateOf].
  - split_and!; try done. intros _ x Hx.
    by eapply (markReminded_same (Medication._id m) m (now env) (deliver tid m w0)).
  - split_and!; try done.
Qed.

(** C1, as stated, fails: the reminder is sent before the marker is
    saved (l.64-71).  Aspirin is due at 08:00 and 20:00.  The pass of
    08:00 delivers the reminder, then its [save()] is rejected: the
    stored marker stays unset and the pass ends in its [catch].  The
    pass of 20:00, on the same calendar day, reads the medication back
    without a marker and delivers a second reminder. *)
Lemma rejected_save_allows_second_reminder :
  let env8 := Scenario.saveFails (Scenario.at_ 8 0) "m1" in
  let env20 := Scenario.healthy (Scenario.at_ 20 0) in
  let w0 := Scenario.world [Scenario.aspirin] in
  let w8 := runPasses [env8] w0 in
  let w20 := runPasses [env8; env20] w0 in
  Date.dayOf (now env8) = Date.dayOf (now env20)
  ∧ NoDup (Medication._id <$> medications w0)
  ∧ Medication.timesPerDay Scenario.aspirin = ["08:00"; "20:00"]
  ∧ Scheduler.medicationReminderPass env8 w0
    = Returned (Some (Rejected "medication.save")) w8
  ∧ delivered w8 = [mkDelivery "chat1" "m1"]
  ∧ Medication.lastReminded <$> medications w8 = [None]
  ∧ delivered w20 = [mkDelivery "chat1" "m1"; mkDelivery "chat1" "m1"]
  ∧ deliveriesAbout "m1" w20 = 2%nat
  ∧ ¬ (deliveriesAbout "m1" w20 ≤ S (deliveriesAbout "m1" w0))%nat.
Proof.
  cbv zeta. split_and!; try by vm_compute.
  - apply (bool_decide_unpack _). by vm_compute.
  - assert (deliveriesAbout "m1"
              (runPasses [Scenario.saveFails (Scenario.at_ 8 0) "m1";
                          Scenario.healthy (Scenario.at_ 20 0)]
                         (Scenario.world [Scenario.aspirin])) = 2%nat) as -> by (by vm_compute).
    assert (deliveriesAbout "m1" (Scenario.world [Scenario.aspirin]) = 0%nat) as ->
      by (by vm_compute).
    lia.
Qed.

Lemma one_reminder_per_day_witness :
  (deliveriesAbout "m1"
     (runPasses [Scenario.healthy (Scenario.at_ 8 0); Scenario.healthy (Scenario.at_ 8 30);
                 Scenario.healthy (Scenario.at_ 20 0)]
                (Scenario.world [Scenario.aspirin; Scenario.statin]))
   ≤ S (deliveriesAbout "m1" (Scenario.world [Scenario.aspirin; Scenario.statin])))%nat.
Proof.
  refine (proj1 (proj2 (one_reminder_per_day (Date.dayOf Scenario.day) "m1"
    [Scenario.healthy (Scenario.at_ 8 0); Scenario.healthy (Scenario.at_ 8 30);
     Scenario.healthy (Scenario.at_ 20 0)]
    (Scenario.world [Scenario.aspirin; Scenario.statin]) _ _))).
  - apply (bool_decide_unpack _). by vm_compute.
  - repeat constructor.
Defined.

End PassTheorems.

Section DispatchFailure.

(** C8.  When the dispatcher returns false for a medication, nothing is
    changed for it: the world after the reminder branch, and after the
    whole processing of that medication, is the world before, so the
    marker keeps its value and the count of reminders sent is not
    incremented.  A later pass of the same day that finds the medication
    due therefore dispatches again: with the channel down at 08:00 and up
    at 20:00, the reminder goes out at 20:00. *)
Theorem failed_dispatch_changes_nothing env ct tid m w w' :
  Scheduler.sendMedicationReminder env tid m w = Returned false w' →
  w' = w
  ∧ Scheduler.remind env ct tid m w = Returned tt w
  ∧ (∀ p, Medication.patientId m = Some p →
          Js.truthy (User.telegramId p) = Some tid →
          stateOf (Scheduler.processMedication env ct m w) = w)
  ∧ (∀ env' ct',
       Scheduler.notRemindedToday (now env) (Medication.lastReminded m) = true →
       Date.dayOf (now env') = Date.dayOf (now env) →
       Scheduler.shouldRemind ct' m = true →
       Scheduler.sendMedicationReminder env' tid m w = Returned true (deliver tid m w) →
       delivered (stateOf (Scheduler.remind env' ct' tid m w))
       = delivered w ++ [mkDelivery tid (Medication._id m)])
  ∧ (let w8 := runPasses [Scenario.channelDown (Scenario.at_ 8 0)]
                         (Scenario.world [Scenario.aspirin]) in
     let w20 := runPasses [Scenario.channelDown (Scenario.at_ 8 0);
                           Scenario.healthy (Scenario.at_ 20 0)]
                          (Scenario.world [Scenario.aspirin]) in
     w8 = Scenario.world [Scenario.aspirin]
     ∧ delivered w20 = [mkDelivery "chat1" "m1"]
     ∧ remindersSent w20 = 1).
Proof.
  intros Hsend. rewrite sendMedicationReminder_spec in Hsend.
  destruct (dispatchSucceeds env tid) eqn:Hd; [discriminate|].
  assert (Scheduler.remind env ct tid m w = Returned tt w) as Hremind.
  { rewrite remind_spec, Hd. by rewrite !andb_false_r. }
  split; [congruence|]. split; [done|]. split; [|split; [|by vm_compute]].
  - intros p Hp Htid. rewrite processMedication_spec, Hp, Htid, Hremind.
    by destruct (Scheduler.missedTimes ct m).
  - intros env' ct' Hnot Hday Hdue Hsend'.
    rewrite sendMedicationReminder_spec in Hsend'.
    destruct (dispatchSucceeds env' tid) eqn:Hd'; [|discriminate].
    assert (Scheduler.notRemindedToday (now env') (Medication.lastReminded m) = true) as Hnot'.
    { destruct (Medication.lastReminded m) as [d|]; [|done].
      cbn in *. unfold Date.isSameDay in *. by rewrite Hday. }
    rewrite remind_spec, Hdue, Hnot', Hd'. cbn [andb].
    by destruct (dbResolves env' _).
Qed.

Lemma failed_dispatch_changes_nothing_witness :
  Scenario.world [Scenario.aspirin] = Scenario.world [Scenario.aspirin]
  ∧ Scheduler.remind (Scenario.channelDown (Scenario.at_ 8 0)) "08:00" "chat1"
      Scenario.aspirin (Scenario.world [Scenario.aspirin])
    = Returned tt (Scenario.world [Scenario.aspirin])
  ∧ delivered (stateOf (Scheduler.remind (Scenario.healthy (Scenario.at_ 20 0)) "20:00" "chat1"
                          Scenario.aspirin (Scenario.world [Scenario.aspirin])))
    = delivered (Scenario.world [Scenario.aspirin]) ++ [mkDelivery "chat1" "m1"].
Proof.
  pose proof (failed_dispatch_changes_nothing
                (Scenario.channelDown (Scenario.at_ 8 0)) "08:00" "chat1" Scenario.aspirin
                (Scenario.world [Scenario.aspirin]) (Scenario.world [Scenario.aspirin])
                eq_refl) as (H1 & H2 & _ & H4 & _).
  split; [exact H1|]. split; [exact H2|].
  apply (H4 (Scenario.healthy (Scenario.at_ 20 0)) "20:00"); reflexivity.
Defined.

End DispatchFailure.

Section FailureInOneMedication.

(** C4, as stated, fails.  At 08:00 aspirin and ibuprofen are both due.
    The [save()] of aspirin is rejected: the error is caught by the
    handler of the pass and ibuprofen, which comes next and would have
    been reminded by the same pass on its own, is not processed.
    Likewise at 08:30: the missed-dose branch of aspirin throws, and
    statin, due at 08:30, is not processed. *)
Lemma pass_aborts_at_first_failure :
  let env := Scenario.saveFails (Scenario.at_ 8 0) "m1" in
  let both := Scheduler.medicationReminderPass env
                (Scenario.world [Scenario.aspirin; Scenario.ibuprofen]) in
  let alone := Scheduler.medicationReminderPass env (Scenario.world [Scenario.ibuprofen]) in
  let env' := Scenario.healthy (Scenario.at_ 8 30) in
  let both' := Scheduler.medicationReminderPass env'
                 (Scenario.world [Scenario.aspirin; Scenario.statin]) in
  let alone' := Scheduler.medicationReminderPass env' (Scenario.world [Scenario.statin]) in
  (∃ w, both = Returned (Some (Rejected "medication.save")) w
        ∧ deliveriesAbout "m3" w = 0%nat
        ∧ storedAs "m3" w = [Scenario.ibuprofen])
  ∧ (∃ w, alone = Returned None w ∧ deliveriesAbout "m3" w = 1%nat)
  ∧ (∃ w, both' = Returned (Some (ReferenceError "today")) w
          ∧ deliveriesAbout "m2" w = 0%nat
          ∧ storedAs "m2" w = [Scenario.statin])
  ∧ (∃ w, alone' = Returned None w ∧ deliveriesAbout "m2" w = 1%nat).
Proof.
  cbv zeta. split_and!; eexists; (split; [by vm_compute|by vm_compute]).
Qed.

(** C4, amended.  The callback of the pass never throws.  When the
    processing of one medication throws, the single handler of the pass
    catches the error and the pass ends there: the callback returns with
    the world as the failing medication left it, whatever medications
    come after it. *)
Theorem failure_ends_the_pass env w pre m post e w1 w2 :
  dbResolves env FindMedications = true →
  selected env w = pre ++ m :: post →
  forOf pre (Scheduler.processMedication env (Date.formatHHmm (now env))) (resetCounters w)
  = Returned tt w1 →
  Scheduler.processMedication env (Date.formatHHmm (now env)) m w1 = Threw e w2 →
  (∀ env0 w0, thrown (Scheduler.medicationReminderPass env0 w0) = None)
  ∧ Scheduler.medicationReminderPass env w = Returned (Some e) w2
  ∧ ∀ post', forOf (pre ++ m :: post')
               (Scheduler.processMedication env (Date.formatHHmm (now env))) (resetCounters w)
             = Threw e w2.
Proof.
  intros Hfind Hsel Hpre Hm.
  assert (∀ post', forOf (pre ++ m :: post')
                     (Scheduler.processMedication env (Date.formatHHmm (now env)))
                     (resetCounters w) = Threw e w2) as Hloop.
  { intros post'. by rewrite forOf_app, Hpre, forOf_cons, Hm. }
  split; [apply pass_never_throws|]. split; [|done].
  by rewrite pass_spec, Hfind, Hsel, Hloop.
Qed.

Lemma failure_ends_the_pass_witness :
  Scheduler.medicationReminderPass (Scenario.saveFails (Scenario.at_ 8 0) "m3")
    (Scenario.world [Scenario.aspirin; Scenario.ibuprofen; Scenario.statin])
  = Returned (Some (Rejected "medication.save"))
      (deliver "chat1" Scenario.ibuprofen
         (with_remindersSent (λ n, n + 1)
            (markReminded Scenario.aspirin (Scenario.at_ 8 0)
               (deliver "chat1" Scenario.aspirin
                  (resetCounters
                     (Scenario.world [Scenario.aspirin; Scenario.ibuprofen; Scenario.statin])))))).
Proof.
  refine (proj1 (proj2 (failure_ends_the_pass
    (Scenario.saveFails (Scenario.at_ 8 0) "m3")
    (Scenario.world [Scenario.aspirin; Scenario.ibuprofen; Scenario.statin])
    [Scenario.aspirin] Scenario.ibuprofen [Scenario.statin]
    (Rejected "medication.save") _ _ _ _ _ _))).
  - reflexivity.
  - by vm_compute.
  - by vm_compute.
  - by vm_compute.
Defined.

End FailureInOneMedication.

Section MissedDoses.

Lemma runPasses_histories envs w : histories (runPasses envs w) = histories w.
Proof.
  revert w. induction envs as [|env envs IH]; intros w; [done|].
  cbn [runPasses fold_left]. fold (runPasses envs). rewrite IH, pass_state.
  destruct (dbResolves env FindMedications); [|done].
  by rewrite loop_histories.
Qed.

(** C6.  Over any number of passes, for every medication, scheduled
    time and calendar day the dose records of that key number at most
    one, unless more were stored before the passes, and the passes add
    no record to a key.  The bound holds because the passes create no
    record at all: the query of l.91-98 names [today], which is not in
    scope there, so the branch throws a ReferenceError before its check
    and before any creation.  At 08:30, with aspirin scheduled at 08:00
    and no record for that dose, the pass logs no missed dose and ends
    with the error, and so does a second pass. *)
Theorem missed_dose_at_most_once (envs : list Env) (w : World)
    (med : Medication.t) (t : string) (today : Z) :
  let key := Scheduler.sameKeyToday med t today in
  let before := List.filter key (histories w) in
  let after := List.filter key (histories (runPasses envs w)) in
  (length after ≤ Nat.max 1 (length before))%nat
  ∧ after = before
  ∧ histories (runPasses envs w) = histories w
  ∧ (∀ env p m t0 w0,
       Scheduler.logMissedDose env p m t0 w0 = Threw (ReferenceError "today") w0)
  ∧ (let env0 := Scenario.healthy (Scenario.at_ 8 30) in
     let w0 := Scenario.world [Scenario.aspirin] in
     Scheduler.missedTimes (Date.formatHHmm (now env0)) Scenario.aspirin = ["08:00"]
     ∧ List.find (Scheduler.sameKeyToday Scenario.aspirin "08:00" (now env0)) (histories w0) = None
     ∧ Scheduler.medicationReminderPass env0 w0 = Returned (Some (ReferenceError "today")) w0
     ∧ histories (runPasses [env0; env0] w0) = []).
Proof.
  cbv zeta. rewrite runPasses_histories.
  split; [lia|]. split; [done|]. split; [done|].
  split; [apply logMissedDose_throws|]. split_and!; by vm_compute.
Qed.

End MissedDoses.

(** ** The no-show sweep *)

Section Sweep.

Lemma sweepAppointment_spec env tha a w :
  Scheduler.sweepAppointment env tha a w
  = if Scheduler.overdue tha a
    then if AppointmentSchema.validate (now env) a
         then if dbResolves env (SaveAppointment (Appointment._id a))
              then Returned tt (with_markedAsNoShow (λ n, n + 1)
                                  (setStatus a Appointment.no_show w))
              else Threw (Rejected "appointment.save") w
         else Threw (ValidationError "Appointment validation failed") w
    else Returned tt w.
Proof.
  unfold Scheduler.sweepAppointment. destruct (Scheduler.overdue tha a); [|done].
  unfold bind, Scheduler.saveStatus.
  change (AppointmentSchema.validate (now env) (Appointment.set_status Appointment.no_show a))
    with (AppointmentSchema.validate (now env) a).
  destruct (AppointmentSchema.validate (now env) a); [|done].
  unfold awaitDb. by destruct (dbResolves env _).
Qed.

Lemma markAll_nil coll : markAll [] coll = coll.
Proof.
  unfold markAll. induction coll as [|x xs IH]; [done|]. cbn. rewrite IH.
  by rewrite bool_decide_eq_false_2 by set_solver.
Qed.

Lemma markAll_setStatus a ids w :
  markAll ids (appointments (setStatus a Appointment.no_show w))
  = markAll (Appointment._id a :: ids) (appointments w).
Proof.
  unfold markAll, setStatus. cbn. rewrite map_map. apply map_ext. intros x.
  destruct (decide (Appointment._id x = Appointment._id a)) as [E|E]; cbn.
  - rewrite (bool_decide_eq_true_2 (Appointment._id x ∈ Appointment._id a :: ids))
      by (rewrite E; left).
    by destruct (bool_decide _).
  - destruct (bool_decide (Appointment._id x ∈ ids)) eqn:B.
    + apply bool_decide_eq_true in B. rewrite bool_decide_eq_true_2; [done|by right].
    + apply bool_decide_eq_false in B. rewrite bool_decide_eq_false_2; [done|].
      intros [?|?]%elem_of_cons; done.
Qed.

(** The loop of the sweep marks the documents of [saved], counts them,
    and ends without an error exactly when these are all the overdue
    documents it was given. *)
Lemma sweep_loop env tha l w :
  let o := forOf l (Scheduler.sweepAppointment env tha) w in
  appointments (stateOf o) = markAll (Appointment._id <$> saved env tha l) (appointments w)
  ∧ markedAsNoShow (stateOf o) = markedAsNoShow w + Z.of_nat (length (saved env tha l))
  ∧ (thrown o = None ↔ saved env tha l = List.filter (Scheduler.overdue tha) l).
Proof.
  cbv zeta. revert w. induction l as [|a rest IH]; intros w.
  { cbn. rewrite markAll_nil. split_and!; [done|lia|done]. }
  rewrite forOf_cons, sweepAppointment_spec. cbn [saved List.filter].
  destruct (Scheduler.overdue tha a).
  - destruct (AppointmentSchema.validate (now env) a); cbn [andb].
    + destruct (dbResolves env (SaveAppointment (Appointment._id a))).
      * destruct (IH (with_markedAsNoShow (λ n, n + 1) (setStatus a Appointment.no_show w)))
          as (Ha & Hc & Ht).
        split_and!.
        -- rewrite Ha. apply markAll_setStatus.
        -- rewrite Hc. cbn [length]. cbn. lia.
        -- rewrite Ht. split; [by intros ->|by intros [=]].
      * cbn. rewrite markAll_nil. split_and!; [done|lia|done].
    + cbn. rewrite markAll_nil. split_and!; [done|lia|done].
  - apply IH.
Qed.

Lemma saved_elem env tha l a :
  a ∈ saved env tha l →
  a ∈ l ∧ Scheduler.overdue tha a = true
  ∧ AppointmentSchema.validate (now env) a = true
  ∧ dbResolves env (SaveAppointment (Appointment._id a)) = true.
Proof.
  induction l as [|x l IH]; cbn [saved]; [by intros ?%elem_of_nil|].
  destruct (Scheduler.overdue tha x) eqn:Ho.
  - destruct (AppointmentSchema.validate (now env) x) eqn:Hv; cbn [andb];
      [|by intros ?%elem_of_nil].
    destruct (dbResolves env (SaveAppointment (Appointment._id x))) eqn:Hs;
      [|by intros ?%elem_of_nil].
    intros [->|H]%elem_of_cons.
    + split_and!; [by left|done|done|done].
    + destruct (IH H) as (? & ? & ? & ?). split_and!; [by right|done|done|done].
  - intros H. destruct (IH H) as (? & ? & ? & ?). split_and!; [by right|done|done|done].
Qed.


Lemma saved_filter_overdue env tha l :
  saved env tha (List.filter (Scheduler.overdue tha) l) = saved env tha l.
Proof.
  induction l as [|x l IH]; [done|]. cbn [saved List.filter].
  destruct (Scheduler.overdue tha x) eqn:Ho; [|done].
  cbn [saved]. by rewrite Ho, IH.
Qed.

Lemma filter_filter_and {A} (p q : A → bool) (l : list A) :
  List.filter q (List.filter p l) = List.filter (λ x, p x && q x) l.
Proof.
  induction l as [|x l IH]; [done|]. cbn. destruct (p x); cbn; [|done].
  destruct (q x); by rewrite IH.
Qed.

(** What the sweep saves, in terms of the stored documents to mark. *)
Lemma saved_found env tha coll :
  saved env tha (found tha coll) = saved env tha (List.filter (sweeps tha) coll).
Proof. unfold found. by rewrite <- saved_filter_overdue, filter_filter_and. Qed.

Lemma fmap_injective_on_NoDup {A B} (f : A → B) (l : list A) x y :
  NoDup (f <$> l) → x ∈ l → y ∈ l → f x = f y → x = y.
Proof.
  induction l as [|z l IH]; [by intros _ ?%elem_of_nil|].
  cbn. rewrite NoDup_cons. intros [Hz Hl] Hx Hy Hf.
  apply elem_of_cons in Hx as [->|Hx]; apply elem_of_cons in Hy as [->|Hy]; try done.
  - exfalso. apply Hz. rewrite Hf. by apply list_elem_of_fmap_2.
  - exfalso. apply Hz. rewrite <- Hf. by apply list_elem_of_fmap_2.
  - by apply IH.
Qed.

(** With distinct [_id]s, marking by [_id] marks the documents
    themselves. *)
Lemma markAll_members (S L : list Appointment.t) :
  NoDup (Appointment._id <$> L) → (∀ y, y ∈ S → y ∈ L) →
  markAll (Appointment._id <$> S) L
  = map (λ a, if bool_decide (a ∈ S) then Appointment.set_status Appointment.no_show a else a) L.
Proof.
  intros Hnd Hsub. unfold markAll. apply map_ext_in. intros x Hx%list_elem_of_In.
  destruct (decide (x ∈ S)) as [Hin|Hnin].
  - rewrite (bool_decide_eq_true_2 (x ∈ S)) by done.
    rewrite bool_decide_eq_true_2; [done|by apply list_elem_of_fmap_2].
  - rewrite (bool_decide_eq_false_2 (x ∈ S)) by done.
    rewrite bool_decide_eq_false_2; [done|].
    intros (y & Hid & Hy)%list_elem_of_fmap.
    assert (x = y) as ->; [|done].
    eapply (fmap_injective_on_NoDup Appointment._id); [done|done|by apply Hsub|done].
Qed.

(** The sweep as a whole. *)
Lemma noShowSweep_spec env w :
  let tha := now env - 2 * 60 * 60 * 1000 in
  let o := forOf (found tha (appointments w)) (Scheduler.sweepAppointment env tha)
                 (with_markedAsNoShow (λ _, 0) w) in
  Scheduler.noShowSweep env w
  = if dbResolves env FindAppointments
    then Returned (thrown o) (stateOf o)
    else Returned (Some (Rejected "Appointment.find")) w.
Proof.
  cbv zeta.
  unfold Scheduler.noShowSweep, tryCatch, bind, Scheduler.findOverdueAppointments, awaitDb, found.
  destruct (dbResolves env FindAppointments); [|done]. cbn.
  by destruct (forOf _ _ _) as [[] ?|? ?].
Qed.

Lemma noShowSweep_result env w :
  dbResolves env FindAppointments = true →
  let tha := now env - 2 * 60 * 60 * 1000 in
  let S := saved env tha (List.filter (sweeps tha) (appointments w)) in
  let w' := stateOf (Scheduler.noShowSweep env w) in
  appointments w' = markAll (Appointment._id <$> S) (appointments w)
  ∧ markedAsNoShow w' = Z.of_nat (length S)
  ∧ (thrown (Scheduler.noShowSweep env w) = None)
  ∧ (Scheduler.noShowSweep env w = Returned None w'
     ↔ S = List.filter (sweeps tha) (appointments w)).
Proof.
  intros Hfind tha S w'. subst w' S. rewrite noShowSweep_spec, Hfind. fold tha.
  rewrite <- saved_found.
  destruct (sweep_loop env tha (found tha (appointments w)) (with_markedAsNoShow (λ _, 0) w))
    as (Ha & Hc & Ht).
  cbn [stateOf thrown]. split_and!; [done|by rewrite Hc| done|].
  assert (List.filter (Scheduler.overdue tha) (found tha (appointments w))
          = List.filter (sweeps tha) (appointments w)) as E
    by (unfold found; apply filter_filter_and).
  rewrite E in Ht. rewrite <- Ht.
  split; [by intros [=]|by intros ->].
Qed.







End Sweep.

(** ** The timer registry *)

Section Registry.

Import TimerRegistry.

Context (accepts : CronExpression → bool).

Lemma cronSchedule_spec e r :
  cronSchedule accepts e r
  = if accepts e
    then Returned (length (jobs r)) (mkRegistry (activeReminders r) (jobs r ++ [mkJob e true]))
    else Threw (LibraryError "invalid cron expression") r.
Proof. unfold cronSchedule. by destruct (accepts e). Qed.

(** The loop stops at the first rejected pattern. *)
Lemma createTriggers_fail pre time post timers r :
  Forall (λ t, accepts (expressionOf t) = true) pre →
  accepts (expressionOf time) = false →
  createTriggers accepts (pre ++ time :: post) timers r
  = Threw (LibraryError "invalid cron expression")
          (mkRegistry (activeReminders r) (jobs r ++ (jobFor <$> pre))).
Proof.
  intros Hpre Hbad. revert timers r.
  induction Hpre as [|t pre Ht Hpre IH]; intros timers r.
  - cbn [app createTriggers]. unfold bind. rewrite cronSchedule_spec, Hbad.
    cbn. rewrite app_nil_r. by destruct r.
  - cbn [app createTriggers]. unfold bind. rewrite cronSchedule_spec, Ht.
    rewrite IH. cbn. by rewrite <- app_assoc.
Qed.

Lemma createTriggers_ok times timers r :
  Forall (λ t, accepts (expressionOf t) = true) times →
  createTriggers accepts times timers r
  = Returned (timers ++ seq (length (jobs r)) (length times))
             (mkRegistry (activeReminders r) (jobs r ++ (jobFor <$> times))).
Proof.
  intros Hall. revert timers r.
  induction Hall as [|t times Ht Hall IH]; intros timers r.
  - cbn. rewrite !app_nil_r. by destruct r.
  - cbn [createTriggers]. unfold bind. rewrite cronSchedule_spec, Ht.
    rewrite IH. cbn. rewrite length_app, <- !app_assoc. cbn.
    by rewrite Nat.add_1_r.
Qed.

Lemma stop_all_activeReminders timers r :
  activeReminders (fold_left (λ acc timer, stop timer acc) timers r) = activeReminders r.
Proof. revert r. induction timers as [|t timers IH]; intros r; [done|]. cbn. by rewrite IH. Qed.

Lemma cancelMedicationReminders_lookup id r :
  activeReminders (cancelMedicationReminders id r) !! id = None.
Proof.
  unfold cancelMedicationReminders.
  destruct (activeReminders r !! id) eqn:E; [|done].
  cbn. apply lookup_delete_eq.
Qed.

(** C9, as stated, fails.  With times 08:00, 25:00 and 20:00 the cron
    library rejects the pattern of 25:00: the exception leaves
    [scheduleMedicationReminders], no trigger is created for 20:00 (whose
    pattern the library accepts), the trigger of 08:00 stays running and
    the registry holds no entry for the medication. *)
Lemma trigger_failure_aborts_remaining_times :
  let medication := mkPrescription "m1" (Some (mkFrequency (Some ["08:00"; "25:00"; "20:00"]))) in
  let out := scheduleMedicationReminders Scenario.cronAccepts medication Scenario.alice
               (mkRegistry ∅ []) in
  thrown out = Some (LibraryError "invalid cron expression")
  ∧ Scenario.cronAccepts (expressionOf "20:00") = true
  ∧ liveExpressions (stateOf out) = [mkCron (Some 0) (Some 8)]
  ∧ activeReminders (stateOf out) !! "m1" = None.
Proof. by vm_compute. Qed.

(** C9, amended.  When creating the trigger for one scheduled time
    throws, the exception propagates out of
    [scheduleMedicationReminders]: the triggers created for the earlier
    times are running, none is created for that time or for the times
    after it, and the registry keeps no entry for the medication.  When
    every pattern is accepted, the call returns with one running trigger
    per scheduled time and the entry of the medication stored. *)
Theorem trigger_failure_propagates medication user r pre time post :
  frequency medication ≫= specificTimes = Some (pre ++ time :: post) →
  Forall (λ t, accepts (expressionOf t) = true) pre →
  accepts (expressionOf time) = false →
  let r0 := cancelMedicationReminders (_id medication) r in
  scheduleMedicationReminders accepts medication user r
  = Threw (LibraryError "invalid cron expression")
          (mkRegistry (activeReminders r0) (jobs r0 ++ (jobFor <$> pre)))
  ∧ activeReminders r0 !! _id medication = None
  ∧ (∀ medication' times,
       frequency medication' ≫= specificTimes = Some times →
       Forall (λ t, accepts (expressionOf t) = true) times →
       let r1 := cancelMedicationReminders (_id medication') r in
       scheduleMedicationReminders accepts medication' user r
       = Returned tt
           (mkRegistry
              (<[_id medication' :=
                   mkReminder (User._id user) (_id medication') (User.telegramId user)
                              (seq (length (jobs r1)) (length times))]> (activeReminders r1))
              (jobs r1 ++ (jobFor <$> times)))).
Proof.
  intros Htimes Hpre Hbad r0. split; [|split].
  - unfold scheduleMedicationReminders. rewrite Htimes. unfold bind, modify.
    fold r0. by rewrite (createTriggers_fail pre time post [] r0 Hpre Hbad).
  - apply cancelMedicationReminders_lookup.
  - intros medication' times Htimes' Hall r1.
    unfold scheduleMedicationReminders. rewrite Htimes'. unfold bind, modify.
    fold r1. by rewrite (createTriggers_ok times [] r1 Hall).
Qed.

End Registry.

Lemma trigger_failure_propagates_witness :
  let medication :=
    TimerRegistry.mkPrescription "m1"
      (Some (TimerRegistry.mkFrequency (Some ["08:00"; "25:00"; "20:00"]))) in
  let r := TimerRegistry.mkRegistry ∅ [] in
  let r0 := TimerRegistry.cancelMedicationReminders "m1" r in
  TimerRegistry.scheduleMedicationReminders Scenario.cronAccepts medication Scenario.alice r
  = Threw (LibraryError "invalid cron expression")
          (TimerRegistry.mkRegistry (TimerRegistry.activeReminders r0)
             (TimerRegistry.jobs r0 ++ (TimerRegistry.jobFor <$> ["08:00"])))
  ∧ TimerRegistry.activeReminders r0 !! "m1" = None.
Proof.
  intros medication r r0.
  destruct (trigger_failure_propagates Scenario.cronAccepts medication Scenario.alice r
              ["08:00"] "25:00" ["20:00"]) as (H1 & H2 & _).
  - reflexivity.
  - repeat constructor.
  - reflexivity.
  - split; [exact H1|exact H2].
Defined.

(** ** The five-minute grid *)

Section Grid.

Lemma withinReminderWindow_hhmm h m t a :
  0 ≤ h < 24 → 0 ≤ m < 60 → Js.minutesOfDay t = Some a →
  Scheduler.withinReminderWindow (Date.hhmm h m) t = (Z.abs (a - (h * 60 + m)) <=? 2).
Proof.
  intros Hh Hm Ha. apply withinReminderWindow_minutes; [done|].
  apply minutesOfDay_hhmm; lia.
Qed.

(** X1.  A scheduled time earlier than 23:58 is inside the reminder
    window of exactly one tick of the day whose minute is a multiple of
    five. *)
Theorem one_tick_per_scheduled_time (t : string) (a : Z) :
  Js.matchesTimePattern t = true →
  Js.minutesOfDay t = Some a →
  a < 1438 →
  ∃ h m, 0 ≤ h < 24 ∧ 0 ≤ m < 60 ∧ m mod 5 = 0
    ∧ Scheduler.withinReminderWindow (Date.hhmm h m) t = true
    ∧ ∀ h' m', 0 ≤ h' < 24 → 0 ≤ m' < 60 → m' mod 5 = 0 →
               Scheduler.withinReminderWindow (Date.hhmm h' m') t = true →
               h' = h ∧ m' = m.
Proof.
  intros Hpat Ha Hlt.
  destruct (minutesOfDay_pattern t Hpat) as (h0 & m0 & Hh0 & Hm0 & Ea).
  assert (a = h0 * 60 + m0) as Ha0 by congruence.
  set (b := 5 * ((a + 2) / 5)).
  assert (0 ≤ b < 1440 ∧ b mod 5 = 0 ∧ Z.abs (a - b) ≤ 2) as (Hb & Hb5 & Hab)
    by (subst b; divmod).
  exists (b / 60), (b mod 60).
  assert (b / 60 * 60 + b mod 60 = b) as Hdec by divmod.
  split; [divmod|]. split; [divmod|]. split; [divmod|]. split.
  - rewrite (withinReminderWindow_hhmm _ _ t a) by (done || divmod).
    rewrite Hdec. by apply Z.leb_le.
  - intros h' m' Hh' Hm' Hm5 Hwin.
    rewrite (withinReminderWindow_hhmm _ _ t a) in Hwin by done.
    apply Z.leb_le in Hwin.
    assert (h' * 60 + m' = b) as Hsame by (subst b; divmod).
    divmod.
Qed.

Lemma one_tick_per_scheduled_time_witness :
  ∃ h m, 0 ≤ h < 24 ∧ 0 ≤ m < 60 ∧ m mod 5 = 0
    ∧ Scheduler.withinReminderWindow (Date.hhmm h m) "08:03" = true
    ∧ ∀ h' m', 0 ≤ h' < 24 → 0 ≤ m' < 60 → m' mod 5 = 0 →
               Scheduler.withinReminderWindow (Date.hhmm h' m') "08:03" = true →
               h' = h ∧ m' = m.
Proof. apply (one_tick_per_scheduled_time "08:03" 483); [reflexivity|reflexivity|lia]. Defined.

Lemma digits_nonneg s acc v : 0 ≤ acc → Js.digits acc s = Some v → 0 ≤ v.
Proof.
  revert acc. induction s as [|c s IH]; intros acc Hacc; cbn.
  - intros [= <-]. done.
  - destruct (Js.is_digit c) eqn:Hd; [|discriminate].
    apply IH. unfold Js.is_digit in Hd. apply andb_true_iff in Hd as [Hd _].
    apply Nat.leb_le in Hd. unfold Js.digit_value. lia.
Qed.

(** A parsed time of day is never negative. *)
Lemma minutesOfDay_nonneg t a : Js.minutesOfDay t = Some a → 0 ≤ a.
Proof.
  unfold Js.minutesOfDay, Js.hoursAndMinutes, Js.destructure2.
  destruct (Js.Number <$> Js.split ":" t) as [|h [|m l]] eqn:E; cbn; try discriminate.
  - destruct h; discriminate.
  - destruct h as [h|]; [|discriminate]. destruct m as [m|]; [|discriminate].
    cbn. intros [= <-].
    assert (In (Some h) (Js.Number <$> Js.split ":" t)) as Hh by (rewrite E; by left).
    assert (In (Some m) (Js.Number <$> Js.split ":" t)) as Hm by (rewrite E; right; by left).
    apply in_map_iff in Hh as (sh & Hh & _). apply in_map_iff in Hm as (sm & Hm & _).
    apply digits_nonneg in Hh; [|done]. apply digits_nonneg in Hm; [|done]. lia.
Qed.

(** X2.  A pass that runs on the five-minute grid finds a dose missed
    only when its scheduled minute is itself a multiple of five and lies
    exactly thirty minutes before the tick, so not later than 23:25: a
    time such as 08:07, or any time after 23:29, is never found missed. *)
Theorem missed_only_on_the_grid (nowMs : Z) (m : Medication.t) (t : string) :
  Date.getMinutes nowMs mod 5 = 0 →
  In t (Scheduler.missedTimes (Date.formatHHmm nowMs) m) →
  In t (Medication.timesPerDay m)
  ∧ ∃ a, Js.minutesOfDay t = Some a
         ∧ a mod 5 = 0
         ∧ a + 30 = Date.getHours nowMs * 60 + Date.getMinutes nowMs
         ∧ 0 ≤ a ≤ 1405.
Proof.
  intros Hgrid Hin. unfold Scheduler.missedTimes in Hin.
  apply filter_In in Hin as [Hin Hlate]. split; [done|].
  unfold Scheduler.exactlyThirtyLate in Hlate.
  rewrite minutesOfDay_formatHHmm in Hlate.
  destruct (Js.minutesOfDay t) as [a|] eqn:Ea; [|discriminate].
  pose proof (minutesOfDay_nonneg t a Ea) as Hnn.
  cbn [Js.sub Js.strict_eq mbind option_bind] in Hlate. apply Z.eqb_eq in Hlate.
  pose proof (getHours_range nowMs). pose proof (getMinutes_range nowMs).
  exists a. split; [done|]. divmod.
Qed.

Lemma missed_only_on_the_grid_witness :
  In "08:00" (Medication.timesPerDay Scenario.aspirin)
  ∧ ∃ a, Js.minutesOfDay "08:00" = Some a
         ∧ a mod 5 = 0
         ∧ a + 30 = Date.getHours (Scenario.at_ 8 30) * 60 + Date.getMinutes (Scenario.at_ 8 30)
         ∧ 0 ≤ a ≤ 1405.
Proof.
  apply (missed_only_on_the_grid (Scenario.at_ 8 30) Scenario.aspirin "08:00").
  - reflexivity.
  - left. reflexivity.
Defined.

(** X3.  Whenever the pass finds a medication due at a time,
    [shouldTakeAtTime] of that medication agrees at that time: its
    window of five minutes contains the window of two. *)
Theorem shouldRemind_implies_shouldTakeAtTime (ct : string) (m : Medication.t) :
  Scheduler.shouldRemind ct m = true → MedicationModel.shouldTakeAtTime m ct = true.
Proof.
  unfold Scheduler.shouldRemind, MedicationModel.shouldTakeAtTime.
  rewrite !existsb_exists. intros (t & Hin & Hwin). exists t. split; [done|].
  unfold Scheduler.withinReminderWindow in Hwin.
  destruct (Js.minutesOfDay t) as [a|], (Js.minutesOfDay ct) as [b|]; try discriminate.
  cbn in *. apply Z.leb_le in Hwin. apply Z.leb_le. lia.
Qed.

Lemma shouldRemind_implies_shouldTakeAtTime_witness :
  MedicationModel.shouldTakeAtTime Scenario.aspirin "08:02" = true.
Proof. apply shouldRemind_implies_shouldTakeAtTime. reflexivity. Defined.

End Grid.

(** ** More on the reminder pass *)

Section PassAccounting.






End PassAccounting.

Section QuietMedications.

Context (env : Env) (i : ObjectId).

(** Reasons for which the pass does nothing about a document. *)
Let quiet (ct : string) (m : Medication.t) : Prop :=
  (∃ p, Medication.patientId m = Some p ∧ Js.truthy (User.telegramId p) = None)
  ∨ Scheduler.shouldRemind ct m = false
  ∨ Scheduler.notRemindedToday (now env) (Medication.lastReminded m) = false.

Lemma step_quiet ct m w :
  quiet ct m → stateOf (Scheduler.processMedication env ct m w) = w.
Proof.
  intros Hq. unfold quiet in Hq. rewrite processMedication_spec.
  destruct (Medication.patientId m) as [p|]; [|done].
  destruct Hq as [(p' & [= <-] & Ht)|Hq].
  { by rewrite Ht. }
  destruct (Js.truthy _) as [tid|]; [|done].
  rewrite remind_spec.
  destruct Hq as [-> | ->]; rewrite ?andb_false_r; cbn [andb];
    by destruct (Scheduler.missedTimes ct m).
Qed.

Lemma loop_quiet ct meds w :
  (∀ m, In m meds → Medication._id m = i → quiet ct m) →
  let w' := stateOf (forOf meds (Scheduler.processMedication env ct) w) in
  deliveriesAbout i w' = deliveriesAbout i w ∧ storedAs i w' = storedAs i w.
Proof.
  revert w. induction meds as [|m rest IH]; intros w Hq; [done|].
  cbv zeta.
  assert (deliveriesAbout i (stateOf (Scheduler.processMedication env ct m w))
          = deliveriesAbout i w
          ∧ storedAs i (stateOf (Scheduler.processMedication env ct m w)) = storedAs i w)
    as [H1 H2].
  { destruct (decide (Medication._id m = i)) as [Hi|Hi].
    - rewrite step_quiet; [done|]. apply Hq; [by left|done].
    - by destruct (step_other env ct i m w Hi) as (? & ? & _). }
  destruct (forOf_state_cons env ct m rest w) as [-> | ->]; [|done].
  destruct (IH (stateOf (Scheduler.processMedication env ct m w))) as [H1' H2'].
  { intros x Hx. apply Hq. by right. }
  split; congruence.
Qed.

(** X5.  A pass delivers nothing about a medication, and leaves its
    stored document as it is, when the medication is inactive, when the
    midnight that starts the day of the pass is outside its date range,
    when its patient has no chat linked, when none of its times is
    within two minutes of the tick, or when its marker is of today. *)
Theorem pass_leaves_medication_alone w :
  (∀ m, In m (storedAs i w) →
        Medication.isActive m = false
        ∨ Date.startOfDay (now env) < Medication.startDate m
        ∨ Medication.endDate m < Date.startOfDay (now env)
        ∨ (∃ p, Medication.patientId m = Some p ∧ Js.truthy (User.telegramId p) = None)
        ∨ Scheduler.shouldRemind (Date.formatHHmm (now env)) m = false
        ∨ Scheduler.notRemindedToday (now env) (Medication.lastReminded m) = false) →
  let w' := stateOf (Scheduler.medicationReminderPass env w) in
  deliveriesAbout i w' = deliveriesAbout i w ∧ storedAs i w' = storedAs i w.
Proof.
  intros Hreason. cbv zeta. rewrite pass_state.
  destruct (dbResolves env FindMedications); [|done].
  apply (loop_quiet (Date.formatHHmm (now env)) (selected env w) (resetCounters w)).
  intros m Hm Hi. unfold selected in Hm. apply filter_In in Hm as [Hm Hsel].
  destruct (Hreason m) as [H|[H|[H|H]]].
  - unfold storedAs. apply filter_In. split; [done|by apply bool_decide_eq_true].
  - rewrite H in Hsel. done.
  - apply andb_true_iff in Hsel as [Hsel _]. apply andb_true_iff in Hsel as [_ Hsel].
    apply Z.leb_le in Hsel. lia.
  - apply andb_true_iff in Hsel as [_ Hsel]. apply Z.leb_le in Hsel. lia.
  - exact H.
Qed.

End QuietMedications.

Lemma pass_leaves_medication_alone_witness :
  let env := Scenario.healthy (Scenario.at_ 8 0) in
  let w := Scenario.world [Scenario.aspirin; Scenario.statin] in
  let w' := stateOf (Scheduler.medicationReminderPass env w) in
  deliveriesAbout "m2" w' = deliveriesAbout "m2" w ∧ storedAs "m2" w' = storedAs "m2" w.
Proof.
  intros env w w'. apply (pass_leaves_medication_alone env "m2" w).
  intros m [<-|[]]. do 4 right. left. reflexivity.
Defined.

(** ** More on the no-show sweep *)

Section SweepAgain.

Lemma filter_sublist {A} (p : A → bool) (l : list A) : List.filter p l `sublist_of` l.
Proof.
  induction l as [|x l IH]; [done|]. cbn. destruct (p x).
  - by apply sublist_skip.
  - by apply sublist_cons.
Qed.

Lemma sublist_elem {A} (l k : list A) (x : A) : l `sublist_of` k → x ∈ l → x ∈ k.
Proof. intros Hsub Hx. eapply elem_of_submseteq; [done|by apply sublist_submseteq]. Qed.

Lemma saved_sublist env tha l : saved env tha l `sublist_of` l.
Proof.
  induction l as [|x l IH]; [done|]. cbn [saved].
  destruct (Scheduler.overdue tha x).
  - destruct (_ && _); [by apply sublist_skip|apply sublist_nil_l].
  - by apply sublist_cons.
Qed.

(** Marking the documents of a sublist [S], none of them no-show yet,
    adds the length of [S] to the number of no-shows. *)
Lemma noShows_mark (S L : list Appointment.t) :
  NoDup L → S `sublist_of` L →
  (∀ y, y ∈ S → Appointment.status y ≠ Appointment.no_show) →
  noShows (map (λ a, if bool_decide (a ∈ S)
                     then Appointment.set_status Appointment.no_show a else a) L)
  = noShows L + Z.of_nat (length S).
Proof.
  unfold noShows. revert S. induction L as [|x L IH]; intros S Hnd Hsub Hst.
  { apply sublist_nil_r in Hsub as ->. done. }
  apply NoDup_cons in Hnd as [Hx Hnd].
  apply sublist_cons_r in Hsub as [Hsub|(S' & -> & Hsub)].
  - assert (x ∉ S) as HxS by (intros H; apply Hx; by eapply sublist_elem).
    cbn [map List.filter]. rewrite (bool_decide_eq_false_2 (x ∈ S)) by done.
    specialize (IH S Hnd Hsub Hst).
    destruct (bool_decide (Appointment.status x = Appointment.no_show)); cbn [length]; lia.
  - assert (map (λ a, if bool_decide (a ∈ x :: S')
                      then Appointment.set_status Appointment.no_show a else a) L
            = map (λ a, if bool_decide (a ∈ S')
                        then Appointment.set_status Appointment.no_show a else a) L) as E.
    { apply map_ext_in. intros y Hy%list_elem_of_In.
      destruct (decide (y ∈ S')) as [Hin|Hnin].
      - rewrite !bool_decide_eq_true_2; [done|done|by right].
      - rewrite !bool_decide_eq_false_2; [done|done|].
        intros [->|?]%elem_of_cons; done. }
    cbn [map List.filter]. rewrite E.
    rewrite (bool_decide_eq_true_2 (x ∈ x :: S')) by left.
    assert (∀ y, y ∈ S' → Appointment.status y ≠ Appointment.no_show) as Hst'
      by (intros y Hy; apply Hst; by right).
    specialize (IH S' Hnd Hsub Hst').
    rewrite (bool_decide_eq_false_2 (Appointment.status x = Appointment.no_show))
      by (apply Hst; left).
    change (bool_decide (Appointment.status (Appointment.set_status Appointment.no_show x)
                         = Appointment.no_show)) with true.
    cbn [length]. lia.
Qed.

(** The query of a second sweep finds what the first one found and did
    not save. *)
Lemma found_after_mark tha (S L : list Appointment.t) :
  found tha (map (λ a, if bool_decide (a ∈ S)
                       then Appointment.set_status Appointment.no_show a else a) L)
  = List.filter (λ a, negb (bool_decide (a ∈ S))) (found tha L).
Proof.
  unfold found. induction L as [|x L IH]; [done|]. cbn [map List.filter].
  rewrite IH. destruct (bool_decide (x ∈ S)) eqn:E.
  - change (Appointment.status (Appointment.set_status Appointment.no_show x))
      with Appointment.no_show.
    rewrite (bool_decide_eq_false_2 (Appointment.no_show = Appointment.scheduled)) by done.
    rewrite (bool_decide_eq_false_2 (Appointment.no_show = Appointment.confirmed)) by done.
    cbn [orb andb].
    destruct (_ && _); [|done]. cbn [List.filter]. by rewrite E.
  - destruct (_ && _); [|done]. cbn [List.filter]. by rewrite E.
Qed.

(** Nothing of what a run of the loop left unsaved is saved by a second
    run under the same conditions: it stops where the first one did. *)
Lemma saved_rest env tha (l : list Appointment.t) :
  NoDup l →
  saved env tha (List.filter (λ a, negb (bool_decide (a ∈ saved env tha l))) l) = [].
Proof.
  induction l as [|x l IH]; intros Hnd; [done|].
  apply NoDup_cons in Hnd as [Hx Hnd]. cbn [saved].
  destruct (Scheduler.overdue tha x) eqn:Ho.
  - destruct (AppointmentSchema.validate (now env) x
              && dbResolves env (SaveAppointment (Appointment._id x))) eqn:Hok.
    + cbn [List.filter]. rewrite (bool_decide_eq_true_2 (x ∈ x :: saved env tha l)) by left.
      cbn [negb]. etrans; [|apply (IH Hnd)]. f_equal. apply filter_ext_in.
      intros y Hy%list_elem_of_In. f_equal.
      destruct (decide (y ∈ saved env tha l)) as [Hin|Hnin].
      * rewrite !bool_decide_eq_true_2; [done|done|by right].
      * rewrite !bool_decide_eq_false_2; [done|done|].
        intros [->|?]%elem_of_cons; done.
    + assert (List.filter (λ a, negb (bool_decide (a ∈ @nil Appointment.t))) (x :: l) = x :: l)
        as ->.
      { generalize (x :: l). intros k. induction k as [|y k IHk]; [done|].
        cbn [List.filter]. rewrite bool_decide_eq_false_2 by apply not_elem_of_nil.
        cbn [negb]. by rewrite IHk. }
      cbn [saved]. by rewrite Ho, Hok.
  - cbn [List.filter]. rewrite (bool_decide_eq_false_2 (x ∈ saved env tha l)).
    + cbn [negb saved]. rewrite Ho. by apply IH.
    + intros (_ & Ho' & _)%saved_elem. congruence.
Qed.

(** X6.  When the store answers the query, the sweep counts exactly the
    appointments it marks: its count is the number of no-show
    appointments the store gained.  A second sweep at the same instant,
    the store and the validators answering as before, changes no
    appointment and counts none, whether the first one marked all the
    appointments to mark or stopped at a refused [save()]. *)
Theorem sweep_is_idempotent env w :
  NoDup (Appointment._id <$> appointments w) →
  dbResolves env FindAppointments = true →
  let w1 := stateOf (Scheduler.noShowSweep env w) in
  let w2 := stateOf (Scheduler.noShowSweep env w1) in
  markedAsNoShow w1 = noShows (appointments w1) - noShows (appointments w)
  ∧ appointments w2 = appointments w1
  ∧ markedAsNoShow w2 = 0.
Proof.
  intros Hnd Hfind w1 w2.
  set (tha := now env - 2 * 60 * 60 * 1000).
  set (S := saved env tha (found tha (appointments w))).
  assert (NoDup (appointments w)) as HndL by (by eapply NoDup_fmap_1).
  assert (S `sublist_of` appointments w) as Hsub.
  { transitivity (found tha (appointments w)); [apply saved_sublist|apply filter_sublist]. }
  destruct (noShowSweep_result env w Hfind) as (Ha & Hc & _).
  fold tha w1 in Ha, Hc. rewrite <- saved_found in Ha, Hc. fold S in Ha, Hc.
  rewrite markAll_members in Ha; [|done|intros y Hy; by eapply sublist_elem].
  destruct (noShowSweep_result env w1 Hfind) as (Ha2 & Hc2 & _).
  fold tha w2 in Ha2, Hc2. rewrite <- saved_found in Ha2, Hc2.
  assert (saved env tha (found tha (appointments w1)) = []) as E.
  { rewrite Ha, found_after_mark. apply saved_rest.
    unfold found. eapply sublist_NoDup; [exact HndL|apply filter_sublist]. }
  rewrite E in Ha2, Hc2. split; [|split].
  - rewrite Hc, Ha, noShows_mark; [lia|done|done|].
    intros y Hy Hst. apply saved_elem in Hy as (Hy & _).
    unfold found in Hy. apply list_elem_of_In, filter_In in Hy as [_ Hy].
    rewrite Hst in Hy. done.
  - rewrite Ha2. apply markAll_nil.
  - exact Hc2.
Qed.

Lemma sweep_is_idempotent_witness :
  let env := Scenario.healthy (Scenario.at_ 12 30) in
  let w := Scenario.clinic
             [Scenario.appointment "a1" "10:00" 240 Appointment.scheduled;
              Scenario.appointmentOn (Scenario.day - Date.msPerDay) "a3" "22:30" 30
                                     Appointment.scheduled;
              Scenario.appointment "a2" "09:00" 30 Appointment.confirmed] in
  let w1 := stateOf (Scheduler.noShowSweep env w) in
  let w2 := stateOf (Scheduler.noShowSweep env w1) in
  markedAsNoShow w1 = 1
  ∧ markedAsNoShow w1 = noShows (appointments w1) - noShows (appointments w)
  ∧ appointments w2 = appointments w1
  ∧ markedAsNoShow w2 = 0.
Proof.
  intros env w. split; [reflexivity|]. apply (sweep_is_idempotent env w).
  - apply (bool_decide_unpack _). by vm_compute.
  - reflexivity.
Defined.

End SweepAgain.

(** ** More on conflicts and adherence *)

Section MoreConflicts.

(** [hasConflict] against one stored appointment. *)
Lemma hasConflict_single b doctorId date time duration excludeId :
  AppointmentModel.hasConflict [b] doctorId date time duration excludeId = true
  ↔ Appointment.doctorId b = doctorId
    ∧ Date.dayOf (Appointment.date b) = Date.dayOf date
    ∧ isActiveStatus b
    ∧ excludeId ≠ Some (Appointment._id b)
    ∧ AppointmentModel.overlaps (Js.minutesOfDay time)
        (Js.add (Js.minutesOfDay time) (Some duration)) b = true.
Proof.
  unfold AppointmentModel.hasConflict. rewrite existsb_exists. split.
  - intros (a & Hin & Hov). apply conflictCandidates_In in Hin as ([<-|[]] & ? & ? & ? & ?).
    by split_and!.
  - intros (? & ? & ? & ? & ?). exists b. split; [|done].
    apply conflictCandidates_In. split_and!; try done. by left.
Qed.

(** X7.  Between two scheduled or confirmed appointments the conflict
    test is symmetric: the first conflicts with the second as candidate
    against stored exactly when the second conflicts with the first. *)
Theorem hasConflict_symmetric (a b : Appointment.t) :
  isActiveStatus a → isActiveStatus b →
  AppointmentModel.hasConflict [b] (Appointment.doctorId a) (Appointment.date a)
    (Appointment.time a) (Appointment.duration a) None
  = AppointmentModel.hasConflict [a] (Appointment.doctorId b) (Appointment.date b)
      (Appointment.time b) (Appointment.duration b) None.
Proof.
  intros Ha Hb. apply eq_true_iff_eq. rewrite !hasConflict_single, !overlaps_iff.
  split; intros (Hd & Hday & _ & _ & s & e & s' & Hs & He & Hs' & H1 & H2);
    rewrite Hs in He; cbn in He; simplify_eq;
    (split_and!; [done|done|done|done|]);
    eexists s', _, s; rewrite Hs', Hs; (split_and!; [done|done|done|lia|lia]).
Qed.

Lemma hasConflict_symmetric_witness :
  AppointmentModel.hasConflict [Scenario.appointment "a2" "10:15" 30 Appointment.scheduled]
    "d1" Scenario.day "10:00" 30 None
  = AppointmentModel.hasConflict [Scenario.appointment "a1" "10:00" 30 Appointment.confirmed]
      "d1" Scenario.day "10:15" 30 None.
Proof.
  apply (hasConflict_symmetric (Scenario.appointment "a1" "10:00" 30 Appointment.confirmed)
           (Scenario.appointment "a2" "10:15" 30 Appointment.scheduled)).
  - right. reflexivity.
  - left. reflexivity.
Defined.

End MoreConflicts.

Section MoreAdherence.

Lemma sumStatus_partition docs :
  Z.of_nat (length docs)
  = HistoryModel.sumStatus MedicationHistory.taken docs
    + HistoryModel.sumStatus MedicationHistory.missed docs
    + HistoryModel.sumStatus MedicationHistory.skipped docs
    + HistoryModel.sumStatus MedicationHistory.delayed docs.
Proof.
  induction docs as [|h docs IH]; [done|].
  cbn [length HistoryModel.sumStatus fold_right].
  fold (HistoryModel.sumStatus MedicationHistory.taken docs).
  fold (HistoryModel.sumStatus MedicationHistory.missed docs).
  fold (HistoryModel.sumStatus MedicationHistory.skipped docs).
  fold (HistoryModel.sumStatus MedicationHistory.delayed docs).
  destruct (MedicationHistory.status h); repeat (destruct (decide _); try done); lia.
Qed.

(** X8.  The four counts the calculator returns add up to its total:
    every dose record of the window is taken, missed, skipped or
    delayed, and is counted once. *)
Theorem adherence_counts_partition coll nowMs patientId medicationId days :
  let r := HistoryModel.getAdherenceRate coll nowMs patientId medicationId days in
  HistoryModel.totalDoses r
  = HistoryModel.takenDoses r + HistoryModel.missedDoses r
    + HistoryModel.skippedDoses r + HistoryModel.delayedDoses r.
Proof.
  cbv zeta. unfold HistoryModel.getAdherenceRate.
  destruct (List.filter _ coll) as [|d docs] eqn:E; [done|].
  cbn [HistoryModel.totalDoses HistoryModel.takenDoses HistoryModel.missedDoses
       HistoryModel.skippedDoses HistoryModel.delayedDoses].
  apply sumStatus_partition.
Qed.

Lemma total_is_length coll nowMs patientId medicationId days :
  HistoryModel.totalDoses (HistoryModel.getAdherenceRate coll nowMs patientId medicationId days)
  = Z.of_nat (length (List.filter (HistoryModel.matchQuery nowMs patientId medicationId days) coll)).
Proof.
  unfold HistoryModel.getAdherenceRate. by destruct (List.filter _ coll).
Qed.

Lemma taken_is_sum coll nowMs patientId medicationId days :
  HistoryModel.takenDoses (HistoryModel.getAdherenceRate coll nowMs patientId medicationId days)
  = HistoryModel.sumStatus MedicationHistory.taken
      (List.filter (HistoryModel.matchQuery nowMs patientId medicationId days) coll).
Proof.
  unfold HistoryModel.getAdherenceRate. by destruct (List.filter _ coll).
Qed.

Lemma filter_length_mono {A} (p q : A → bool) (l : list A) :
  (∀ x, p x = true → q x = true) →
  (length (List.filter p l) ≤ length (List.filter q l))%nat.
Proof.
  intros Hpq. induction l as [|x l IH]; [done|]. cbn.
  destruct (p x) eqn:Hp; [rewrite (Hpq x Hp); cbn; lia|].
  destruct (q x); cbn; lia.
Qed.

Lemma sumStatus_filter_mono st (p q : MedicationHistory.t → bool) l :
  (∀ x, p x = true → q x = true) →
  HistoryModel.sumStatus st (List.filter p l) ≤ HistoryModel.sumStatus st (List.filter q l).
Proof.
  intros Hpq. induction l as [|x l IH]; [done|]. cbn [List.filter].
  destruct (p x) eqn:Hp.
  - rewrite (Hpq x Hp). cbn [HistoryModel.sumStatus fold_right].
    fold (HistoryModel.sumStatus st (List.filter p l)).
    fold (HistoryModel.sumStatus st (List.filter q l)). lia.
  - destruct (q x); [|done]. cbn [HistoryModel.sumStatus fold_right].
    fold (HistoryModel.sumStatus st (List.filter q l)). destruct (decide _); lia.
Qed.

(** X9.  Narrowing the question never raises a count: over a window
    that is not longer, and for one medication instead of all, the total
    and the taken count are not larger. *)
Theorem adherence_counts_monotone coll nowMs patientId medicationId days days' :
  days ≤ days' →
  let narrow := HistoryModel.getAdherenceRate coll nowMs patientId medicationId days in
  let wide := HistoryModel.getAdherenceRate coll nowMs patientId None days' in
  HistoryModel.totalDoses narrow ≤ HistoryModel.totalDoses wide
  ∧ HistoryModel.takenDoses narrow ≤ HistoryModel.takenDoses wide.
Proof.
  intros Hdays. cbv zeta.
  assert (∀ h, HistoryModel.matchQuery nowMs patientId medicationId days h = true →
               HistoryModel.matchQuery nowMs patientId None days' h = true) as Himp.
  { intros h. rewrite !matchQuery_iff. intros (Hp & Ht & _).
    split_and!; [done| |done]. unfold Date.msPerDay in *. lia. }
  rewrite !total_is_length, !taken_is_sum. split.
  - apply Nat2Z.inj_le. by apply filter_length_mono.
  - by apply sumStatus_filter_mono.
Qed.

Lemma adherence_counts_monotone_witness :
  let coll := [MedicationHistory.mk "m1" "p1" 1000 (Some "08:00") MedicationHistory.taken "";
               MedicationHistory.mk "m2" "p1" 2000 (Some "08:00") MedicationHistory.missed ""] in
  HistoryModel.totalDoses (HistoryModel.getAdherenceRate coll 3000 "p1" (Some "m1") 7)
  ≤ HistoryModel.totalDoses (HistoryModel.getAdherenceRate coll 3000 "p1" None 30).
Proof.
  intros coll.
  apply (proj1 (adherence_counts_monotone coll 3000 "p1" (Some "m1") 7 30 ltac:(lia))).
Defined.

End MoreAdherence.

(** ** The end time of an appointment *)

Section EndTime.

(** Below 100, printing and padding gives the two digits. *)
Lemma padStart2_small n :
  0 ≤ n < 100 → AppointmentDoc.padStart2 (AppointmentDoc.toString (Some n)) = Date.pad2 n.
Proof.
  intros Hn.
  apply (forallb_range
           (λ z, bool_decide (AppointmentDoc.padStart2 (AppointmentDoc.toString (Some z))
                              = Date.pad2 z)) 0 100) in Hn.
  - by apply bool_decide_eq_true in Hn.
  - by vm_compute.
Qed.

(** The virtual in closed form, for a start the pattern accepts and an
    end below 100 hours. *)
Lemma endTime_hhmm a s :
  Js.matchesTimePattern (Appointment.time a) = true →
  Js.minutesOfDay (Appointment.time a) = Some s →
  0 ≤ s + Appointment.duration a < 6000 →
  AppointmentDoc.endTime a
  = Date.hhmm ((s + Appointment.duration a) / 60) ((s + Appointment.duration a) mod 60).
Proof.
  intros Hpat Hs Hrange.
  destruct (hoursAndMinutes_pattern _ Hpat) as (h & m & Hh & Hm & E).
  assert (s = h * 60 + m) as -> by (unfold Js.minutesOfDay in Hs; rewrite E in Hs; by simplify_eq/=).
  unfold AppointmentDoc.endTime. rewrite E. cbn [Js.mul Js.add mbind option_bind
    AppointmentDoc.floorDiv60 AppointmentDoc.rem60 fmap option_fmap option_map].
  rewrite Z.rem_mod_nonneg by lia.
  rewrite !padStart2_small by divmod. reflexivity.
Qed.

Lemma hoursAndMinutes_hhmm h m :
  0 ≤ h < 100 → 0 ≤ m < 100 → Js.hoursAndMinutes (Date.hhmm h m) = (Some h, Some m).
Proof.
  intros Hh Hm.
  destruct (digit_char_facts (h / 10)) as (D1 & V1 & E1); [divmod|].
  destruct (digit_char_facts (h mod 10)) as (D2 & V2 & E2); [divmod|].
  destruct (digit_char_facts (m / 10)) as (D3 & V3 & E3); [divmod|].
  destruct (digit_char_facts (m mod 10)) as (D4 & V4 & E4); [divmod|].
  unfold Js.hoursAndMinutes, Date.hhmm, Date.pad2. cbn [Js.split].
  rewrite E1, E2. cbn [Ascii.eqb Bool.eqb Js.split]. rewrite E3, E4. cbn.
  rewrite D1, D2, D3, D4. cbn. rewrite V1, V2, V3, V4.
  unfold Js.destructure2. cbn [lookup list_lookup default from_option id].
  f_equal; f_equal; divmod.
Qed.

(** X10.  For an appointment whose start the pattern accepts and that
    ends before midnight, the virtual [endTime] reads back as start +
    duration minutes, the end of the interval the conflict test works
    with: its hour part reads as the whole hours of that sum, below 24,
    and its minute part as the remaining minutes, below 60. *)
Theorem endTime_reads_back a s :
  Js.matchesTimePattern (Appointment.time a) = true →
  Js.minutesOfDay (Appointment.time a) = Some s →
  0 ≤ Appointment.duration a →
  s + Appointment.duration a < 1440 →
  let total := s + Appointment.duration a in
  Js.hoursAndMinutes (AppointmentDoc.endTime a) = (Some (total / 60), Some (total mod 60))
  ∧ 0 ≤ total / 60 < 24
  ∧ 0 ≤ total mod 60 < 60
  ∧ Js.minutesOfDay (AppointmentDoc.endTime a) = Some total.
Proof.
  intros Hpat Hs Hd Hend total.
  pose proof (minutesOfDay_nonneg _ _ Hs) as Hnn.
  rewrite (endTime_hhmm a s) by (done || lia). fold total.
  split; [apply hoursAndMinutes_hhmm; subst total; divmod|].
  split; [subst total; divmod|]. split; [subst total; divmod|].
  rewrite minutesOfDay_hhmm by (subst total; divmod). f_equal. divmod.
Qed.

Lemma endTime_reads_back_witness :
  let a := Scenario.appointment "a1" "10:00" 30 Appointment.confirmed in
  AppointmentDoc.endTime a = "10:30"
  ∧ Js.hoursAndMinutes (AppointmentDoc.endTime a) = (Some 10, Some 30)
  ∧ Js.minutesOfDay (AppointmentDoc.endTime a) = Some (600 + Appointment.duration a).
Proof.
  intros a.
  destruct (endTime_reads_back a 600) as (H1 & _ & _ & H2);
    [reflexivity|reflexivity|by vm_compute|by vm_compute|].
  split; [reflexivity|]. split; [exact H1|exact H2].
Defined.

(** X11.  The virtual [endTime] does not wrap at midnight: for a
    duration the schema allows (at most 240 minutes), an appointment that
    ends at or after midnight has an end time with hour 24 or more, which
    the time pattern rejects; it still reads back as start + duration. *)
Theorem endTime_past_midnight a s :
  Js.matchesTimePattern (Appointment.time a) = true →
  Js.minutesOfDay (Appointment.time a) = Some s →
  Appointment.duration a ≤ 240 →
  1440 ≤ s + Appointment.duration a →
  Js.matchesTimePattern (AppointmentDoc.endTime a) = false
  ∧ Js.minutesOfDay (AppointmentDoc.endTime a) = Some (s + Appointment.duration a).
Proof.
  intros Hpat Hs Hd Hend.
  destruct (minutesOfDay_pattern _ Hpat) as (h & m & Hh & Hm & E).
  assert (s = h * 60 + m) as -> by congruence.
  rewrite (endTime_hhmm a (h * 60 + m)) by (done || lia).
  split.
  - rewrite pattern_hhmm by divmod. apply bool_decide_eq_false. divmod.
  - rewrite minutesOfDay_hhmm by divmod. f_equal. divmod.
Qed.

Lemma endTime_past_midnight_witness :
  let a := Scenario.appointment "a1" "23:30" 60 Appointment.scheduled in
  Js.matchesTimePattern (AppointmentDoc.endTime a) = false
  ∧ Js.minutesOfDay (AppointmentDoc.endTime a) = Some (1410 + Appointment.duration a).
Proof.
  intros a. apply (endTime_past_midnight a 1410);
    [reflexivity|reflexivity|by vm_compute|by vm_compute].
Defined.

Example endTime_2330_plus_60 :
  AppointmentDoc.endTime (Scenario.appointment "a1" "23:30" 60 Appointment.scheduled) = "24:30".
Proof. by vm_compute. Qed.

Example endTime_malformed :
  AppointmentDoc.endTime (Scenario.appointment "a1" "1030" 30 Appointment.scheduled) = "NaN:NaN".
Proof. by vm_compute. Qed.

End EndTime.

(** ** The pre-save hook of appointments *)

Section PreSave.

Lemma hasConflict_false_each coll doctorId date time duration excludeId b :
  AppointmentModel.hasConflict coll doctorId date time duration excludeId = false →
  In b coll →
  AppointmentModel.hasConflict [b] doctorId date time duration excludeId = false.
Proof.
  intros Hnone Hb. destruct (AppointmentModel.hasConflict [b] _ _ _ _ _) eqn:E; [|done].
  apply hasConflict_single in E as (? & ? & ? & ? & Hov).
  assert (AppointmentModel.hasConflict coll doctorId date time duration excludeId = true) as Ht.
  { unfold AppointmentModel.hasConflict. apply existsb_exists. exists b. split; [|done].
    apply conflictCandidates_In. by split_and!. }
  congruence.
Qed.

(** With the own [_id] excluded on both sides, the test is symmetric
    between active appointments. *)
Lemma hasConflict_swap a b :
  isActiveStatus a →
  AppointmentModel.hasConflict [a] (Appointment.doctorId b) (Appointment.date b)
    (Appointment.time b) (Appointment.duration b) (Some (Appointment._id b)) = false →
  AppointmentModel.hasConflict [b] (Appointment.doctorId a) (Appointment.date a)
    (Appointment.time a) (Appointment.duration a) (Some (Appointment._id a)) = false.
Proof.
  intros Ha Hba. destruct (AppointmentModel.hasConflict [b] _ _ _ _ _) eqn:E; [|done].
  apply hasConflict_single in E as (Hd & Hday & Hb & Hid & Hov).
  apply overlaps_iff in Hov as (s & e & s' & Hs & He & Hs' & H1 & H2).
  rewrite Hs in He. cbn in He. simplify_eq.
  assert (AppointmentModel.hasConflict [a] (Appointment.doctorId b) (Appointment.date b)
            (Appointment.time b) (Appointment.duration b) (Some (Appointment._id b)) = true) as Ht.
  { apply hasConflict_single. split_and!; [done|done|done|congruence|].
    apply overlaps_iff. eexists s', _, s. rewrite Hs', Hs. split_and!; [done|done|done|lia|lia]. }
  congruence.
Qed.

Lemma hasConflict_self a doctorId date time duration :
  AppointmentModel.hasConflict [a] doctorId date time duration (Some (Appointment._id a)) = false.
Proof.
  destruct (AppointmentModel.hasConflict [a] _ _ _ _ _) eqn:E; [|done].
  apply hasConflict_single in E as (_ & _ & _ & Hid & _). done.
Qed.

Lemma store_In coll c doc x :
  In x (AppointmentDoc.store coll c doc) →
  x = doc ∨ In x coll.
Proof.
  unfold AppointmentDoc.store. destruct (AppointmentDoc.isNew c).
  - intros [?|[<-|[]]]%in_app_or; auto.
  - intros (y & <- & Hy)%in_map_iff. destruct (decide _); auto.
Qed.

(** X12.  A save that the hook checks keeps the collection free of
    double bookings: when a new appointment, or one whose date, time or
    duration was modified, passes the hook and is stored, no scheduled or
    confirmed appointment of the collection conflicts with another one;
    and when the hook fails, the collection is unchanged and holds an
    appointment that conflicts with the candidate. *)
Theorem save_keeps_noDoubleBooking coll c doc :
  noDoubleBooking coll →
  AppointmentDoc.isNew c || AppointmentDoc.dateModified c
    || AppointmentDoc.timeModified c || AppointmentDoc.durationModified c = true →
  match AppointmentDoc.save coll c doc with
  | (AppointmentDoc.Proceed, coll') =>
      coll' = AppointmentDoc.store coll c doc ∧ noDoubleBooking coll'
  | (AppointmentDoc.Fail _ _, coll') =>
      coll' = coll
      ∧ ∃ b, In b coll ∧ isActiveStatus b ∧ Appointment._id b ≠ Appointment._id doc
             ∧ AppointmentModel.hasConflict [b] (Appointment.doctorId doc) (Appointment.date doc)
                 (Appointment.time doc) (Appointment.duration doc) None = true
  end.
Proof.
  intros Hinv Hchecked. unfold AppointmentDoc.save, AppointmentDoc.preSave. rewrite Hchecked.
  destruct (AppointmentModel.hasConflict coll _ _ _ _ _) eqn:Hhook.
  - split; [done|]. unfold AppointmentModel.hasConflict in Hhook.
    apply existsb_exists in Hhook as (b & Hb & Hov).
    apply conflictCandidates_In in Hb as (Hb & Hd & Hday & Hst & Hid).
    exists b. split_and!; [done|done|congruence|].
    apply hasConflict_single. by split_and!.
  - split; [done|]. intros a b Ha Hb Hact.
    apply store_In in Ha as [->|Ha]; apply store_In in Hb as [->|Hb].
    + apply hasConflict_self.
    + by eapply hasConflict_false_each.
    + destruct (decide (isActiveStatus doc)) as [Hdoc|Hdoc].
      * apply hasConflict_swap; [done|]. by eapply hasConflict_false_each.
      * destruct (AppointmentModel.hasConflict [doc] _ _ _ _ _) eqn:E; [|done].
        by apply hasConflict_single in E as (_ & _ & ? & _).
    + by apply Hinv.
Qed.

Lemma save_keeps_noDoubleBooking_witness :
  let coll := Scenario.existing_1000_1030 in
  let doc := Scenario.appointment "a2" "10:30" 30 Appointment.scheduled in
  let c := AppointmentDoc.mkChanges true false false false in
  AppointmentDoc.save coll c doc = (AppointmentDoc.Proceed, coll ++ [doc])
  ∧ noDoubleBooking (coll ++ [doc]).
Proof.
  intros coll doc c.
  assert (noDoubleBooking coll) as Hinv.
  { intros a b [<-|[]] [<-|[]] _. apply hasConflict_self. }
  assert (AppointmentDoc.save coll c doc = (AppointmentDoc.Proceed, coll ++ [doc])) as E
    by (vm_compute; reflexivity).
  pose proof (save_keeps_noDoubleBooking coll c doc Hinv eq_refl) as H.
  rewrite E in H. destruct H as [_ H]. split; [exact E|exact H].
Defined.

(** A save that modifies only other paths than date, time and duration
    is not checked by the hook. *)
Lemma status_save_passes_hook coll doc :
  AppointmentDoc.preSave coll (AppointmentDoc.mkChanges false false false false) doc
  = AppointmentDoc.Proceed.
Proof. reflexivity. Qed.

(** X13.  Saving a loaded appointment whose status is no longer
    scheduled or confirmed passes the hook and keeps the collection free
    of double bookings; so do, in particular, the saves of [cancel()], of
    [markCompleted()] and of the no-show sweep. *)
Theorem deactivation_keeps_noDoubleBooking coll doc :
  noDoubleBooking coll →
  ¬ isActiveStatus doc →
  let unchecked := AppointmentDoc.mkChanges false false false false in
  AppointmentDoc.save coll unchecked doc
  = (AppointmentDoc.Proceed, AppointmentDoc.store coll unchecked doc)
  ∧ noDoubleBooking (AppointmentDoc.store coll unchecked doc)
  ∧ (∀ nowMs reason a,
       noDoubleBooking (AppointmentDoc.store coll unchecked (AppointmentModel.cancel nowMs reason a)))
  ∧ (∀ nowMs diagnosis treatment a,
       noDoubleBooking (AppointmentDoc.store coll unchecked
                          (AppointmentModel.markCompleted nowMs diagnosis treatment a)))
  ∧ (∀ a, noDoubleBooking (AppointmentDoc.store coll unchecked
                             (Appointment.set_status Appointment.no_show a))).
Proof.
  intros Hinv Hdoc unchecked.
  assert (∀ d, ¬ isActiveStatus d → noDoubleBooking (AppointmentDoc.store coll unchecked d))
    as Hkeep.
  { intros d Hd a b Ha Hb Hact.
    apply store_In in Ha as [->|Ha]; [done|].
    apply store_In in Hb as [->|Hb]; [|by apply Hinv].
    destruct (AppointmentModel.hasConflict [d] _ _ _ _ _) eqn:E; [|done].
    by apply hasConflict_single in E as (_ & _ & ? & _). }
  split; [done|]. split; [by apply Hkeep|].
  split_and!; intros; apply Hkeep; intros [?|?]; discriminate.
Qed.

Lemma deactivation_keeps_noDoubleBooking_witness :
  let coll := Scenario.existing_1000_1030 in
  let doc := AppointmentModel.cancel (Scenario.at_ 9 0) "patient called"
               (Scenario.appointment "a1" "10:00" 30 Appointment.confirmed) in
  noDoubleBooking
    (AppointmentDoc.store coll (AppointmentDoc.mkChanges false false false false) doc).
Proof.
  intros coll doc.
  assert (noDoubleBooking coll) as Hinv.
  { intros a b [<-|[]] [<-|[]] _. apply hasConflict_self. }
  destruct (deactivation_keeps_noDoubleBooking coll doc Hinv) as (_ & H & _);
    [intros [?|?]; discriminate|exact H].
Defined.

End PreSave.

(** ** The daily appointment reminders *)

Section AppointmentReminderPass.

Import AppointmentReminders.

Lemma sendAppointmentReminder_spec env tid r w :
  sendAppointmentReminder env tid r w
  = if dispatchSucceeds env tid r then Returned true (deliver tid r w) else Returned false w.
Proof.
  unfold sendAppointmentReminder, botSendAppointmentReminder, dispatchSucceeds.
  destruct (botModuleLoads env), (botStarted env), (doctor r),
    (sendMessageResolves env tid); reflexivity.
Qed.

(** The body of the loop in closed form. *)
Lemma processAppointment_spec env r w :
  processAppointment env r w
  = match patient r with
    | None => Threw (TypeError "appointment.patientId is null") w
    | Some p =>
        match Js.truthy (User.telegramId p) with
        | None => Returned tt w
        | Some tid =>
            if dispatchSucceeds env tid r then
              if dbResolves env (SaveAppointment (idOf r))
              then Returned tt
                     (mkClinic (records (markSent r (now env) (deliver tid r w)))
                               (sent (deliver tid r w)) (remindersSent w + 1))
              else Threw (Rejected "appointment.save") (deliver tid r w)
            else Returned tt w
        end
    end.
Proof.
  unfold processAppointment.
  destruct (patient r) as [p|]; [|done].
  destruct (Js.truthy _) as [tid|]; [|done].
  unfold bind. rewrite sendAppointmentReminder_spec.
  destruct (dispatchSucceeds env tid r); [|done].
  unfold await. by destruct (dbResolves env _).
Qed.

Lemma pass_state_appointments env w :
  stateOf (appointmentReminderPass env w)
  = if dbResolves env FindAppointments
    then stateOf (forOf (List.filter (forTomorrow (now env)) (records w))
                    (processAppointment env) (mkClinic (records w) (sent w) 0))
    else w.
Proof.
  unfold appointmentReminderPass, tryCatch, bind, findAppointmentsForTomorrow, await.
  destruct (dbResolves env FindAppointments); [|done]. cbn.
  by destruct (forOf _ _ _).
Qed.

(** The callback in closed form. *)
Lemma appointment_pass_spec env w :
  appointmentReminderPass env w
  = if dbResolves env FindAppointments then
      match forOf (List.filter (forTomorrow (now env)) (records w))
              (processAppointment env) (mkClinic (records w) (sent w) 0) with
      | Returned _ w1 => Returned None w1
      | Threw e w1 => Returned (Some e) w1
      end
    else Returned (Some (Rejected (callName FindAppointments))) w.
Proof.
  unfold appointmentReminderPass, tryCatch, bind, findAppointmentsForTomorrow, await.
  destruct (dbResolves env FindAppointments); [|done]. cbn.
  by destruct (forOf _ _ _) as [[] ?|? ?].
Qed.

Context (i : ObjectId).

(** What processing one appointment does to the reminders about [i]
    and to the stored documents of [i]. *)
Lemma step_appointment env r w :
  let w1 := stateOf (processAppointment env r w) in
  (idOf <$> records w1) = (idOf <$> records w)
  ∧ ((sentAbout i w1 = sentAbout i w ∧ storedAs i w1 = storedAs i w)
     ∨ (idOf r = i
        ∧ sentAbout i w1 = S (sentAbout i w)
        ∧ (dbResolves env (SaveAppointment i) = true →
           ∀ x, In x (storedAs i w1) → reminderSent x = true))).
Proof.
  cbv zeta. rewrite processAppointment_spec.
  destruct (patient r) as [p|]; [|by split; [|left]].
  destruct (Js.truthy _) as [tid|]; [|by split; [|left]].
  destruct (dispatchSucceeds env tid r); [|by split; [|left]].
  assert (∀ w0, sentAbout i (deliver tid r w0)
                = if decide (idOf r = i) then S (sentAbout i w0) else sentAbout i w0) as Hsent.
  { intros w0. unfold sentAbout, deliver. cbn. rewrite List.filter_app, length_app. cbn.
    destruct (decide (idOf r = i)) as [E|E].
    - rewrite bool_decide_eq_true_2 by done. cbn. lia.
    - rewrite bool_decide_eq_false_2 by done. cbn. lia. }
  destruct (dbResolves env (SaveAppointment (idOf r))) eqn:Hs; cbn [stateOf].
  - split.
    + cbn. induction (records w) as [|x l IH]; [done|]. cbn. rewrite IH.
      by destruct (decide (idOf x = idOf r)).
    + destruct (decide (idOf r = i)) as [E|E].
      * right. split; [done|]. split.
        { exact (Hsent w). }
        intros _ x Hx. unfold storedAs in Hx. cbn in Hx.
        apply filter_In in Hx as [Hx Hid]. apply bool_decide_eq_true in Hid.
        apply in_map_iff in Hx as (y & <- & _).
        destruct (decide (idOf y = idOf r)) as [E'|E']; [done|].
        cbn in Hid. congruence.
      * left. split.
        { exact (Hsent w). }
        unfold storedAs. cbn. induction (records w) as [|x l IH]; [done|]. cbn.
        rewrite IH. destruct (decide (idOf x = idOf r)) as [E'|E']; [|done].
        unfold idOf at 1. cbn. fold (idOf x).
        rewrite !bool_decide_eq_false_2; [done|congruence|congruence].
  - split; [done|]. destruct (decide (idOf r = i)) as [E|E].
    + right. split; [done|]. split.
      { exact (Hsent w). }
      intros Hres. rewrite <- E, Hs in Hres. done.
    + left. split; [|done].
      exact (Hsent w).
Qed.

Lemma loop_state_cons env r rest w :
  stateOf (forOf (r :: rest) (processAppointment env) w)
  = stateOf (forOf rest (processAppointment env) (stateOf (processAppointment env r w)))
  ∨ stateOf (forOf (r :: rest) (processAppointment env) w)
    = stateOf (processAppointment env r w).
Proof.
  rewrite forOf_cons. destruct (processAppointment env r w) as [[] w1|e w1]; [by left|by right].
Qed.

Lemma loop_other_appointments env rs w :
  (∀ r, In r rs → idOf r ≠ i) →
  let w' := stateOf (forOf rs (processAppointment env) w) in
  (idOf <$> records w') = (idOf <$> records w)
  ∧ sentAbout i w' = sentAbout i w ∧ storedAs i w' = storedAs i w.
Proof.
  revert w. induction rs as [|r rest IH]; intros w Hne; [done|]. cbv zeta.
  destruct (step_appointment env r w) as [Hids [[H1 H2]|(Hi & _)]];
    [|by destruct (Hne r (or_introl eq_refl))].
  destruct (loop_state_cons env r rest w) as [-> | ->]; [|done].
  destruct (IH (stateOf (processAppointment env r w))) as (I0 & I1 & I2).
  { intros x Hx. apply Hne. by right. }
  split_and!; congruence.
Qed.

(** One run of the loop over documents with distinct [_id]s. *)
Lemma loop_one_appointment env rs w :
  NoDup (idOf <$> rs) →
  dbResolves env (SaveAppointment i) = true →
  let w' := stateOf (forOf rs (processAppointment env) w) in
  (idOf <$> records w') = (idOf <$> records w)
  ∧ ((sentAbout i w' = sentAbout i w ∧ storedAs i w' = storedAs i w)
     ∨ (sentAbout i w' = S (sentAbout i w)
        ∧ (∃ r, In r rs ∧ idOf r = i)
        ∧ ∀ x, In x (storedAs i w') → reminderSent x = true)).
Proof.
  intros Hnd Hsave. revert w. induction rs as [|r rest IH]; intros w; [by split; [|left]|].
  cbn in Hnd. apply NoDup_cons in Hnd as [Hr Hnd]. specialize (IH Hnd). cbv zeta.
  destruct (step_appointment env r w) as [Hids Hstep].
  destruct Hstep as [[S1 S2]|(Hi & S1 & S2)].
  - destruct (loop_state_cons env r rest w) as [-> | ->]; [|by split; [|left]].
    destruct (IH (stateOf (processAppointment env r w))) as [I0 I1]. split; [congruence|].
    destruct I1 as [[I1 I2]|(I1 & (x & Hx & Hxi) & I3)]; [left; split; congruence|].
    right. split_and!; [congruence| |done]. exists x. split; [by right|done].
  - assert (∀ x, In x rest → idOf x ≠ i) as Hrest.
    { intros x Hx Hxi. apply Hr. rewrite Hi, <- Hxi.
      apply list_elem_of_fmap_2. by apply list_elem_of_In. }
    destruct (loop_other_appointments env rest (stateOf (processAppointment env r w)) Hrest)
      as (L0 & L1 & L2).
    destruct (loop_state_cons env r rest w) as [-> | ->].
    + split; [congruence|]. right. split_and!; [congruence| |].
      * exists r. split; [by left|done].
      * intros x Hx. rewrite L2 in Hx. by apply S2.
    + split; [done|]. right. split_and!; [done| |by apply S2].
      exists r. split; [by left|done].
Qed.

Let good (env : Env) := dbResolves env (SaveAppointment i) = true.

Lemma appointment_pass_one env w :
  NoDup (idOf <$> records w) → good env →
  let w' := stateOf (appointmentReminderPass env w) in
  (idOf <$> records w') = (idOf <$> records w)
  ∧ ((∀ x, In x (storedAs i w) → reminderSent x = true) →
     sentAbout i w' = sentAbout i w ∧ storedAs i w' = storedAs i w)
  ∧ (sentAbout i w' = sentAbout i w
     ∨ (sentAbout i w' = S (sentAbout i w)
        ∧ (∃ r, In r (storedAs i w) ∧ forTomorrow (now env) r = true)
        ∧ ∀ x, In x (storedAs i w') → reminderSent x = true)).
Proof.
  intros Hnd Hgood. cbv zeta. rewrite pass_state_appointments.
  destruct (dbResolves env FindAppointments); [|by split_and!; [|intros|left]].
  destruct (loop_one_appointment env (List.filter (forTomorrow (now env)) (records w))
              (mkClinic (records w) (sent w) 0)) as [Hids Hcase];
    [by apply NoDup_fmap_filter|done|].
  change (storedAs i (mkClinic (records w) (sent w) 0)) with (storedAs i w) in Hcase.
  change (sentAbout i (mkClinic (records w) (sent w) 0)) with (sentAbout i w) in Hcase.
  split; [exact Hids|]. split.
  - intros Hall. destruct Hcase as [Hc|(_ & (r & Hr & Hri) & _)]; [done|].
    exfalso. apply filter_In in Hr as [Hr Hsel].
    assert (reminderSent r = true) as Hrs.
    { apply Hall. unfold storedAs. apply filter_In. split; [done|by apply bool_decide_eq_true]. }
    unfold forTomorrow in Hsel. rewrite Hrs in Hsel. by rewrite andb_false_r in Hsel.
  - destruct Hcase as [[Hc _]|(Hc & (r & Hr & Hri) & Hall)]; [by left|].
    right. split_and!; [done| |done].
    apply filter_In in Hr as [Hr Hsel]. exists r. split; [|done].
    unfold storedAs. apply filter_In. split; [done|by apply bool_decide_eq_true].
Qed.

Lemma run_once_sent envs w :
  NoDup (idOf <$> records w) → Forall good envs →
  (∀ x, In x (storedAs i w) → reminderSent x = true) →
  sentAbout i (runPasses envs w) = sentAbout i w.
Proof.
  revert w. induction envs as [|env envs IH]; intros w Hnd Hgood Hall; [done|].
  apply Forall_cons in Hgood as [Hg Hgood].
  destruct (appointment_pass_one env w Hnd Hg) as (Hids & Hkeep & _).
  destruct (Hkeep Hall) as [Hc Hst].
  cbn [runPasses fold_left]. fold (runPasses envs (stateOf (appointmentReminderPass env w))).
  rewrite IH; [done| |done|].
  - by rewrite Hids.
  - by rewrite Hst.
Qed.

(** X14.  An appointment is reminded at most once, however many times
    and on whichever days the daily trigger fires: after a delivery its
    [reminderSent] flag is saved and the query no longer selects it.
    This holds for distinct [_id]s and when the save of the flag
    resolves. *)
Theorem one_reminder_per_appointment (envs : list Env) (w : Clinic) :
  NoDup (idOf <$> records w) →
  Forall (λ env, dbResolves env (SaveAppointment i) = true) envs →
  (sentAbout i (runPasses envs w) ≤ S (sentAbout i w))%nat
  ∧ ((∀ x, In x (storedAs i w) → reminderSent x = true) →
     sentAbout i (runPasses envs w) = sentAbout i w).
Proof.
  intros Hnd Hgood. split; [|by apply run_once_sent].
  revert w Hnd. induction envs as [|env envs IH]; intros w Hnd; [cbn; lia|].
  apply Forall_cons in Hgood as [Hg Hgood].
  destruct (appointment_pass_one env w Hnd Hg) as (Hids & _ & Hcase).
  cbn [runPasses fold_left]. fold (runPasses envs (stateOf (appointmentReminderPass env w))).
  assert (NoDup (idOf <$> records (stateOf (appointmentReminderPass env w)))) as Hnd'
    by (by rewrite Hids).
  destruct Hcase as [Hc|(Hc & _ & Hall)].
  - rewrite <- Hc. by apply IH.
  - rewrite run_once_sent by done. lia.
Qed.

(** A run of the loop that changes the reminders about [i] went
    through a document of [i]. *)
Lemma loop_sent_changed env rs w :
  sentAbout i (stateOf (forOf rs (processAppointment env) w)) ≠ sentAbout i w →
  ∃ r, In r rs ∧ idOf r = i.
Proof.
  revert w. induction rs as [|r rest IH]; intros w Hchanged; [done|].
  destruct (step_appointment env r w) as [_ [[H1 _]|(Hi & _)]];
    [|exists r; split; [by left|done]].
  destruct (loop_state_cons env r rest w) as [E|E]; rewrite E in Hchanged; [|done].
  destruct (IH (stateOf (processAppointment env r w))) as (x & Hx & Hxi); [congruence|].
  exists x. split; [by right|done].
Qed.

(** X15.  A pass reminds about an appointment only if its stored
    document is dated on the calendar day after the pass, is scheduled
    or confirmed, and has not been reminded yet; this whatever the store
    answers, and whether the [_id]s are distinct or not. *)
Theorem reminder_only_for_tomorrow (env : Env) (w : Clinic) :
  sentAbout i (stateOf (appointmentReminderPass env w)) ≠ sentAbout i w →
  ∃ r, In r (records w) ∧ idOf r = i
       ∧ Date.dayOf (Appointment.date (doc r)) = Date.dayOf (now env) + 1
       ∧ (Appointment.status (doc r) = Appointment.scheduled
          ∨ Appointment.status (doc r) = Appointment.confirmed)
       ∧ reminderSent r = false.
Proof.
  intros Hchanged. rewrite pass_state_appointments in Hchanged.
  destruct (dbResolves env FindAppointments); [|done].
  change (sentAbout i w) with (sentAbout i (mkClinic (records w) (sent w) 0)) in Hchanged.
  apply loop_sent_changed in Hchanged as (r & Hr & Hid).
  apply filter_In in Hr as [Hr Hsel].
  exists r. split; [done|]. split; [done|].
  unfold forTomorrow in Hsel.
  rewrite !andb_true_iff, orb_true_iff, !bool_decide_eq_true, negb_true_iff,
    Z.leb_le, Z.ltb_lt in Hsel.
  destruct Hsel as [[[H1 H2] H3] H4]. split_and!; [|done|done].
  unfold Date.startOfDay, Date.addDays, Date.dayOf, Date.msPerDay in *. divmod.
Qed.

(** X16.  An appointment of tomorrow whose patient no longer exists
    ends the pass: reading [appointment.patientId.telegramId] throws, the
    [catch] of the callback takes over, and no appointment that the query
    returned at or after that one is reminded or marked on that day. *)
Theorem orphaned_appointment_ends_the_pass (env : Env) (w : Clinic) pre r0 post :
  dbResolves env FindAppointments = true →
  List.filter (forTomorrow (now env)) (records w) = pre ++ r0 :: post →
  patient r0 = None →
  (∀ r, In r pre → idOf r ≠ i) →
  let out := appointmentReminderPass env w in
  (∃ e w', out = Returned (Some e) w')
  ∧ sentAbout i (stateOf out) = sentAbout i w
  ∧ storedAs i (stateOf out) = storedAs i w.
Proof.
  intros Hfind Hsel Hgone Hpre out. subst out.
  rewrite appointment_pass_spec, Hfind, Hsel, forOf_app.
  pose proof (loop_other_appointments env pre (mkClinic (records w) (sent w) 0) Hpre)
    as (_ & Hs & Hst).
  destruct (forOf pre _ _) as [[] w1|e w1] eqn:Hloop.
  - rewrite forOf_cons, processAppointment_spec, Hgone. split; [by eexists _, _|].
    split; [exact Hs|exact Hst].
  - split; [by eexists _, _|]. split; [exact Hs|exact Hst].
Qed.

End AppointmentReminderPass.

Lemma one_reminder_per_appointment_witness :
  let w := ReminderScenario.clinic [ReminderScenario.checkup] in
  let envs := [Scenario.healthy ReminderScenario.eve; Scenario.healthy ReminderScenario.eve;
               Scenario.healthy (Scenario.at_ 9 0)] in
  AppointmentReminders.sentAbout "a1" (AppointmentReminders.runPasses envs w) = 1%nat
  ∧ (AppointmentReminders.sentAbout "a1" (AppointmentReminders.runPasses envs w) ≤ 1)%nat.
Proof.
  intros w envs. split; [by vm_compute|].
  refine (proj1 (one_reminder_per_appointment "a1" envs w _ _)).
  - apply (bool_decide_unpack _). by vm_compute.
  - repeat constructor.
Defined.

Lemma reminder_only_for_tomorrow_witness :
  let w := ReminderScenario.clinic [ReminderScenario.checkup] in
  let env := mkEnv ReminderScenario.eve true true (λ _, true)
                   (λ c, match c with SaveAppointment _ => false | _ => true end) in
  AppointmentReminders.sentAbout "a1"
    (stateOf (AppointmentReminders.appointmentReminderPass env w)) = 1%nat
  ∧ ∃ r, In r (AppointmentReminders.records w) ∧ AppointmentReminders.idOf r = "a1"
         ∧ Date.dayOf (Appointment.date (AppointmentReminders.doc r)) = Date.dayOf (now env) + 1
         ∧ (Appointment.status (AppointmentReminders.doc r) = Appointment.scheduled
            ∨ Appointment.status (AppointmentReminders.doc r) = Appointment.confirmed)
         ∧ AppointmentReminders.reminderSent r = false.
Proof.
  intros w env. split; [reflexivity|].
  apply (reminder_only_for_tomorrow "a1" env w). by vm_compute.
Defined.

Lemma orphaned_appointment_ends_the_pass_witness :
  let w := ReminderScenario.clinic [ReminderScenario.orphaned; ReminderScenario.checkup] in
  let out := AppointmentReminders.appointmentReminderPass
               (Scenario.healthy ReminderScenario.eve) w in
  (∃ e w', out = Returned (Some e) w')
  ∧ AppointmentReminders.sentAbout "a1" (stateOf out) = 0%nat
  ∧ AppointmentReminders.storedAs "a1" (stateOf out) = [ReminderScenario.checkup].
Proof.
  intros w out.
  apply (orphaned_appointment_ends_the_pass "a1" (Scenario.healthy ReminderScenario.eve) w
           [] ReminderScenario.orphaned [ReminderScenario.checkup]).
  - reflexivity.
  - by vm_compute.
  - reflexivity.
  - intros r [].
Defined.

(** ** Calls on the timer registry *)

Section RegistryCalls.

Import TimerRegistry RegistryOps.

Context (accepts : CronExpression → bool).

Let accepted (t : string) : Prop := accepts (expressionOf t) = true.

Lemma stopped_idemp (o : option Job) : stopped <$> (stopped <$> o) = stopped <$> o.
Proof. by destruct o. Qed.

(** The tasks after a loop of [timer.stop()]. *)
Lemma stops_lookup ts r h :
  jobs (fold_left (λ acc timer, stop timer acc) ts r) !! h
  = if decide (h ∈ ts) then stopped <$> jobs r !! h else jobs r !! h.
Proof.
  revert r. induction ts as [|t ts IH]; intros r.
  - cbn. rewrite decide_False; [done|]. apply not_elem_of_nil.
  - cbn [fold_left]. rewrite IH. change (jobs (stop t r)) with (alter stopped t (jobs r)).
    destruct (decide (h = t)) as [->|Hne].
    + rewrite list_lookup_alter_eq, stopped_idemp.
      rewrite (decide_True (P := t ∈ t :: ts)) by left.
      by destruct (decide (t ∈ ts)).
    + rewrite list_lookup_alter_ne by done.
      destruct (decide (h ∈ ts)) as [Hin|Hin].
      * by rewrite decide_True by (by right).
      * rewrite decide_False; [done|]. by intros [?|?]%elem_of_cons.
Qed.

Lemma stops_length ts r :
  length (jobs (fold_left (λ acc timer, stop timer acc) ts r)) = length (jobs r).
Proof.
  revert r. induction ts as [|t ts IH]; intros r; [done|].
  cbn [fold_left]. rewrite IH. apply length_alter.
Qed.

Lemma cancel_spec (id : ObjectId) r :
  cancelMedicationReminders id r
  = match activeReminders r !! id with
    | None => r
    | Some reminder =>
        mkRegistry (delete id (activeReminders r))
                   (jobs (fold_left (λ acc timer, stop timer acc) (timers reminder) r))
    end.
Proof.
  unfold cancelMedicationReminders. destruct (activeReminders r !! id); [|done].
  cbn. by rewrite stop_all_activeReminders.
Qed.

Lemma cancel_length id r :
  length (jobs (cancelMedicationReminders id r)) = length (jobs r).
Proof.
  rewrite cancel_spec. destruct (activeReminders r !! id); [|done]. apply stops_length.
Qed.

Lemma cancel_entries (id : ObjectId) r (k : ObjectId) :
  activeReminders (cancelMedicationReminders id r) !! k
  = if decide (k = id) then None else activeReminders r !! k.
Proof.
  rewrite cancel_spec. destruct (activeReminders r !! id) eqn:E; cbn.
  - destruct (decide (k = id)) as [->|Hne]; [apply lookup_delete_eq|by apply lookup_delete_ne].
  - by destruct (decide (k = id)) as [->|Hne].
Qed.

Lemma cancel_jobs (id : ObjectId) r h :
  jobs (cancelMedicationReminders id r) !! h
  = match activeReminders r !! id with
    | Some reminder =>
        if decide (h ∈ timers reminder) then stopped <$> jobs r !! h else jobs r !! h
    | None => jobs r !! h
    end.
Proof.
  rewrite cancel_spec. destruct (activeReminders r !! id); [|done]. apply stops_lookup.
Qed.

Lemma cancel_owns (id : ObjectId) r (k : ObjectId) h :
  owns (cancelMedicationReminders id r) k h → k ≠ id ∧ owns r k h.
Proof.
  intros (reminder & Hk & Hh). rewrite cancel_entries in Hk. revert Hk.
  case_decide; [intros [=]|]. intros Hk. split; [done|]. by exists reminder.
Qed.

(** Either every time is accepted, or there is a first rejected one. *)
Lemma first_rejected (times : list string) :
  Forall accepted times
  ∨ ∃ pre time post, times = pre ++ time :: post ∧ Forall accepted pre
                     ∧ accepts (expressionOf time) = false.
Proof.
  induction times as [|t times IH]; [by left|].
  destruct (accepts (expressionOf t)) eqn:Ht.
  - destruct IH as [IH|(pre & time & post & -> & Hpre & Hbad)].
    + left. by constructor.
    + right. exists (t :: pre), time, post. split; [done|]. split; [by constructor|done].
  - right. by exists [], t, times.
Qed.

(** The registry after [scheduleMedicationReminders], whether it returns
    or throws. *)
Lemma schedule_state medication user r :
  let r0 := cancelMedicationReminders (_id medication) r in
  let r' := stateOf (scheduleMedicationReminders accepts medication user r) in
  r' = r
  ∨ (∃ pre, r' = mkRegistry (activeReminders r0) (jobs r0 ++ (jobFor <$> pre)))
  ∨ (∃ times,
       r' = mkRegistry
              (<[_id medication :=
                   mkReminder (User._id user) (_id medication) (User.telegramId user)
                              (seq (length (jobs r0)) (length times))]> (activeReminders r0))
              (jobs r0 ++ (jobFor <$> times))).
Proof.
  intros r0 r'. subst r'. unfold scheduleMedicationReminders.
  destruct (frequency medication ≫= specificTimes) as [times|]; [|by left].
  unfold bind, modify. fold r0.
  destruct (first_rejected times) as [Hall|(pre & time & post & -> & Hpre & Hbad)].
  - right. right. exists times. by rewrite (createTriggers_ok accepts times [] r0 Hall).
  - right. left. exists pre. by rewrite (createTriggers_fail accepts pre time post [] r0 Hpre Hbad).
Qed.

Lemma forOf_invariant {S X} (P : S → Prop) (body : X → M S unit) xs s :
  (∀ x s, P s → P (stateOf (body x s))) → P s → P (stateOf (forOf xs body s)).
Proof.
  intros Hbody. revert s. induction xs as [|x xs IH]; intros s Hs; [done|].
  rewrite forOf_cons. generalize (Hbody x s Hs).
  destruct (body x s) as [[] s1|e s1]; cbn; [by apply IH|done].
Qed.

Lemma cancelUser_invariant (P : Registry → Prop) order uid r :
  (∀ id r, P r → P (cancelMedicationReminders id r)) →
  P r → P (cancelUserReminders order uid r).
Proof.
  intros Hcancel. unfold cancelUserReminders. revert r.
  induction order as [|k order IH]; intros r Hr; [done|].
  cbn [fold_left]. apply IH. cbv beta.
  destruct (activeReminders r !! k) as [reminder|]; [|done].
  destruct (bool_decide _); [by apply Hcancel|done].
Qed.

Lemma scheduleUser_state order found user r :
  stateOf (scheduleUserMedicationReminders accepts order found user r)
  = match found with
    | None => cancelUserReminders order (User._id user) r
    | Some medications =>
        stateOf (forOf medications (λ med, scheduleMedicationReminders accepts med user)
                   (cancelUserReminders order (User._id user) r))
    end.
Proof.
  unfold scheduleUserMedicationReminders, tryCatch, bind, modify.
  destruct found as [medications|]; [|done].
  by destruct (forOf _ _ _).
Qed.

(** A property that cancelling and scheduling one medication keep is
    kept by every sequence of calls. *)
Lemma calls_invariant (P : Registry → Prop) :
  (∀ id r, P r → P (cancelMedicationReminders id r)) →
  (∀ m u r, P r → P (stateOf (scheduleMedicationReminders accepts m u r))) →
  ∀ cs r, P r → P (calls accepts cs r).
Proof.
  intros Hcancel Hschedule cs. unfold calls.
  induction cs as [|c cs IH]; intros r Hr; [done|].
  cbn [fold_left]. apply IH. destruct c as [m u|id|order uid|order found u]; cbn [call].
  - by apply Hschedule.
  - by apply Hcancel.
  - by apply cancelUser_invariant.
  - rewrite scheduleUser_state.
    pose proof (cancelUser_invariant P order (User._id u) r Hcancel Hr) as H0.
    destruct found as [medications|]; [|done].
    apply forOf_invariant; [|done]. intros x s. apply Hschedule.
Qed.

Lemma cancel_wellFormed id r :
  wellFormed r → wellFormed (cancelMedicationReminders id r).
Proof.
  intros [Hbound Huniq]. split.
  - intros k h [_ Hown]%cancel_owns. rewrite cancel_length. by eapply Hbound.
  - intros k1 k2 h [_ H1]%cancel_owns [_ H2]%cancel_owns. by eapply Huniq.
Qed.

Lemma schedule_wellFormed medication user r :
  wellFormed r → wellFormed (stateOf (scheduleMedicationReminders accepts medication user r)).
Proof.
  intros Hwf. pose proof (cancel_wellFormed (_id medication) r Hwf) as [Hbound Huniq].
  destruct (schedule_state medication user r) as [->|[(pre & ->)|(times & ->)]]; [done| |].
  - split.
    + intros k h Hown. cbn. rewrite length_app.
      specialize (Hbound k h Hown). lia.
    + intros k1 k2 h H1 H2. by eapply Huniq.
  - set (r0 := cancelMedicationReminders (_id medication) r) in *.
    assert (∀ k h,
      owns (mkRegistry
              (<[_id medication :=
                   mkReminder (User._id user) (_id medication) (User.telegramId user)
                              (seq (length (jobs r0)) (length times))]> (activeReminders r0))
              (jobs r0 ++ (jobFor <$> times))) k h →
      (k = _id medication ∧ (length (jobs r0) ≤ h < length (jobs r0) + length times)%nat)
      ∨ (k ≠ _id medication ∧ owns r0 k h)) as Hcases.
    { intros k h (reminder & Hk & Hh). cbn in Hk.
      destruct (decide (k = _id medication)) as [->|Hne].
      - rewrite lookup_insert_eq in Hk. injection Hk as <-. cbn in Hh.
        apply elem_of_seq in Hh. left. split; [done|lia].
      - rewrite lookup_insert_ne in Hk by done. right. split; [done|]. by exists reminder. }
    split.
    + intros k h [[_ Hh]|[_ Hown]]%Hcases; cbn; rewrite length_app, length_fmap; [lia|].
      specialize (Hbound k h Hown). lia.
    + intros k1 k2 h [[-> Hh1]|[Hne1 Hown1]]%Hcases [[-> Hh2]|[Hne2 Hown2]]%Hcases.
      * done.
      * specialize (Hbound k2 h Hown2). lia.
      * specialize (Hbound k1 h Hown1). lia.
      * by eapply Huniq.
Qed.

(** X17.  The registry stays well formed under every sequence of calls
    of [scheduleMedicationReminders], [cancelMedicationReminders],
    [cancelUserReminders] and [scheduleUserMedicationReminders], also
    when some of them throw: every handle stored for a medication refers
    to a task that was created, and no task is stored for two
    medications. *)
Theorem registry_stays_wellFormed (cs : list Call) (r : Registry) :
  wellFormed r → wellFormed (calls accepts cs r).
Proof.
  apply (calls_invariant wellFormed).
  - intros id r0. apply cancel_wellFormed.
  - intros m u r0. apply schedule_wellFormed.
Qed.

Lemma wellFormed_empty : wellFormed (mkRegistry ∅ []).
Proof.
  split.
  - intros id h (reminder & Hk & _). cbn in Hk. by rewrite lookup_empty in Hk.
  - intros id1 id2 h (reminder & Hk & _). cbn in Hk. by rewrite lookup_empty in Hk.
Qed.

(** X18.  [cancelMedicationReminders] stops every trigger of the
    medication, removes its entry and nothing else, and leaves the
    triggers stored for every other medication as they were. *)
Theorem cancel_stops_exactly_own_triggers (id : ObjectId) (r : Registry) reminder :
  wellFormed r →
  activeReminders r !! id = Some reminder →
  let r' := cancelMedicationReminders id r in
  activeReminders r' = delete id (activeReminders r)
  ∧ (∀ h, h ∈ timers reminder →
          ∃ j, jobs r !! h = Some j ∧ jobs r' !! h = Some (mkJob (expression j) false))
  ∧ (∀ (id2 : ObjectId) h, id2 ≠ id → owns r id2 h → jobs r' !! h = jobs r !! h)
  ∧ (∀ h, (∀ id2, ¬ owns r id2 h) → jobs r' !! h = jobs r !! h).
Proof.
  intros [Hbound Huniq] Hid r'. subst r'. split_and!.
  - by rewrite cancel_spec, Hid.
  - intros h Hh.
    destruct (lookup_lt_is_Some_2 (jobs r) h) as [j Hj].
    { apply (Hbound id). by exists reminder. }
    exists j. split; [done|]. rewrite cancel_jobs, Hid, decide_True by done.
    by rewrite Hj.
  - intros id2 h Hne Hown. rewrite cancel_jobs, Hid.
    rewrite decide_False; [done|]. intros Hh. apply Hne.
    apply (Huniq id2 id h Hown). by exists reminder.
  - intros h Hfree. rewrite cancel_jobs, Hid.
    rewrite decide_False; [done|]. intros Hh. apply (Hfree id). by exists reminder.
Qed.

(** Stopping the handles of the tasks appended last. *)
Lemma stops_appended (old new : list Job) r :
  jobs r = old ++ new →
  jobs (fold_left (λ acc timer, stop timer acc) (seq (length old) (length new)) r)
  = old ++ (stopped <$> new).
Proof.
  intros Hjobs. apply list_eq. intros h. rewrite stops_lookup, Hjobs.
  destruct (decide (h ∈ seq (length old) (length new))) as [Hin|Hout].
  - apply elem_of_seq in Hin.
    rewrite !lookup_app_r by lia. by rewrite list_lookup_fmap.
  - rewrite elem_of_seq in Hout.
    destruct (decide (h < length old)%nat).
    + by rewrite !lookup_app_l by lia.
    + rewrite !lookup_app_r by lia.
      rewrite !lookup_ge_None_2; [done| |]; rewrite ?length_fmap; lia.
Qed.

Lemma filter_running_stopped (l : list Job) : List.filter running (stopped <$> l) = [].
Proof. by induction l. Qed.

Lemma filter_running_jobFor (times : list string) :
  expression <$> List.filter running (jobFor <$> times) = expressionOf <$> times.
Proof. induction times as [|t times IH]; [done|]. cbn. by rewrite <- IH. Qed.

(** X19.  Scheduling a medication again replaces its triggers: after
    two successful calls for the same medication the running triggers
    are those of the other medications and one per time of the second
    call; those of the first call are stopped. *)
Theorem reschedule_replaces_triggers (m1 m2 : Prescription) (u1 u2 : User.t)
    (times1 times2 : list string) (r : Registry) :
  _id m1 = _id m2 →
  frequency m1 ≫= specificTimes = Some times1 →
  frequency m2 ≫= specificTimes = Some times2 →
  Forall (λ t, accepts (expressionOf t) = true) times1 →
  Forall (λ t, accepts (expressionOf t) = true) times2 →
  let r0 := cancelMedicationReminders (_id m1) r in
  let r1 := stateOf (scheduleMedicationReminders accepts m1 u1 r) in
  let r2 := stateOf (scheduleMedicationReminders accepts m2 u2 r1) in
  liveExpressions r1 = liveExpressions r0 ++ (expressionOf <$> times1)
  ∧ liveExpressions r2 = liveExpressions r0 ++ (expressionOf <$> times2)
  ∧ timers <$> (activeReminders r2 !! _id m2)
    = Some (seq (length (jobs r) + length times1) (length times2)).
Proof.
  intros Hid Ht1 Ht2 Hall1 Hall2 r0 r1 r2.
  assert (r1 = mkRegistry
                 (<[_id m1 := mkReminder (User._id u1) (_id m1) (User.telegramId u1)
                                (seq (length (jobs r0)) (length times1))]> (activeReminders r0))
                 (jobs r0 ++ (jobFor <$> times1))) as Hr1.
  { subst r1. unfold scheduleMedicationReminders. rewrite Ht1. unfold bind, modify.
    fold r0. by rewrite (createTriggers_ok accepts times1 [] r0 Hall1). }
  assert (cancelMedicationReminders (_id m2) r1
          = mkRegistry (activeReminders r0) (jobs r0 ++ (stopped <$> (jobFor <$> times1))))
    as Hcancel.
  { rewrite cancel_spec, <- Hid, Hr1. cbn [activeReminders]. rewrite lookup_insert_eq.
    cbn [timers]. rewrite delete_insert_eq.
    rewrite <- (length_fmap jobFor times1), (stops_appended (jobs r0) (jobFor <$> times1)) by done.
    f_equal. apply delete_id. apply cancelMedicationReminders_lookup. }
  assert (r2 = mkRegistry
                 (<[_id m2 := mkReminder (User._id u2) (_id m2) (User.telegramId u2)
                                (seq (length (jobs r0) + length times1) (length times2))]>
                    (activeReminders r0))
                 ((jobs r0 ++ (stopped <$> (jobFor <$> times1))) ++ (jobFor <$> times2))) as Hr2.
  { subst r2. unfold scheduleMedicationReminders. rewrite Ht2. unfold bind, modify.
    rewrite (createTriggers_ok accepts times2 [] _ Hall2), Hcancel. cbn.
    by rewrite length_app, !length_fmap. }
  split_and!.
  - rewrite Hr1. unfold liveExpressions. cbn [jobs].
    by rewrite List.filter_app, fmap_app, filter_running_jobFor.
  - rewrite Hr2. unfold liveExpressions. cbn [jobs].
    rewrite !List.filter_app, filter_running_stopped, app_nil_r, fmap_app.
    by rewrite filter_running_jobFor.
  - rewrite Hr2. cbn [activeReminders]. rewrite lookup_insert_eq. cbn.
    subst r0. by rewrite cancel_length.
Qed.

(** The handle [h] refers to the task [j] and is stored for no
    medication. *)
Let orphan (h : nat) (j : Job) (r : Registry) : Prop :=
  jobs r !! h = Some j ∧ ∀ id, ¬ owns r id h.

Lemma cancel_orphan h j id r :
  orphan h j r → orphan h j (cancelMedicationReminders id r).
Proof.
  intros [Hj Hfree]. split.
  - rewrite cancel_jobs. destruct (activeReminders r !! id) as [reminder|] eqn:E; [|done].
    rewrite decide_False; [done|]. intros Hh. apply (Hfree id). by exists reminder.
  - intros k [_ Hown]%cancel_owns. by apply (Hfree k).
Qed.

Lemma schedule_orphan h j medication user r :
  orphan h j r → orphan h j (stateOf (scheduleMedicationReminders accepts medication user r)).
Proof.
  intros Ho. pose proof (cancel_orphan h j (_id medication) r Ho) as [Hj Hfree].
  pose proof (lookup_lt_Some _ _ _ Hj) as Hlt.
  destruct (schedule_state medication user r) as [->|[(pre & ->)|(times & ->)]]; [done| |].
  - split; [by cbn; rewrite lookup_app_l|].
    intros k (reminder & Hk & Hh). apply (Hfree k). by exists reminder.
  - split; [by cbn; rewrite lookup_app_l|].
    intros k (reminder & Hk & Hh). cbn in Hk.
    destruct (decide (k = _id medication)) as [->|Hne].
    + rewrite lookup_insert_eq in Hk. injection Hk as <-. cbn in Hh.
      apply elem_of_seq in Hh. lia.
    + rewrite lookup_insert_ne in Hk by done. apply (Hfree k). by exists reminder.
Qed.

(** X20.  The triggers that a failed [scheduleMedicationReminders]
    leaves behind cannot be cancelled: the registry stores their handles
    nowhere, and after every sequence of calls that schedule or cancel
    medications or users they are still running. *)
Theorem leaked_trigger_is_never_cancelled (medication : Prescription) (user : User.t)
    (r : Registry) pre time post (cs : list Call) (k : nat) (t : string) :
  wellFormed r →
  frequency medication ≫= specificTimes = Some (pre ++ time :: post) →
  Forall (λ t, accepts (expressionOf t) = true) pre →
  accepts (expressionOf time) = false →
  pre !! k = Some t →
  let r' := stateOf (scheduleMedicationReminders accepts medication user r) in
  let h := (length (jobs r) + k)%nat in
  jobs (calls accepts cs r') !! h = Some (mkJob (expressionOf t) true)
  ∧ ∀ id, ¬ owns (calls accepts cs r') id h.
Proof.
  intros Hwf Htimes Hpre Hbad Hk r' h.
  change (orphan h (jobFor t) (calls accepts cs r')).
  apply (calls_invariant (orphan h (jobFor t))).
  - intros id r0. apply cancel_orphan.
  - intros m u r0. apply schedule_orphan.
  - set (r0 := cancelMedicationReminders (_id medication) r).
    assert (r' = mkRegistry (activeReminders r0) (jobs r0 ++ (jobFor <$> pre))) as ->.
    { subst r'. unfold scheduleMedicationReminders. rewrite Htimes. unfold bind, modify.
      fold r0. by rewrite (createTriggers_fail accepts pre time post [] r0 Hpre Hbad). }
    assert (length (jobs r0) = length (jobs r)) as Hlen by apply cancel_length.
    split.
    + cbn. subst h. rewrite lookup_app_r by lia.
      replace (length (jobs r) + k - length (jobs r0))%nat with k by lia.
      by rewrite list_lookup_fmap, Hk.
    + intros id (reminder & Hid & Hh). cbn in Hid.
      assert (owns r0 id h) as [_ Hown]%cancel_owns by (by exists reminder).
      destruct Hwf as [Hbound _]. specialize (Hbound id h Hown). lia.
Qed.

(** The loop of [cancelUserReminders]: the entries and the tasks after
    it, in terms of those before. *)
Lemma cancelUser_loop (uid : string) (order : list ObjectId) (r : Registry) :
  let r' := cancelUserReminders order uid r in
  (∀ (k : ObjectId) reminder,
     activeReminders r !! k = Some reminder → userId reminder = uid → k ∈ order →
     activeReminders r' !! k = None)
  ∧ (∀ k : ObjectId,
       (∀ reminder, activeReminders r !! k = Some reminder → userId reminder = uid → k ∉ order) →
       activeReminders r' !! k = activeReminders r !! k)
  ∧ (∀ h,
       jobs r' !! h = jobs r !! h
       ∨ (jobs r' !! h = stopped <$> jobs r !! h
          ∧ ∃ (k : ObjectId) reminder,
              k ∈ order ∧ activeReminders r !! k = Some reminder
              ∧ userId reminder = uid ∧ h ∈ timers reminder))
  ∧ (∀ h (k : ObjectId) reminder,
       k ∈ order → activeReminders r !! k = Some reminder → userId reminder = uid →
       h ∈ timers reminder → jobs r' !! h = stopped <$> jobs r !! h).
Proof.
  cbv zeta. unfold cancelUserReminders. revert r.
  induction order as [|k0 rest IH]; intros r.
  { split_and!; [|done|by left|]; intros; exfalso; by eapply not_elem_of_nil. }
  cbn [fold_left]. cbv beta.
  destruct (activeReminders r !! k0) as [rem0|] eqn:E0;
    [destruct (decide (userId rem0 = uid)) as [Hu|Hu]|].
  - (* the entry of [k0] is cancelled *)
    rewrite bool_decide_eq_true_2 by done.
    set (r1 := cancelMedicationReminders k0 r).
    destruct (IH r1) as (A1 & A2 & B & B1).
    assert (∀ k : ObjectId, k ≠ k0 → activeReminders r1 !! k = activeReminders r !! k) as Hmap.
    { intros k Hne. subst r1. rewrite cancel_entries. by rewrite decide_False. }
    assert (activeReminders r1 !! k0 = None) as Hgone.
    { subst r1. rewrite cancel_entries. by rewrite decide_True. }
    assert (∀ h, jobs r1 !! h
                 = if decide (h ∈ timers rem0) then stopped <$> jobs r !! h else jobs r !! h)
      as Hjobs.
    { intros h. subst r1. by rewrite cancel_jobs, E0. }
    split_and!.
    + intros k reminder Hk Hrem Hin. destruct (decide (k = k0)) as [->|Hne].
      * rewrite A2; [done|]. intros rem' Hrem'. congruence.
      * apply (A1 k reminder); [by rewrite Hmap|done|].
        apply elem_of_cons in Hin as [?|?]; done.
    + intros k Hk. assert (k ≠ k0) as Hne.
      { intros ->. apply (Hk rem0 E0 Hu). by left. }
      rewrite A2, Hmap; [done|done|]. intros reminder Hrem Hrem' Hin.
      rewrite Hmap in Hrem by done. apply (Hk reminder Hrem Hrem'). by right.
    + intros h. destruct (B h) as [Hsame|(Hstop & k & reminder & Hin & Hk & Hrem & Hh)].
      * rewrite Hsame, Hjobs. destruct (decide (h ∈ timers rem0)); [|by left].
        right. split; [done|]. exists k0, rem0. split_and!; [by left|done..].
      * right. assert (k ≠ k0) as Hne by (intros ->; congruence).
        split.
        { rewrite Hstop, Hjobs. destruct (decide (h ∈ timers rem0)); [|done].
          apply stopped_idemp. }
        exists k, reminder. split_and!; [by right|by rewrite <- Hmap|done..].
    + intros h k reminder Hin Hk Hrem Hh. destruct (decide (k = k0)) as [->|Hne].
      * assert (reminder = rem0) as -> by congruence.
        assert (jobs r1 !! h = stopped <$> jobs r !! h) as H1
          by (by rewrite Hjobs, decide_True).
        destruct (B h) as [Hsame|(Hstop & _)]; [congruence|].
        rewrite Hstop, H1. apply stopped_idemp.
      * rewrite (B1 h k reminder); [| |by rewrite Hmap|done..].
        { rewrite Hjobs. destruct (decide (h ∈ timers rem0)); [|done]. apply stopped_idemp. }
        apply elem_of_cons in Hin as [?|?]; done.
  - (* the entry of [k0] belongs to another user *)
    rewrite bool_decide_eq_false_2 by done.
    destruct (IH r) as (A1 & A2 & B & B1). split_and!.
    + intros k reminder Hk Hrem Hin. apply (A1 k reminder Hk Hrem).
      apply elem_of_cons in Hin as [->|?]; [congruence|done].
    + intros k Hk. apply A2. intros reminder Hrem Hrem' Hin.
      apply (Hk reminder Hrem Hrem'). by right.
    + intros h. destruct (B h) as [?|(Hstop & k & reminder & Hin & Hrest)]; [by left|].
      right. split; [done|]. exists k, reminder. split; [by right|done].
    + intros h k reminder Hin Hk Hrem Hh. apply (B1 h k reminder); [|done..].
      apply elem_of_cons in Hin as [->|?]; [congruence|done].
  - (* no entry under [k0] *)
    destruct (IH r) as (A1 & A2 & B & B1). split_and!.
    + intros k reminder Hk Hrem Hin. apply (A1 k reminder Hk Hrem).
      apply elem_of_cons in Hin as [->|?]; [congruence|done].
    + intros k Hk. apply A2. intros reminder Hrem Hrem' Hin.
      apply (Hk reminder Hrem Hrem'). by right.
    + intros h. destruct (B h) as [?|(Hstop & k & reminder & Hin & Hrest)]; [by left|].
      right. split; [done|]. exists k, reminder. split; [by right|done].
    + intros h k reminder Hin Hk Hrem Hh. apply (B1 h k reminder); [|done..].
      apply elem_of_cons in Hin as [->|?]; [congruence|done].
Qed.

(** X21.  [cancelUserReminders] removes exactly the entries of the
    user and stops exactly their triggers: the entries and the triggers
    of the other users are as before.  [order], the order in which the
    Map yields its keys, is any list that holds every key. *)
Theorem cancelUserReminders_cancels_the_user (order : list ObjectId) (uid : string)
    (r : Registry) :
  wellFormed r →
  map_Forall (λ k _, k ∈ order) (activeReminders r) →
  let r' := cancelUserReminders order uid r in
  (∀ (k : ObjectId) reminder,
     activeReminders r' !! k = Some reminder
     ↔ activeReminders r !! k = Some reminder ∧ userId reminder ≠ uid)
  ∧ (∀ (k : ObjectId) reminder h,
       activeReminders r !! k = Some reminder → userId reminder = uid → h ∈ timers reminder →
       ∃ j, jobs r !! h = Some j ∧ jobs r' !! h = Some (mkJob (expression j) false))
  ∧ (∀ (k : ObjectId) reminder h,
       activeReminders r !! k = Some reminder → userId reminder ≠ uid → h ∈ timers reminder →
       jobs r' !! h = jobs r !! h).
Proof.
  intros [Hbound Huniq] Hcover r'.
  destruct (cancelUser_loop uid order r) as (A1 & A2 & B & B1). fold r' in A1, A2, B, B1.
  split_and!.
  - intros k reminder. split.
    + intros Hk'. destruct (activeReminders r !! k) as [rem0|] eqn:Hk.
      * destruct (decide (userId rem0 = uid)) as [Hu|Hu].
        { rewrite (A1 k rem0 Hk Hu) in Hk'; [done|]. by apply (Hcover k rem0). }
        rewrite A2, Hk in Hk'; [|intros ? ? ?; congruence].
        by injection Hk' as <-.
      * rewrite A2, Hk in Hk'; [done|]. intros ? ?. congruence.
    + intros [Hk Hu]. rewrite A2; [done|]. intros ? ? ?. congruence.
  - intros k reminder h Hk Hu Hh.
    destruct (lookup_lt_is_Some_2 (jobs r) h) as [j Hj].
    { apply (Hbound k). by exists reminder. }
    exists j. split; [done|].
    rewrite (B1 h k reminder); [by rewrite Hj|by apply (Hcover k reminder)|done..].
  - intros k reminder h Hk Hu Hh.
    destruct (B h) as [?|(_ & k2 & rem2 & _ & Hk2 & Hu2 & Hh2)]; [done|].
    assert (k = k2) as <-.
    { apply (Huniq k k2 h); [by exists reminder|by exists rem2]. }
    congruence.
Qed.

End RegistryCalls.

Section RegistryWitnesses.

Import TimerRegistry RegistryOps RegistryScenario.

Lemma two_users_wellFormed : wellFormed two_users.
Proof. apply schedule_wellFormed, schedule_wellFormed, wellFormed_empty. Qed.

Lemma registry_stays_wellFormed_witness :
  wellFormed
    (calls Scenario.cronAccepts
       [Schedule (prescription "m1" ["08:00"; "25:00"; "20:00"]) Scenario.alice;
        CancelUser ["m1"] "u1";
        ScheduleUser [] (Some [prescription "m1" ["08:00"]; prescription "m3" ["12:30"]])
          Scenario.alice;
        Cancel "m3"]
       empty).
Proof. apply registry_stays_wellFormed, wellFormed_empty. Defined.

Lemma cancel_stops_exactly_own_triggers_witness :
  let r' := cancelMedicationReminders "m1" two_users in
  activeReminders r' = delete "m1" (activeReminders two_users)
  ∧ jobs r' !! 0%nat = Some (mkJob (mkCron (Some 0) (Some 8)) false)
  ∧ jobs r' !! 2%nat = Some (mkJob (mkCron (Some 0) (Some 9)) true).
Proof.
  intros r'.
  destruct (cancel_stops_exactly_own_triggers "m1" two_users
              (mkReminder "u1" "m1" (Some "chat1") [0; 1]%nat) two_users_wellFormed)
    as (H1 & H2 & H3 & _); [by vm_compute|].
  split; [exact H1|]. split; [by vm_compute|]. unfold r'.
  rewrite (H3 "m2" 2%nat); [by vm_compute|done|].
  exists (mkReminder "u2" "m2" (Some "chat2") [2%nat]). split; [by vm_compute|].
  apply list_elem_of_singleton. done.
Defined.

Lemma reschedule_replaces_triggers_witness :
  let r1 := stateOf (scheduleMedicationReminders Scenario.cronAccepts
                       (prescription "m1" ["08:00"; "20:00"]) Scenario.alice two_users) in
  let r2 := stateOf (scheduleMedicationReminders Scenario.cronAccepts
                       (prescription "m1" ["07:30"]) Scenario.alice r1) in
  liveExpressions r2 = [mkCron (Some 0) (Some 9); mkCron (Some 30) (Some 7)].
Proof.
  intros r1 r2.
  destruct (reschedule_replaces_triggers Scenario.cronAccepts
              (prescription "m1" ["08:00"; "20:00"]) (prescription "m1" ["07:30"])
              Scenario.alice Scenario.alice ["08:00"; "20:00"] ["07:30"] two_users)
    as (_ & H & _); [reflexivity|reflexivity|reflexivity|repeat constructor..|].
  fold r1 r2 in H. rewrite H. by vm_compute.
Defined.

Lemma leaked_trigger_is_never_cancelled_witness :
  let r' := stateOf (scheduleMedicationReminders Scenario.cronAccepts
                       (prescription "m1" ["08:00"; "25:00"; "20:00"]) Scenario.alice empty) in
  let cs := [Cancel "m1"; CancelUser ["m1"] "u1";
             Schedule (prescription "m1" ["21:00"]) Scenario.alice; Cancel "m1"] in
  jobs (calls Scenario.cronAccepts cs r') !! 0%nat = Some (mkJob (mkCron (Some 0) (Some 8)) true)
  ∧ liveExpressions (calls Scenario.cronAccepts cs r') = [mkCron (Some 0) (Some 8)].
Proof.
  intros r' cs. split; [|by vm_compute].
  apply (leaked_trigger_is_never_cancelled Scenario.cronAccepts
           (prescription "m1" ["08:00"; "25:00"; "20:00"]) Scenario.alice empty
           ["08:00"] "25:00" ["20:00"] cs 0%nat "08:00").
  - apply wellFormed_empty.
  - reflexivity.
  - repeat constructor.
  - reflexivity.
  - reflexivity.
Defined.

Lemma cancelUserReminders_cancels_the_user_witness :
  let r' := cancelUserReminders ["m1"; "m2"] "u1" two_users in
  activeReminders r' !! "m1" = None
  ∧ jobs r' !! 2%nat = jobs two_users !! 2%nat.
Proof.
  intros r'. split; [by vm_compute|].
  destruct (cancelUserReminders_cancels_the_user ["m1"; "m2"] "u1" two_users
              two_users_wellFormed) as (_ & _ & H).
  - apply (bool_decide_unpack _). by vm_compute.
  - apply (H "m2" (mkReminder "u2" "m2" (Some "chat2") [2%nat]) 2%nat).
    + by vm_compute.
    + done.
    + by apply list_elem_of_singleton.
Defined.

End RegistryWitnesses.

(** ** The methods of a medication *)

Section MedicationMethodsFacts.

Import MedicationMethods.

Lemma insertSorted_Permutation {A} (compare : A → A → Js.num) x l :
  insertSorted compare x l ≡ₚ x :: l.
Proof.
  induction l as [|y l IH]; [done|]. cbn [insertSorted].
  destruct (comesAfter compare x y); [|done].
  rewrite IH. apply Permutation_swap.
Qed.

Lemma sort_Permutation {A} (compare : A → A → Js.num) l : sort compare l ≡ₚ l.
Proof.
  induction l as [|x l IH]; [done|]. cbn [sort foldr]. fold (sort compare l).
  by rewrite insertSorted_Permutation, IH.
Qed.

(** The first element of the sorted entries is one of least minutes. *)
Lemma sort_byMinutes_head (l : list Entry) :
  Forall (λ e, is_Some (minutes e)) l →
  match sort byMinutes l with
  | [] => l = []
  | e :: _ => e ∈ l ∧ ∀ e', e' ∈ l → Js.le (minutes e) (minutes e') = true
  end.
Proof.
  induction 1 as [|x l [a Hx] Hl IH]; [done|].
  cbn [sort foldr]. fold (sort byMinutes l).
  destruct (sort byMinutes l) as [|y rest].
  - subst l. cbn. split; [by left|]. intros e' ->%list_elem_of_singleton.
    rewrite Hx. cbn. lia.
  - destruct IH as [Hy Hmin].
    assert (is_Some (minutes y)) as [b Hb].
    { rewrite Forall_forall in Hl. by apply Hl. }
    cbn [insertSorted]. unfold comesAfter, byMinutes. rewrite Hx, Hb. cbn.
    destruct (0 <? a - b) eqn:Hab.
    + apply Z.ltb_lt in Hab. split; [by right|].
      intros e' [->|He']%elem_of_cons; [|by apply Hmin].
      rewrite Hx, Hb. cbn. lia.
    + apply Z.ltb_ge in Hab. split; [by left|].
      intros e' [->|He']%elem_of_cons; [rewrite Hx; cbn; lia|].
      specialize (Hmin e' He'). rewrite Hb in Hmin. rewrite Hx.
      destruct (minutes e') as [c|]; [|done]. cbn in *. lia.
Qed.

Lemma entries_defined (times : list string) :
  Forall (λ t, Js.matchesTimePattern t = true) times →
  Forall (λ e, is_Some (minutes e)) (entryOf <$> times).
Proof.
  intros H. apply Forall_fmap. eapply Forall_impl; [exact H|].
  intros t Ht. destruct (minutesOfDay_pattern t Ht) as (h & mi & _ & _ & E).
  change (is_Some (Js.minutesOfDay t)). by rewrite E.
Qed.

(** X22.  [getNextDoseTime()] returns the next scheduled time of the
    day's cycle: the earliest scheduled time that is later than the
    current minute, or, when no scheduled time is later today, the
    earliest scheduled time of all; it returns null only for a
    medication without times.  The times are those the schema's
    validator accepts. *)
Theorem getNextDoseTime_is_next (nowMs : Z) (m : Medication.t) :
  Forall (λ t, Js.matchesTimePattern t = true) (Medication.timesPerDay m) →
  let current := Date.getHours nowMs * 60 + Date.getMinutes nowMs in
  match getNextDoseTime nowMs m with
  | None => Medication.timesPerDay m = []
  | Some t =>
      t ∈ Medication.timesPerDay m
      ∧ ∃ a, Js.minutesOfDay t = Some a
          ∧ ((current < a
              ∧ ∀ s b, s ∈ Medication.timesPerDay m → Js.minutesOfDay s = Some b →
                       current < b → a ≤ b)
             ∨ (∀ s b, s ∈ Medication.timesPerDay m → Js.minutesOfDay s = Some b →
                       b ≤ current ∧ a ≤ b))
  end.
Proof.
  intros Hvalid current. unfold getNextDoseTime. fold current.
  set (entries := entryOf <$> Medication.timesPerDay m).
  set (later := List.filter (λ e, Js.gt (minutes e) (Some current)) entries).
  pose proof (entries_defined _ Hvalid) as Hdef. fold entries in Hdef.
  assert (Forall (λ e, is_Some (minutes e)) later) as Hdef'.
  { rewrite Forall_forall in Hdef. apply Forall_forall. intros e He.
    apply Hdef. apply list_elem_of_In in He. apply filter_In in He as [He _].
    by apply list_elem_of_In. }
  assert (∀ e, e ∈ entries → time e ∈ Medication.timesPerDay m
                             ∧ minutes e = Js.minutesOfDay (time e)) as Hentry.
  { intros e (t & -> & Ht)%list_elem_of_fmap. by split. }
  pose proof (sort_byMinutes_head later Hdef') as Hnext.
  destruct (sort byMinutes later) as [|e rest].
  - pose proof (sort_byMinutes_head entries Hdef) as Hall.
    destruct (sort byMinutes entries) as [|e rest].
    + by apply fmap_nil_inv in Hall.
    + destruct Hall as [He Hmin]. destruct (Hentry e He) as [Ht Hm].
      split; [done|].
      assert (is_Some (minutes e)) as [a Ha].
      { rewrite Forall_forall in Hdef. by apply Hdef. }
      exists a. split; [congruence|]. right. intros s b Hs Hb.
      assert (entryOf s ∈ entries) as Hin by (by apply list_elem_of_fmap_2).
      split.
      * destruct (decide (b ≤ current)) as [|Hgt]; [done|]. exfalso.
        assert (entryOf s ∈ later) as Hl.
        { apply list_elem_of_In, filter_In. split; [by apply list_elem_of_In|].
          change (Js.gt (Js.minutesOfDay s) (Some current) = true). rewrite Hb.
          apply Z.ltb_lt. lia. }
        rewrite Hnext in Hl. by apply not_elem_of_nil in Hl.
      * specialize (Hmin _ Hin).
        change (minutes (entryOf s)) with (Js.minutesOfDay s) in Hmin.
        rewrite Ha, Hb in Hmin. apply Z.leb_le in Hmin. lia.
  - destruct Hnext as [He Hmin].
    apply list_elem_of_In, filter_In in He as [He Hlater]. apply list_elem_of_In in He.
    destruct (Hentry e He) as [Ht Hm]. split; [done|].
    assert (is_Some (minutes e)) as [a Ha].
    { rewrite Forall_forall in Hdef. by apply Hdef. }
    exists a. split; [congruence|]. left.
    rewrite Ha in Hlater. cbn in Hlater. apply Z.ltb_lt in Hlater. split; [done|].
    intros s b Hs Hb Hgt.
    assert (entryOf s ∈ later) as Hl.
    { apply list_elem_of_In, filter_In. split.
      - apply list_elem_of_In. by apply list_elem_of_fmap_2.
      - change (Js.gt (Js.minutesOfDay s) (Some current) = true). rewrite Hb.
        apply Z.ltb_lt. lia. }
    specialize (Hmin _ Hl).
    change (minutes (entryOf s)) with (Js.minutesOfDay s) in Hmin.
    rewrite Ha, Hb in Hmin. apply Z.leb_le in Hmin. lia.
Qed.

Lemma getNextDoseTime_is_next_witness :
  getNextDoseTime (Scenario.at_ 8 0) Scenario.aspirin = Some "20:00"
  ∧ getNextDoseTime (Scenario.at_ 20 0) Scenario.aspirin = Some "08:00"
  ∧ "20:00" ∈ Medication.timesPerDay Scenario.aspirin.
Proof.
  pose proof (getNextDoseTime_is_next (Scenario.at_ 8 0) Scenario.aspirin) as H.
  assert (getNextDoseTime (Scenario.at_ 8 0) Scenario.aspirin = Some "20:00") as E
    by (by vm_compute).
  rewrite E in H. split; [exact E|]. split; [by vm_compute|].
  apply H. repeat constructor.
Defined.

Lemma insertSorted_sorted (x : string) (l : list string) :
  is_Some (Js.minutesOfDay x) →
  Forall (λ t, is_Some (Js.minutesOfDay t)) l →
  StronglySorted earlierOrSame l →
  StronglySorted earlierOrSame (insertSorted byTime x l).
Proof.
  intros [a Hx] Hdef Hsorted. induction Hsorted as [|y l Hl IH Hy]; cbn [insertSorted].
  - by repeat constructor.
  - apply Forall_cons in Hdef as [[b Hb] Hdef]. specialize (IH Hdef).
    unfold comesAfter, byTime. rewrite Hx, Hb. cbn [Js.sub mbind option_bind Js.gt Js.lt].
    destruct (0 <? a - b) eqn:Hab.
    + apply Z.ltb_lt in Hab. constructor; [done|].
      rewrite insertSorted_Permutation. constructor; [|done].
      exists b, a. split_and!; [done|done|lia].
    + apply Z.ltb_ge in Hab. constructor; [by constructor|].
      constructor; [exists a, b; split_and!; [done|done|lia]|].
      eapply Forall_impl; [exact Hy|]. intros t (b' & c & Hb' & Hc & Hle).
      exists a, c. split_and!; [done|done|]. assert (b' = b) by congruence. lia.
Qed.

Lemma insertSorted_stable (a : Js.num) (x : string) (l : list string) :
  is_Some (Js.minutesOfDay x) →
  Forall (λ t, is_Some (Js.minutesOfDay t)) l →
  List.filter (λ t, bool_decide (Js.minutesOfDay t = a)) (insertSorted byTime x l)
  = List.filter (λ t, bool_decide (Js.minutesOfDay t = a)) (x :: l).
Proof.
  intros [b Hx]. induction 1 as [|y l [c Hy] Hl IH]; [done|].
  cbn [insertSorted]. unfold comesAfter, byTime. rewrite Hx, Hy. cbn [Js.sub mbind option_bind Js.gt Js.lt].
  destruct (0 <? b - c) eqn:Hbc; [|done].
  apply Z.ltb_lt in Hbc. fold byTime. cbn [List.filter]. rewrite IH. cbn [List.filter].
  rewrite Hx, Hy. destruct (decide (Some b = a)) as [<-|Hne].
  - rewrite (bool_decide_eq_true_2 (Some b = Some b)) by done.
    rewrite (bool_decide_eq_false_2 (Some c = Some b)); [done|]. intros [=]. lia.
  - by rewrite (bool_decide_eq_false_2 (Some b = a)).
Qed.

(** X23.  A save that modified the times leaves them in chronological
    order: the stored list holds the same times, each as often as
    before, sorted by their minute of the day, and times of the same
    minute keep their order.  The times are those the validator
    accepts. *)
Theorem preSave_sorts_times (m : Medication.t) :
  Forall (λ t, Js.matchesTimePattern t = true) (Medication.timesPerDay m) →
  let saved := Medication.timesPerDay (preSave true m) in
  saved ≡ₚ Medication.timesPerDay m
  ∧ StronglySorted earlierOrSame saved
  ∧ ∀ a, List.filter (λ t, bool_decide (Js.minutesOfDay t = a)) saved
         = List.filter (λ t, bool_decide (Js.minutesOfDay t = a)) (Medication.timesPerDay m).
Proof.
  intros Hvalid saved. subst saved. cbn [preSave Medication.timesPerDay].
  assert (Forall (λ t, is_Some (Js.minutesOfDay t)) (Medication.timesPerDay m)) as Hdef.
  { eapply Forall_impl; [exact Hvalid|]. intros t Ht.
    destruct (minutesOfDay_pattern t Ht) as (h & mi & _ & _ & E). by rewrite E. }
  split; [apply sort_Permutation|].
  induction Hdef as [|x l Hx Hl IH]; [by split; [constructor|]|].
  apply Forall_cons in Hvalid as [_ Hvalid]. destruct (IH Hvalid) as [IH1 IH2].
  assert (Forall (λ t, is_Some (Js.minutesOfDay t)) (sort byTime l)) as Hl'
    by (by rewrite sort_Permutation).
  cbn [sort foldr]. fold (sort byTime l). split.
  - by apply insertSorted_sorted.
  - intros a. rewrite insertSorted_stable by done. cbn [List.filter]. by rewrite IH2.
Qed.

Lemma preSave_sorts_times_witness :
  let m := Medication.mk "m4" (Some Scenario.alice) "metformin" ["20:00"; "08:00"; "8:00"; "13:30"]
             Scenario.day (Scenario.day + 30 * Date.msPerDay) true None in
  Medication.timesPerDay (preSave true m) = ["08:00"; "8:00"; "13:30"; "20:00"]
  ∧ StronglySorted earlierOrSame (Medication.timesPerDay (preSave true m)).
Proof.
  intros m. split; [by vm_compute|].
  apply (preSave_sorts_times m). repeat constructor.
Defined.

Lemma ceilDiv_spec a b : 0 < b → (ceilDiv a b - 1) * b < a ≤ ceilDiv a b * b.
Proof. intros Hb. unfold ceilDiv. divmod. Qed.

(** X24.  For a medication that has started, [daysRemaining] lies
    between 0 and [totalDays]; it is 0 exactly when the end date is not
    in the future, and otherwise it is the number of days, rounded up,
    until the end date.  The end date is after the start date, as the
    validator requires. *)
Theorem daysRemaining_bounds (nowMs : Z) (m : Medication.t) :
  Medication.startDate m < Medication.endDate m →
  Medication.startDate m ≤ nowMs →
  0 ≤ daysRemaining nowMs m ≤ totalDays m
  ∧ (daysRemaining nowMs m = 0 ↔ Medication.endDate m ≤ nowMs)
  ∧ (nowMs < Medication.endDate m →
     (daysRemaining nowMs m - 1) * Date.msPerDay < Medication.endDate m - nowMs
       ≤ daysRemaining nowMs m * Date.msPerDay).
Proof.
  intros Hdates Hstarted. unfold daysRemaining, totalDays, Date.msPerDay.
  pose proof (ceilDiv_spec (Medication.endDate m - nowMs) 86400000 ltac:(lia)) as H1.
  pose proof (ceilDiv_spec (Medication.endDate m - Medication.startDate m) 86400000 ltac:(lia))
    as H2.
  destruct (0 <? ceilDiv (Medication.endDate m - nowMs) 86400000) eqn:E;
    [apply Z.ltb_lt in E|apply Z.ltb_ge in E]; split_and!; try split; try lia.
Qed.

Lemma daysRemaining_bounds_witness :
  0 ≤ daysRemaining (Scenario.at_ 8 0) Scenario.aspirin ≤ totalDays Scenario.aspirin
  ∧ daysRemaining (Scenario.at_ 8 0) Scenario.aspirin = 30.
Proof.
  split; [|by vm_compute].
  apply (daysRemaining_bounds (Scenario.at_ 8 0) Scenario.aspirin); by vm_compute.
Defined.

End MedicationMethodsFacts.


(** ** Active medications and the reminder query *)

Section ActiveAndSelected.

Import MedicationMethods.

(** X25.  The reminder query compares the dates of a medication with
    the midnight that starts today, the virtual [isCurrentlyActive] with
    the current instant.  So a currently active medication is returned
    by the query exactly when it started by that midnight (one that
    starts later today is not reminded today), and a returned medication
    is currently active exactly when its end date has not passed (one
    that ended earlier today is still reminded today). *)
Theorem active_medication_and_reminder_query (env : Env) (w : World) (m : Medication.t) :
  dbResolves env FindMedications = true →
  m ∈ medications w →
  ∃ found,
    MedicationModel.findMedicationsForReminders env w = Returned found w
    ∧ (isCurrentlyActive (now env) m = true →
       (m ∈ found ↔ Medication.startDate m ≤ Date.startOfDay (now env)))
    ∧ (m ∈ found →
       (isCurrentlyActive (now env) m = true ↔ now env ≤ Medication.endDate m)).
Proof.
  intros Hfind Hm. exists (selected env w). split.
  { unfold MedicationModel.findMedicationsForReminders, awaitDb. by rewrite Hfind. }
  assert (Date.startOfDay (now env) ≤ now env) as Hday.
  { unfold Date.startOfDay, Date.msPerDay. divmod. }
  assert (m ∈ selected env w
          ↔ Medication.isActive m = true
            ∧ Medication.startDate m ≤ Date.startOfDay (now env)
            ∧ Date.startOfDay (now env) ≤ Medication.endDate m) as Hsel.
  { unfold selected. rewrite list_elem_of_In, filter_In. cbv beta.
    rewrite !andb_true_iff, !Z.leb_le, <- list_elem_of_In. tauto. }
  assert (isCurrentlyActive (now env) m = true
          ↔ Medication.isActive m = true
            ∧ Medication.startDate m ≤ now env ∧ now env ≤ Medication.endDate m) as Hact.
  { unfold isCurrentlyActive. rewrite !andb_true_iff, !Z.leb_le. tauto. }
  rewrite Hsel, Hact. split.
  - intros (Hon & Hstart & Hend). split; [tauto|]. intros Hs. split_and!; [done|done|lia].
  - intros (Hon & Hstart & Hend). split; [tauto|]. intros He. split_and!; [done|lia|done].
Qed.

Lemma active_medication_and_reminder_query_witness :
  let late := Medication.mk "m5" (Some Scenario.alice) "amoxicillin" ["12:00"]
                (Scenario.at_ 10 0) (Scenario.day + 7 * Date.msPerDay) true None in
  let env := Scenario.healthy (Scenario.at_ 11 0) in
  isCurrentlyActive (now env) late = true
  ∧ stateOf (MedicationModel.findMedicationsForReminders env (Scenario.world [late]))
    = Scenario.world [late]
  ∧ ¬ Medication.startDate late ≤ Date.startOfDay (now env).
Proof.
  intros late env.
  destruct (active_medication_and_reminder_query env (Scenario.world [late]) late)
    as (found & Hq & _ & _); [reflexivity|by left|].
  split; [by vm_compute|]. split; [by rewrite Hq|by vm_compute].
Defined.

End ActiveAndSelected.
